(** * QR generator service: redirect, quota and analytics engine

    A shallow embedding of the short-identifier redirect path, the plan
    quota check, the account plan hook and the analytics aggregation of
    the service, with the properties of its specification. *)

From Stdlib Require Import ZArith NArith List String Ascii Bool Lia.
From Stdlib Require Import Sorting.Sorted Sorting.Permutation.
From Stdlib Require Import Floats.SpecFloat Numbers.DecimalString.
Import ListNotations.
Local Open Scope string_scope.
Local Open Scope list_scope.
Local Open Scope Z_scope.

(** ** The JavaScript values and built-ins the handlers rely on *)

Module JS.

(** A JavaScript string is a sequence of UTF-16 code units. *)
Definition code_unit := N.
Definition jsstring := list code_unit.

Definition js (s : string) : jsstring :=
  map N_of_ascii (list_ascii_of_string s).

Fixpoint str_eqb (a b : jsstring) : bool :=
  match a, b with
  | [], [] => true
  | x :: a', y :: b' => (x =? y)%N && str_eqb a' b'
  | _, _ => false
  end.

(** [!s] is false exactly for the non-empty strings. *)
Definition truthy (s : jsstring) : bool :=
  match s with [] => false | _ :: _ => true end.

(** [o || d] on an optional string: [undefined] and [''] are falsy. *)
Definition or_else (o : option jsstring) (d : jsstring) : jsstring :=
  match o with
  | Some s => if truthy s then s else d
  | None => d
  end.

(** ECMAScript WhiteSpace and LineTerminator code points, which
    [String.prototype.trim] strips. *)
Definition is_white_space (c : code_unit) : bool :=
  ((9 <=? c) && (c <=? 13) || (c =? 32) || (c =? 160) || (c =? 5760)
   || (8192 <=? c) && (c <=? 8202) || (c =? 8232) || (c =? 8233)
   || (c =? 8239) || (c =? 8287) || (c =? 12288) || (c =? 65279))%N.

Fixpoint trimStart (s : jsstring) : jsstring :=
  match s with
  | c :: s' => if is_white_space c then trimStart s' else s
  | [] => []
  end.

Definition trimEnd (s : jsstring) : jsstring := rev (trimStart (rev s)).

Definition trim (s : jsstring) : jsstring := trimEnd (trimStart s).

(** Regular expressions of the shape the sources use: a sequence of
    single-character classes, each optional or not, anchored at the start
    and possibly at the end.  An optional item is tried greedily first. *)
Record re_item := { re_optional : bool; re_class : code_unit -> bool }.

Fixpoint re_match (anchored_end : bool) (items : list re_item) (s : jsstring)
  : bool :=
  match items with
  | [] => if anchored_end then negb (truthy s) else true
  | it :: items' =>
      match s with
      | c :: s' => re_class it c && re_match anchored_end items' s'
      | [] => false
      end
      || (re_optional it && re_match anchored_end items' s)
  end.

(** A literal character; under the [i] flag an ASCII letter also matches
    its capital (a code unit above 127 never canonicalises to ASCII). *)
Definition lit (a : ascii) : re_item :=
  {| re_optional := false; re_class := fun u => (u =? N_of_ascii a)%N |}.

Definition lit_i (lower : ascii) : re_item :=
  {| re_optional := false;
     re_class := fun u =>
       ((u =? N_of_ascii lower) || (u =? N_of_ascii lower - 32))%N |}.

Definition opt (it : re_item) : re_item :=
  {| re_optional := true; re_class := re_class it |}.

(** [.] matches any code unit but the four line terminators. *)
Definition dot : re_item :=
  {| re_optional := false;
     re_class := fun u =>
       negb ((u =? 10) || (u =? 13) || (u =? 8232) || (u =? 8233))%N |}.

(** [[0-9A-F]] under the [i] flag. *)
Definition hex_i : re_item :=
  {| re_optional := false;
     re_class := fun u =>
       ((48 <=? u) && (u <=? 57) || (65 <=? u) && (u <=? 70)
        || (97 <=? u) && (u <=? 102))%N |}.

(** [String.prototype.toLowerCase] on the code units a request header can
    hold: Node decodes header bytes one to one (Latin-1), so a user agent
    has no code unit above 255.  On that range the mapping sends A-Z and
    the accented capitals U+00C0-U+00DE (but the multiplication sign
    U+00D7) to the letter 32 places further; larger code units are left
    alone by this model. *)
Definition lower_unit (c : code_unit) : code_unit :=
  (if (65 <=? c) && (c <=? 90) then c + 32
   else if (192 <=? c) && (c <=? 222) && negb (c =? 215) then c + 32
   else c)%N.

Definition toLowerCase (s : jsstring) : jsstring := map lower_unit s.

Fixpoint startsWith (s p : jsstring) {struct p} : bool :=
  match p, s with
  | [], _ => true
  | x :: p', c :: s' => (c =? x)%N && startsWith s' p'
  | _ :: _, [] => false
  end.

(** [s.includes(p)]: [p] occurs in [s] at some position. *)
Fixpoint includes (s p : jsstring) : bool :=
  startsWith s p ||
  match s with
  | _ :: s' => includes s' p
  | [] => false
  end.

(** Code-unit order of two strings, as -1, 0 or 1.  The daily series calls
    [localeCompare] on ISO dates only (ten characters, digits and hyphens
    at fixed places), where collation order is this order. *)
Fixpoint localeCompare (a b : jsstring) : Z :=
  match a, b with
  | [], [] => 0
  | [], _ :: _ => -1
  | _ :: _, [] => 1
  | x :: a', y :: b' =>
      match (x ?= y)%N with
      | Lt => -1
      | Gt => 1
      | Eq => localeCompare a' b'
      end
  end.

(** [Array.prototype.slice(-n)]: the last [n] elements (all of them when
    there are fewer). *)
Definition slice_last {A} (n : nat) (l : list A) : list A :=
  skipn (List.length l - n) l.

(** [Array.prototype.sort(cmp)] is stable; with a comparator that is a
    total preorder every stable sort returns the list computed here. *)
Fixpoint sort_insert {A} (cmp : A -> A -> Z) (x : A) (l : list A) : list A :=
  match l with
  | [] => [x]
  | y :: l' => if cmp x y <=? 0 then x :: l else y :: sort_insert cmp x l'
  end.

Fixpoint sort {A} (cmp : A -> A -> Z) (l : list A) : list A :=
  match l with
  | [] => []
  | x :: l' => sort_insert cmp x (sort cmp l')
  end.

(** A [Map] with string keys: its entries in insertion order.  [set] on a
    present key keeps the key's place. *)
Definition Map (V : Type) := list (jsstring * V).

Fixpoint Map_get {V} (m : Map V) (k : jsstring) : option V :=
  match m with
  | [] => None
  | (k', v) :: m' => if str_eqb k' k then Some v else Map_get m' k
  end.

Fixpoint Map_set {V} (m : Map V) (k : jsstring) (v : V) : Map V :=
  match m with
  | [] => [(k, v)]
  | (k', v') :: m' =>
      if str_eqb k' k then (k', v) :: m' else (k', v') :: Map_set m' k v
  end.

(** [x || 0] for a count read from a map. *)
Definition or_0 (o : option Z) : Z :=
  match o with
  | Some v => if v =? 0 then 0 else v
  | None => 0
  end.

(** Numbers are IEEE-754 doubles; the counters of the service are integers
    far below 2^53 and are kept as [Z], the percentage arithmetic is done
    on doubles as the runtime does it. *)
Definition number := spec_float.

Definition of_Z (z : Z) : number := binary_normalize 53 1024 z 0 false.
Definition num_div : number -> number -> number := SFdiv 53 1024.
Definition num_mul : number -> number -> number := SFmul 53 1024.

(** [Math.round]: the nearest integer, a tie going towards +infinity (the
    sign of a zero result is not kept). *)
Definition Math_round (x : number) : number :=
  match x with
  | S754_finite s m e =>
      let sm := if s then Z.neg m else Z.pos m in
      if 0 <=? e then x else of_Z ((sm + 2 ^ (- e - 1)) / 2 ^ (- e))
  | _ => x
  end.

(** A [Date] is its time value: milliseconds since the epoch, UTC. *)
Definition Date := Z.

Definition msPerDay : Z := 86400000.

(** [d.setDate(d.getDate() - n)]: the same wall-clock time [n] calendar
    days earlier.  The service runs with its local time zone at UTC, where
    this is [n] times 24 hours. *)
Definition minus_days (d : Date) (n : Z) : Date := d - n * msPerDay.

(** The proleptic Gregorian date of a day number (days since 1970-01-01). *)
Definition civil_from_days (z0 : Z) : Z * Z * Z :=
  let z := z0 + 719468 in
  let era := z / 146097 in
  let doe := z - era * 146097 in
  let yoe := (doe - doe / 1460 + doe / 36524 - doe / 146096) / 365 in
  let doy := doe - (365 * yoe + yoe / 4 - yoe / 100) in
  let mp := (5 * doy + 2) / 153 in
  let d := doy - (153 * mp + 2) / 5 + 1 in
  let m := if mp <? 10 then mp + 3 else mp - 9 in
  let y := yoe + era * 400 + (if m <=? 2 then 1 else 0) in
  (y, m, d).

Definition digit (n : Z) : code_unit := (48 + Z.to_N (n mod 10))%N.

Definition pad2 (n : Z) : jsstring := [digit (n / 10); digit n].

Definition pad4 (n : Z) : jsstring :=
  [digit (n / 1000); digit (n / 100); digit (n / 10); digit n].

(** [d.toISOString().split('T')[0]]: the UTC calendar date, [YYYY-MM-DD]
    (years 0000 to 9999). *)
Definition toISODate (d : Date) : jsstring :=
  let '(y, m, dd) := civil_from_days (d / msPerDay) in
  pad4 y ++ js "-" ++ pad2 m ++ js "-" ++ pad2 dd.

End JS.

Import JS.
Coercion JS.js : string >-> JS.jsstring.

(** Decimal text of an integer, as in a template literal. *)
Definition Number_toString (z : Z) : jsstring :=
  JS.js (NilZero.string_of_int (Z.to_int z)).

(** The collaborators of the runtime the handlers call and the sources do
    not define: the WHATWG [URL] constructor ([None] when it throws), the
    encoder of the qrcode package ([None] when it rejects) and Mongoose's
    cast of a string to an ObjectId, which a query by [_id] runs on its
    argument ([false] when it throws [CastError]). *)
Record URL := { protocol : jsstring; href : jsstring }.

Class Runtime := {
  URL_parse : jsstring -> option URL;
  QRCode_toDataURL :
    jsstring -> Z -> Z -> jsstring -> jsstring -> jsstring -> option jsstring;
  castObjectId : jsstring -> bool
}.

(** ** utils/qrGenerator.ts *)

Module Utils.

(** [/^https?:\/\//i] *)
Definition re_scheme_i : list re_item :=
  [lit_i "h"; lit_i "t"; lit_i "t"; lit_i "p"; opt (lit_i "s");
   lit ":"; lit "/"; lit "/"]%char.

Definition validateUrl `{Runtime} (url : jsstring) : bool :=
  match URL_parse url with
  | Some parsedUrl =>
      str_eqb (protocol parsedUrl) "http:"
      || str_eqb (protocol parsedUrl) "https:"
  | None => false
  end.

Definition sanitizeUrl (url : jsstring) : jsstring :=
  let url := trim url in
  if negb (re_match false re_scheme_i url) then JS.js "https://" ++ url
  else url.

End Utils.

(** ** models-production: the User and QRCode schemas *)

Abbreviation ObjectId := jsstring (only parsing).

Definition opt_eqb (a b : option jsstring) : bool :=
  match a, b with
  | Some x, Some y => str_eqb x y
  | None, None => true
  | _, _ => false
  end.

Module User.

Record Limits := {
  maxQRCodes : Z;
  maxScansPerMonth : Z;
  canCustomize : bool;
  canTrackAnalytics : bool;
  canExportData : bool
}.

Record Usage := {
  qrCodesCreated : Z;
  monthlyScans : Z;
  lastResetDate : Date
}.

Record doc := {
  _id : ObjectId;
  email : jsstring;
  name : jsstring;
  plan : jsstring;
  usage : Usage;
  limits : Limits
}.

Definition set_limits (this : doc) (l : Limits) : doc :=
  {| _id := _id this; email := email this; name := name this;
     plan := plan this; usage := usage this; limits := l |}.

Definition set_plan (this : doc) (p : jsstring) : doc :=
  {| _id := _id this; email := email this; name := name this;
     plan := p; usage := usage this; limits := limits this |}.

Definition set_qrCodesCreated (this : doc) (n : Z) : doc :=
  {| _id := _id this; email := email this; name := name this;
     plan := plan this;
     usage := {| qrCodesCreated := n;
                 monthlyScans := monthlyScans (usage this);
                 lastResetDate := lastResetDate (usage this) |};
     limits := limits this |}.

(** A document in memory: its fields and whether [isModified('plan')]. *)
Record loaded := { this : doc; isModified_plan : bool }.

(** [user.plan = p]: the path is marked modified when the value changes. *)
Definition assign_plan (d : loaded) (p : jsstring) : loaded :=
  if str_eqb (plan (this d)) p then d
  else {| this := set_plan (this d) p; isModified_plan := true |}.

(** [user.limits = l] *)
Definition assign_limits (d : loaded) (l : Limits) : loaded :=
  {| this := set_limits (this d) l; isModified_plan := isModified_plan d |}.

(** The hook [UserSchema.pre('save')] that updates the limits from the plan.
    The [switch] has no default: another plan leaves the limits alone. *)
Definition pre_save_limits (d : loaded) : doc :=
  if isModified_plan d then
    if str_eqb (plan (this d)) "free" then
      set_limits (this d)
        {| maxQRCodes := 5; maxScansPerMonth := 100; canCustomize := false;
           canTrackAnalytics := false; canExportData := false |}
    else if str_eqb (plan (this d)) "pro" then
      set_limits (this d)
        {| maxQRCodes := 100; maxScansPerMonth := 10000; canCustomize := true;
           canTrackAnalytics := true; canExportData := true |}
    else if str_eqb (plan (this d)) "enterprise" then
      set_limits (this d)
        {| maxQRCodes := -1; maxScansPerMonth := -1; canCustomize := true;
           canTrackAnalytics := true; canExportData := true |}
    else this d
  else this d.

End User.

Module QRCodeModel.

Record Location := { country : option jsstring; city : option jsstring }.

Record ScanEvent := {
  timestamp : Date;
  userAgent : option jsstring;
  ipAddress : option jsstring;
  location : option Location
}.

Record Customization := {
  size : Z;
  errorCorrectionLevel : jsstring;
  foregroundColor : jsstring;
  backgroundColor : jsstring
}.

Record Analytics := {
  totalScans : Z;
  lastScanned : option Date;
  scanHistory : list ScanEvent
}.

Record doc := {
  _id : ObjectId;
  userId : option ObjectId;
  url : jsstring;
  shortId : jsstring;
  qrCodeData : jsstring;
  title : jsstring;
  description : jsstring;
  customization : Customization;
  analytics : Analytics;
  isActive : bool;
  isPremium : bool;
  createdAt : Date
}.

Definition set_analytics (q : doc) (a : Analytics) : doc :=
  {| _id := _id q; userId := userId q; url := url q; shortId := shortId q;
     qrCodeData := qrCodeData q; title := title q;
     description := description q; customization := customization q;
     analytics := a; isActive := isActive q; isPremium := isPremium q;
     createdAt := createdAt q |}.

Definition set_title (q : doc) (t : jsstring) : doc :=
  {| _id := _id q; userId := userId q; url := url q; shortId := shortId q;
     qrCodeData := qrCodeData q; title := t;
     description := description q; customization := customization q;
     analytics := analytics q; isActive := isActive q;
     isPremium := isPremium q; createdAt := createdAt q |}.

Definition set_description (q : doc) (d : jsstring) : doc :=
  {| _id := _id q; userId := userId q; url := url q; shortId := shortId q;
     qrCodeData := qrCodeData q; title := title q;
     description := d; customization := customization q;
     analytics := analytics q; isActive := isActive q;
     isPremium := isPremium q; createdAt := createdAt q |}.

Definition set_isActive (q : doc) (b : bool) : doc :=
  {| _id := _id q; userId := userId q; url := url q; shortId := shortId q;
     qrCodeData := qrCodeData q; title := title q;
     description := description q; customization := customization q;
     analytics := analytics q; isActive := b;
     isPremium := isPremium q; createdAt := createdAt q |}.

(** The validators of the schema.  [/^https?:\/\/.+/] and
    [/^#[0-9A-F]{6}$/i]; a required string may not be empty. *)
Definition re_url : list re_item :=
  [lit "h"; lit "t"; lit "t"; lit "p"; opt (lit "s");
   lit ":"; lit "/"; lit "/"; dot]%char.

Definition re_color : list re_item :=
  [lit "#"; hex_i; hex_i; hex_i; hex_i; hex_i; hex_i]%char.

Definition valid_title (t : jsstring) : bool :=
  (List.length t <=? 100)%nat.

Definition valid_description (d : jsstring) : bool :=
  (List.length d <=? 500)%nat.

Definition valid_customization (c : Customization) : bool :=
  (128 <=? size c) && (size c <=? 1024)
  && (str_eqb (errorCorrectionLevel c) "L"
      || str_eqb (errorCorrectionLevel c) "M"
      || str_eqb (errorCorrectionLevel c) "Q"
      || str_eqb (errorCorrectionLevel c) "H")
  && re_match true re_color (foregroundColor c)
  && re_match true re_color (backgroundColor c).

Definition validate (q : doc) : bool :=
  truthy (url q) && re_match false re_url (url q)
  && truthy (shortId q) && truthy (qrCodeData q)
  && valid_title (title q) && valid_description (description q)
  && valid_customization (customization q).

End QRCodeModel.

(** ** The HTTP server over the document store *)

Module Server.

Import QRCodeModel.

(** The two collections, each in insertion order. *)
Record DB := { qrcodes : list QRCodeModel.doc; users : list User.doc }.

Inductive Body :=
| ErrorBody (error : jsstring)
| LimitBody (error upgradeUrl : jsstring)
| CreatedBody (id : ObjectId) (qrCodeData shortUrl shortId originalUrl
                title description : jsstring) (createdAt : Date)
| UpdatedBody (id : ObjectId) (title description : jsstring)
              (isActive : bool) (message : jsstring)
| MessageBody (message : jsstring).

Inductive Response :=
| Json (status : Z) (body : Body)
| Html (status : Z) (page : jsstring)
| Found (status : Z) (Location : jsstring).

Fixpoint replace_first {A} (p : A -> bool) (x : A) (l : list A) : list A :=
  match l with
  | [] => []
  | y :: l' => if p y then x :: l' else y :: replace_first p x l'
  end.

Fixpoint remove_first {A} (p : A -> bool) (l : list A) : list A :=
  match l with
  | [] => []
  | y :: l' => if p y then l' else y :: remove_first p l'
  end.

(** [QRCodeModel.findOne({ shortId, isActive: true })] *)
Definition findOne_active (qs : list doc) (sid : jsstring) : option doc :=
  find (fun q => str_eqb (shortId q) sid && isActive q) qs.

(** [QRCodeModel.findOne({ _id: qrId, userId: user._id })], once [qrId]
    is cast. *)
Definition findOne_owned (qs : list doc) (qrId uid : ObjectId) : option doc :=
  find (fun q => str_eqb (_id q) qrId && opt_eqb (userId q) (Some uid)) qs.

(** Whether the cast of [qrId] in a query by [_id] succeeds.  The [_id] of
    a stored document is an ObjectId, so the text of one of them is cast. *)
Definition casts `{Runtime} (qs : list doc) (qrId : jsstring) : bool :=
  castObjectId qrId || existsb (fun q => str_eqb (_id q) qrId) qs.

(** [QRCodeModel.countDocuments({ userId })] *)
Definition countDocuments (qs : list doc) (uid : ObjectId) : Z :=
  Z.of_nat (List.length (filter (fun q => opt_eqb (userId q) (Some uid)) qs)).

(** [QRCodeModel.findByIdAndDelete(qrId)] *)
Definition findByIdAndDelete (qs : list doc) (qrId : ObjectId) : list doc :=
  remove_first (fun q => str_eqb (_id q) qrId) qs.

(** [qrCode.save()] of a document read from the collection (its stored
    fields passed the validators when they were written). *)
Definition save (qs : list doc) (q : doc) : list doc :=
  replace_first (fun d => str_eqb (_id d) (_id q)) q qs.

(** [qrCode.save()] of a new document: the schema validators run and the
    unique indexes on [_id] and [shortId] refuse a duplicate ([None] when
    the call throws). *)
Definition insert (qs : list doc) (q : doc) : option (list doc) :=
  if validate q
     && negb (existsb (fun d => str_eqb (_id d) (_id q)
                               || str_eqb (shortId d) (shortId q)) qs)
  then Some (qs ++ [q]) else None.

(** [User.findById] *)
Definition User_findById (us : list User.doc) (uid : ObjectId)
  : option User.doc :=
  find (fun u => str_eqb (User._id u) uid) us.

(** [user.save()]: the pre-save hook, then the write.  The documents the
    handlers save were read from the collection and keep their plan, which
    the [enum] validator has accepted; the validators, which run before
    the hook and refuse a plan outside the enum, are not part of it. *)
Definition User_save (us : list User.doc) (d : User.loaded) : list User.doc :=
  replace_first (fun u => str_eqb (User._id u) (User._id (User.this d)))
    (User.pre_save_limits d) us.

(** [getUserFromToken]: [session] is the user id of the live session of the
    bearer token, if there is one. *)
Definition getUserFromToken (db : DB) (session : option ObjectId)
  : option User.doc :=
  match session with
  | Some uid => User_findById (users db) uid
  | None => None
  end.

Definition validateUrl `{Runtime} (urlString : jsstring) : bool :=
  match URL_parse urlString with
  | Some _ => true
  | None => false
  end.

(** [None] when it throws.  After the scheme test the source has three more
    tests (domain shapes, a slash) and a last resort; all four return the
    same concatenation, which is the one branch here. *)
Definition sanitizeUrl (urlString : jsstring) : option jsstring :=
  if negb (truthy urlString) then None
  else
    let urlString := trim urlString in
    if re_match false Utils.re_scheme_i urlString then Some urlString
    else Some (JS.js "https://" ++ urlString).

(** [process.env.BASE_URL || '...']: the default, taken when the
    environment sets none. *)
Definition BASE_URL : jsstring :=
  "https://qr-generator-api-production-a8fb.up.railway.app".

(** [currentUser?.plan !== 'free' || false] *)
Definition isPremium_of (currentUser : option User.doc) : bool :=
  negb (opt_eqb (option_map User.plan currentUser) (Some (JS.js "free")))
  || false.

(** [userQRCodes >= currentUser.limits.maxQRCodes] *)
Definition limit_reached (userQRCodes : Z) (currentUser : User.doc) : bool :=
  userQRCodes >=? User.maxQRCodes (User.limits currentUser).

Definition default {A} (o : option A) (d : A) : A :=
  match o with Some x => x | None => d end.

(** The plan limit check of an authenticated creation: the response that
    refuses it, if it is refused. *)
Definition plan_limit_check (db : DB) (currentUser : option User.doc)
  : option Response :=
  match currentUser with
  | Some u =>
      let userQRCodes := countDocuments (qrcodes db) (User._id u) in
      if limit_reached userQRCodes u then
        Some (Json 403
                (LimitBody
                   (JS.js "Plan limit reached. You can create up to "
                    ++ Number_toString (User.maxQRCodes (User.limits u))
                    ++ JS.js " QR codes on the " ++ User.plan u
                    ++ JS.js " plan.")
                   "/pricing"))
      else None
  | None => None
  end.

(** POST /api/qr/generate.  Besides the body, the request carries what the
    handler draws: the identifier of [generateShortId()], the [_id] of the
    new document and the clock. *)
Record GenerateRequest := {
  g_session : option ObjectId;
  g_url : option jsstring;
  g_title : option jsstring;
  g_description : option jsstring;
  g_size : option Z;
  g_errorCorrectionLevel : option jsstring;
  g_foregroundColor : option jsstring;
  g_backgroundColor : option jsstring;
  g_shortId : jsstring;
  g_id : ObjectId;
  g_now : Date
}.

Definition internal_error : Response :=
  Json 500 (ErrorBody "Internal server error").

Definition generate `{Runtime} (db : DB) (r : GenerateRequest)
  : DB * Response :=
  let currentUser := getUserFromToken db (g_session r) in
  let size := default (g_size r) 256 in
  let errorCorrectionLevel := default (g_errorCorrectionLevel r) (JS.js "M") in
  let foregroundColor := default (g_foregroundColor r) (JS.js "#000000") in
  let backgroundColor := default (g_backgroundColor r) (JS.js "#FFFFFF") in
  if negb (truthy (default (g_url r) [])) then
    (db, Json 400 (ErrorBody "URL is required"))
  else
  match sanitizeUrl (default (g_url r) []) with
  | None => (db, internal_error)
  | Some sanitizedUrl =>
  if negb (validateUrl sanitizedUrl) then
    (db, Json 400 (ErrorBody "Invalid URL format"))
  else
  match plan_limit_check db currentUser with
  | Some denied => (db, denied)
  | None =>
  let shortId := g_shortId r in
  let redirectUrl := BASE_URL ++ JS.js "/r/" ++ shortId in
  match QRCode_toDataURL redirectUrl size 4 foregroundColor backgroundColor
          errorCorrectionLevel with
  | None => (db, internal_error)
  | Some dataURL =>
  let qrCode :=
    {| _id := g_id r;
       userId := option_map User._id currentUser;
       url := sanitizedUrl;
       shortId := shortId;
       qrCodeData := dataURL;
       title := or_else (g_title r) "Untitled QR Code";
       description := or_else (g_description r) [];
       customization :=
         {| size := size; errorCorrectionLevel := errorCorrectionLevel;
            foregroundColor := foregroundColor;
            backgroundColor := backgroundColor |};
       analytics :=
         {| totalScans := 0; lastScanned := None; scanHistory := [] |};
       isActive := true;
       isPremium := isPremium_of currentUser;
       createdAt := g_now r |} in
  match insert (qrcodes db) qrCode with
  | None => (db, internal_error)
  | Some qs =>
  let us :=
    match currentUser with
    | Some u =>
        User_save (users db)
          {| User.this :=
               User.set_qrCodesCreated u
                 (User.qrCodesCreated (User.usage u) + 1);
             User.isModified_plan := false |}
    | None => users db
    end in
  ({| qrcodes := qs; users := us |},
   Json 200
     (CreatedBody (_id qrCode) dataURL redirectUrl shortId sanitizedUrl
        (title qrCode) (description qrCode) (createdAt qrCode)))
  end end end end.

(** PUT /api/qr/:id.  A [CastError] of the query is caught by the handler
    of the server, which answers 500. *)
Record UpdateRequest := {
  u_session : option ObjectId;
  u_qrId : ObjectId;
  u_title : option jsstring;
  u_description : option jsstring;
  u_isActive : option bool
}.

Definition update `{Runtime} (db : DB) (r : UpdateRequest)
  : DB * Response :=
  match getUserFromToken db (u_session r) with
  | None => (db, Json 401 (ErrorBody "Authentication required"))
  | Some user =>
  if negb (casts (qrcodes db) (u_qrId r)) then (db, internal_error) else
  match findOne_owned (qrcodes db) (u_qrId r) (User._id user) with
  | None => (db, Json 404 (ErrorBody "QR code not found"))
  | Some qrCode =>
  let qrCode :=
    match u_title r with Some t => set_title qrCode t | None => qrCode end in
  let qrCode :=
    match u_description r with
    | Some d => set_description qrCode d
    | None => qrCode
    end in
  let qrCode :=
    match u_isActive r with
    | Some b => set_isActive qrCode b
    | None => qrCode
    end in
  if valid_title (title qrCode) && valid_description (description qrCode)
  then
    ({| qrcodes := save (qrcodes db) qrCode; users := users db |},
     Json 200
       (UpdatedBody (_id qrCode) (title qrCode) (description qrCode)
          (isActive qrCode) "QR code updated successfully"))
  else (db, internal_error)
  end end.

(** DELETE /api/qr/:id *)
Record DeleteRequest := { d_session : option ObjectId; d_qrId : ObjectId }.

Definition delete `{Runtime} (db : DB) (r : DeleteRequest)
  : DB * Response :=
  match getUserFromToken db (d_session r) with
  | None => (db, Json 401 (ErrorBody "Authentication required"))
  | Some user =>
  if negb (casts (qrcodes db) (d_qrId r)) then (db, internal_error) else
  match findOne_owned (qrcodes db) (d_qrId r) (User._id user) with
  | None => (db, Json 404 (ErrorBody "QR code not found"))
  | Some _ =>
  let qs := findByIdAndDelete (qrcodes db) (d_qrId r) in
  let us :=
    if User.qrCodesCreated (User.usage user) >? 0 then
      User_save (users db)
        {| User.this :=
             User.set_qrCodesCreated user
               (User.qrCodesCreated (User.usage user) - 1);
           User.isModified_plan := false |}
    else users db in
  ({| qrcodes := qs; users := us |},
   Json 200 (MessageBody "QR code deleted successfully"))
  end end.

(** GET /r/:shortId.  The handler reads the clock twice. *)
Record RedirectRequest := {
  r_shortId : jsstring;
  r_userAgent : option jsstring;
  r_remoteAddress : option jsstring;
  r_now : Date;
  r_now' : Date
}.

(** The page of the 404 answer: the template literal of the handler, with
    its line breaks and its indentation. *)
Definition not_found_page : jsstring :=
  [10%N]
  ++ JS.js "          <html>" ++ [10%N]
  ++ JS.js "            <body style=" ++ [34%N]
  ++ JS.js "font-family: Arial, sans-serif; text-align: center; padding: 50px;"
  ++ [34%N] ++ JS.js ">" ++ [10%N]
  ++ JS.js "              <h1>QR Code Not Found</h1>" ++ [10%N]
  ++ JS.js "              <p>The QR code you're looking for doesn't exist or has expired.</p>"
  ++ [10%N]
  ++ JS.js "            </body>" ++ [10%N]
  ++ JS.js "          </html>" ++ [10%N]
  ++ JS.js "        ".

Definition scanData (r : RedirectRequest) : ScanEvent :=
  {| timestamp := r_now r; userAgent := r_userAgent r;
     ipAddress := r_remoteAddress r; location := None |}.

(** The analytics update of the handler: count, stamp, push, then keep the
    last 1000 scans. *)
Definition track (a : Analytics) (r : RedirectRequest) : Analytics :=
  let totalScans := totalScans a + 1 in
  let lastScanned := Some (r_now' r) in
  let scanHistory := scanHistory a ++ [scanData r] in
  let scanHistory :=
    if (1000 <? List.length scanHistory)%nat then slice_last 1000 scanHistory
    else scanHistory in
  {| totalScans := totalScans; lastScanned := lastScanned;
     scanHistory := scanHistory |}.

Definition redirect (db : DB) (r : RedirectRequest) : DB * Response :=
  match findOne_active (qrcodes db) (r_shortId r) with
  | None => (db, Html 404 not_found_page)
  | Some qrCode =>
      let qrCode := set_analytics qrCode (track (analytics qrCode) r) in
      ({| qrcodes := save (qrcodes db) qrCode; users := users db |},
       Found 302 (url qrCode))
  end.

Definition status_of (resp : Response) : Z :=
  match resp with
  | Json status _ | Html status _ | Found status _ => status
  end.

(** The requests the server takes, one after the other. *)
Inductive Request :=
| POST_generate (r : GenerateRequest)
| PUT_qr (r : UpdateRequest)
| DELETE_qr (r : DeleteRequest)
| GET_r (r : RedirectRequest).

Definition handle `{Runtime} (db : DB) (req : Request) : DB * Response :=
  match req with
  | POST_generate r => generate db r
  | PUT_qr r => update db r
  | DELETE_qr r => delete db r
  | GET_r r => redirect db r
  end.

Fixpoint run `{Runtime} (db : DB) (reqs : list Request)
  : DB * list Response :=
  match reqs with
  | [] => (db, [])
  | req :: reqs' =>
      let '(db', resp) := handle db req in
      let '(db'', resps) := run db' reqs' in
      (db'', resp :: resps)
  end.

End Server.

(** ** routes/analytics.ts: the aggregation helpers *)

Module Analytics.

Import QRCodeModel.

Record DailyScan := { date : jsstring; scans : Z }.

Record DeviceStat := { device : jsstring; count : Z; percentage : number }.

(** [m.set(k, (m.get(k) || 0) + 1)] *)
Definition bump (m : Map Z) (k : jsstring) : Map Z :=
  Map_set m k (or_0 (Map_get m k) + 1).

(** [getDailyScans], at the instant [now] its [new Date()] calls read. *)
Definition getDailyScans (now : Date) (scanHistory : list ScanEvent)
  : list DailyScan :=
  let thirtyDaysAgo := minus_days now 30 in
  let dailyMap :=
    fold_left (fun m i => Map_set m (toISODate (minus_days now i)) 0)
      (map Z.of_nat (seq 0 30)) [] in
  let dailyMap :=
    fold_left (fun m scan => bump m (toISODate (timestamp scan)))
      (filter (fun scan => thirtyDaysAgo <=? timestamp scan) scanHistory)
      dailyMap in
  sort (fun a b => localeCompare (date a) (date b))
    (map (fun e => {| date := fst e; scans := snd e |}) dailyMap).

(** The device class of a user agent, as the [if] chain assigns it. *)
Definition classify (userAgent : jsstring) : jsstring :=
  let ua := toLowerCase userAgent in
  if includes ua "mobile" || includes ua "android" || includes ua "iphone"
  then "Mobile"
  else if includes ua "tablet" || includes ua "ipad" then "Tablet"
  else if includes ua "bot" || includes ua "crawler" then "Bot"
  else "Desktop".

(** [Math.round((count / total) * 100)] *)
Definition percent (count total : Z) : number :=
  Math_round (num_mul (num_div (of_Z count) (of_Z total)) (of_Z 100)).

(** The scans that pass [if (scan.userAgent)], with their user agent. *)
Definition agent_of (scan : ScanEvent) : option jsstring :=
  match userAgent scan with
  | Some ua => if truthy ua then Some ua else None
  | None => None
  end.

Definition getDeviceStats (scanHistory : list ScanEvent) : list DeviceStat :=
  let total := Z.of_nat (List.length scanHistory) in
  let deviceMap :=
    fold_left
      (fun m scan =>
         match agent_of scan with
         | Some ua => bump m (classify ua)
         | None => m
         end)
      scanHistory [] in
  sort (fun a b => count b - count a)
    (map (fun e =>
            {| device := fst e; count := snd e;
               percentage :=
                 if 0 <? total then percent (snd e) total else of_Z 0 |})
       deviceMap).

End Analytics.

(** ** The in-memory prototype of the server *)

Module Prototype.

Record Analytics := { totalScans : Z; lastScanned : option Date }.

(** The object stored for a link; [createdAt] and [lastScanned] hold the
    instant whose ISO string the source stores. *)
Record QR := {
  id : jsstring;
  userId : option jsstring;
  originalUrl : jsstring;
  shortId : jsstring;
  qrCodeData : jsstring;
  shortUrl : jsstring;
  title : jsstring;
  description : jsstring;
  createdAt : Date;
  isActive : bool;
  analytics : Analytics;
  customization : QRCodeModel.Customization
}.

(** The two maps of the process, [qrCodes] by short id and [users] by id.
    A user object has the fields of the schema, [_id] standing for its
    [id]. *)
Record State := { qrCodes : Map QR; users : Map User.doc }.

Inductive Response :=
| Error (status : Z) (error : jsstring)
| Limit (status : Z) (error upgradeUrl : jsstring)
| Created (status : Z) (qrCodeData : QR)
| Page (status : Z) (page : jsstring)
| Found (status : Z) (Location : jsstring).

Definition validateUrl `{Runtime} (urlString : jsstring) : bool :=
  match URL_parse urlString with
  | Some _ => true
  | None => false
  end.

Definition sanitizeUrl (urlString : jsstring) : jsstring :=
  let urlString := trim urlString in
  if negb (re_match false Utils.re_scheme_i urlString)
  then JS.js "https://" ++ urlString
  else urlString.

(** [getUserFromToken]: the user of the live session of the token. *)
Definition getUserFromToken (st : State) (session : option jsstring)
  : option User.doc :=
  match session with
  | Some uid => Map_get (users st) uid
  | None => None
  end.

(** [Array.from(qrCodes.values()).filter(qr => qr.userId === id)] *)
Definition userQRCodes (st : State) (uid : jsstring) : list QR :=
  filter (fun qr => opt_eqb (userId qr) (Some uid)) (map snd (qrCodes st)).

Record GenerateRequest := {
  g_session : option jsstring;
  g_url : option jsstring;
  g_title : option jsstring;
  g_description : option jsstring;
  g_size : option Z;
  g_errorCorrectionLevel : option jsstring;
  g_foregroundColor : option jsstring;
  g_backgroundColor : option jsstring;
  g_shortId : jsstring;
  g_now : Date
}.

Definition internal_error : Response := Error 500 "Internal server error".

Definition generate `{Runtime} (st : State) (r : GenerateRequest)
  : State * Response :=
  let currentUser := getUserFromToken st (g_session r) in
  let size := Server.default (g_size r) 256 in
  let errorCorrectionLevel :=
    Server.default (g_errorCorrectionLevel r) (JS.js "M") in
  let foregroundColor :=
    Server.default (g_foregroundColor r) (JS.js "#000000") in
  let backgroundColor :=
    Server.default (g_backgroundColor r) (JS.js "#FFFFFF") in
  if negb (truthy (Server.default (g_url r) [])) then
    (st, Error 400 "URL is required")
  else
  let sanitizedUrl := sanitizeUrl (Server.default (g_url r) []) in
  if negb (validateUrl sanitizedUrl) then
    (st, Error 400 "Invalid URL format")
  else
  match
    match currentUser with
    | Some u =>
        if Z.of_nat (List.length (userQRCodes st (User._id u)))
           >=? User.maxQRCodes (User.limits u)
        then
          Some (Limit 403
                  (JS.js "Plan limit reached. You can create up to "
                   ++ Number_toString (User.maxQRCodes (User.limits u))
                   ++ JS.js " QR codes on the " ++ User.plan u
                   ++ JS.js " plan.")
                  "/pricing")
        else None
    | None => None
    end
  with
  | Some denied => (st, denied)
  | None =>
  let shortId := g_shortId r in
  let redirectUrl := JS.js "http://localhost:5001" ++ JS.js "/r/" ++ shortId in
  match QRCode_toDataURL redirectUrl size 4 foregroundColor backgroundColor
          errorCorrectionLevel with
  | None => (st, internal_error)
  | Some dataURL =>
  let qrCodeData :=
    {| id := shortId;
       userId := option_map User._id currentUser;
       originalUrl := sanitizedUrl;
       shortId := shortId;
       qrCodeData := dataURL;
       shortUrl := redirectUrl;
       title := or_else (g_title r) "Untitled QR Code";
       description := or_else (g_description r) [];
       createdAt := g_now r;
       isActive := true;
       analytics := {| totalScans := 0; lastScanned := None |};
       customization :=
         {| QRCodeModel.size := size;
            QRCodeModel.errorCorrectionLevel := errorCorrectionLevel;
            QRCodeModel.foregroundColor := foregroundColor;
            QRCodeModel.backgroundColor := backgroundColor |} |} in
  let us :=
    match currentUser with
    | Some u =>
        Map_set (users st) (User._id u)
          (User.set_qrCodesCreated u
             (User.qrCodesCreated (User.usage u) + 1))
    | None => users st
    end in
  ({| qrCodes := Map_set (qrCodes st) shortId qrCodeData; users := us |},
   Created 200 qrCodeData)
  end end.

Definition set_analytics (qr : QR) (a : Analytics) : QR :=
  {| id := id qr; userId := userId qr; originalUrl := originalUrl qr;
     shortId := shortId qr; qrCodeData := qrCodeData qr;
     shortUrl := shortUrl qr; title := title qr;
     description := description qr; createdAt := createdAt qr;
     isActive := isActive qr; analytics := a;
     customization := customization qr |}.

(** GET /r/:shortId: the lookup is by key alone. *)
Definition redirect (st : State) (sid : jsstring) (now : Date)
  : State * Response :=
  match Map_get (qrCodes st) sid with
  | None => (st, Page 404 Server.not_found_page)
  | Some qrCode =>
      let qrCode :=
        set_analytics qrCode
          {| totalScans := totalScans (analytics qrCode) + 1;
             lastScanned := Some now |} in
      ({| qrCodes := Map_set (qrCodes st) sid qrCode; users := users st |},
       Found 302 (originalUrl qrCode))
  end.

Inductive Request :=
| POST_generate (r : GenerateRequest)
| GET_r (sid : jsstring) (now : Date).

Definition handle `{Runtime} (st : State) (req : Request)
  : State * Response :=
  match req with
  | POST_generate r => generate st r
  | GET_r sid now => redirect st sid now
  end.

End Prototype.

(** ** routes/analytics.ts: the remaining helpers and the two handlers *)

Module AnalyticsRoutes.

Record LocationStat := { country : jsstring; count : Z }.

(** [scan.location?.country], when it is truthy. *)
Definition country_of (scan : QRCodeModel.ScanEvent) : option jsstring :=
  match QRCodeModel.location scan with
  | Some l =>
      match QRCodeModel.country l with
      | Some c => if truthy c then Some c else None
      | None => None
      end
  | None => None
  end.

Definition getLocationStats (scanHistory : list QRCodeModel.ScanEvent)
  : list LocationStat :=
  let locationMap :=
    fold_left
      (fun m scan =>
         match country_of scan with
         | Some country => Analytics.bump m country
         | None => m
         end)
      scanHistory [] in
  firstn 10
    (sort (fun a b => count b - count a)
       (map (fun e => {| country := fst e; count := snd e |}) locationMap)).

Record RecentScan := {
  rs_timestamp : Date;
  rs_userAgent : option jsstring;
  rs_location : option QRCodeModel.Location
}.

(** The [recentScans] of the analytics of one link, at the instant [now]
    the filter reads. *)
Definition recentScans (now : Date) (scanHistory : list QRCodeModel.ScanEvent)
  : list RecentScan :=
  map (fun scan =>
         {| rs_timestamp := QRCodeModel.timestamp scan;
            rs_userAgent := QRCodeModel.userAgent scan;
            rs_location := QRCodeModel.location scan |})
    (filter (fun scan => minus_days now 30 <=? QRCodeModel.timestamp scan)
       scanHistory).

Record QRAnalytics := {
  qa_totalScans : Z;
  qa_lastScanned : option Date;
  qa_createdAt : Date;
  qa_recentScans : list RecentScan;
  qa_dailyScans : list Analytics.DailyScan;
  qa_deviceStats : list Analytics.DeviceStat;
  qa_locationStats : list LocationStat
}.

Record Overview := {
  totalQRCodes : Z;
  activeQRCodes : Z;
  totalScans : Z;
  scansThisMonth : Z
}.

Record Activity := {
  qrCodeId : ObjectId;
  act_title : jsstring;
  act_shortId : jsstring;
  act_timestamp : Date
}.

Record TopQRCode := {
  top_id : ObjectId;
  top_title : jsstring;
  top_shortId : jsstring;
  top_totalScans : Z;
  top_lastScanned : option Date;
  top_createdAt : Date
}.

Record Dashboard := {
  overview : Overview;
  recentActivity : list Activity;
  topPerforming : list TopQRCode;
  chartData_dailyScans : list Analytics.DailyScan;
  deviceStats : list Analytics.DeviceStat;
  locationStats : list LocationStat
}.

Record ExportData := {
  ex_id : ObjectId;
  ex_title : jsstring;
  ex_description : jsstring;
  ex_originalUrl : jsstring;
  ex_shortId : jsstring;
  ex_createdAt : Date;
  ex_totalScans : Z;
  ex_lastScanned : option Date;
  ex_scanHistory : list QRCodeModel.ScanEvent
}.

Inductive Response :=
| Error (status : Z) (error : jsstring)
| QRAnalyticsOk (analytics : QRAnalytics)
| DashboardOk (dashboard : Dashboard)
| ExportOk (filename : jsstring) (exportData : ExportData).

(** [QRCodeModel.find({ userId })] *)
Definition find_owned (qs : list QRCodeModel.doc) (uid : ObjectId)
  : list QRCodeModel.doc :=
  filter (fun q => opt_eqb (QRCodeModel.userId q) (Some uid)) qs.

(** [qr.title || 'Untitled'] *)
Definition title_or_untitled (q : QRCodeModel.doc) : jsstring :=
  if truthy (QRCodeModel.title q) then QRCodeModel.title q
  else JS.js "Untitled".

Definition history (q : QRCodeModel.doc) : list QRCodeModel.ScanEvent :=
  QRCodeModel.scanHistory (QRCodeModel.analytics q).

Definition scans_of (q : QRCodeModel.doc) : Z :=
  QRCodeModel.totalScans (QRCodeModel.analytics q).

(** GET /qr/:id, once [authenticateToken] has set [req.user]; the filter
    of the recent scans reads the clock at [now], the daily series at
    [now']. *)
Definition qr_analytics `{Runtime} (qs : list QRCodeModel.doc)
  (user : User.doc) (id : jsstring) (now now' : Date) : Response :=
  if negb (Server.casts qs id) then Error 500 "Failed to fetch analytics"
  else
  match Server.findOne_owned qs id (User._id user) with
  | None => Error 404 "QR code not found or unauthorized"
  | Some qrCode =>
      if negb (User.canTrackAnalytics (User.limits user)) then
        Error 403 "Analytics access requires premium plan"
      else
        QRAnalyticsOk
          {| qa_totalScans := scans_of qrCode;
             qa_lastScanned :=
               QRCodeModel.lastScanned (QRCodeModel.analytics qrCode);
             qa_createdAt := QRCodeModel.createdAt qrCode;
             qa_recentScans := recentScans now (history qrCode);
             qa_dailyScans := Analytics.getDailyScans now' (history qrCode);
             qa_deviceStats := Analytics.getDeviceStats (history qrCode);
             qa_locationStats := getLocationStats (history qrCode) |}
  end.

(** GET /dashboard, once [authenticateToken] has set [req.user].  The
    handler reads the clock at [now]; [getDailyScans] reads it again, at
    [now'].  [qrCodes.sort] sorts the array in place, so the histories are
    merged in the order of the ranking. *)
Definition dashboard (qs : list QRCodeModel.doc) (user : User.doc)
  (now now' : Date) : Response :=
  if negb (User.canTrackAnalytics (User.limits user)) then
    Error 403 "Analytics access requires premium plan"
  else
    let userId := User._id user in
    let thirtyDaysAgo := minus_days now 30 in
    let qrCodes := find_owned qs userId in
    let totalQRCodes := Z.of_nat (List.length qrCodes) in
    let totalScans := fold_left (fun sum qr => sum + scans_of qr) qrCodes 0 in
    let activeQRCodes :=
      Z.of_nat (List.length (filter QRCodeModel.isActive qrCodes)) in
    let recentScans :=
      firstn 20
        (sort (fun a b => act_timestamp b - act_timestamp a)
           (flat_map
              (fun qr =>
                 map (fun scan =>
                        {| qrCodeId := QRCodeModel._id qr;
                           act_title := title_or_untitled qr;
                           act_shortId := QRCodeModel.shortId qr;
                           act_timestamp := QRCodeModel.timestamp scan |})
                   (filter (fun scan =>
                              thirtyDaysAgo <=? QRCodeModel.timestamp scan)
                      (history qr)))
              qrCodes)) in
    let qrCodes := sort (fun a b => scans_of b - scans_of a) qrCodes in
    let topQRCodes :=
      map (fun qr =>
             {| top_id := QRCodeModel._id qr;
                top_title := title_or_untitled qr;
                top_shortId := QRCodeModel.shortId qr;
                top_totalScans := scans_of qr;
                top_lastScanned :=
                  QRCodeModel.lastScanned (QRCodeModel.analytics qr);
                top_createdAt := QRCodeModel.createdAt qr |})
        (firstn 10 qrCodes) in
    let allScanHistory := flat_map history qrCodes in
    let dailyTotals := Analytics.getDailyScans now' allScanHistory in
    DashboardOk
      {| overview :=
           {| totalQRCodes := totalQRCodes;
              activeQRCodes := activeQRCodes;
              totalScans := totalScans;
              scansThisMonth :=
                Z.of_nat
                  (List.length
                     (filter (fun scan =>
                                thirtyDaysAgo <=? QRCodeModel.timestamp scan)
                        allScanHistory)) |};
         recentActivity := recentScans;
         topPerforming := topQRCodes;
         chartData_dailyScans := dailyTotals;
         deviceStats := Analytics.getDeviceStats allScanHistory;
         locationStats := getLocationStats allScanHistory |}.

(** GET /export/:id, once [authenticateToken] has set [req.user]; the
    answer is sent as the attachment [filename]. *)
Definition export `{Runtime} (qs : list QRCodeModel.doc) (user : User.doc)
  (id : jsstring) : Response :=
  if negb (User.canExportData (User.limits user)) then
    Error 403 "Data export requires premium plan"
  else if negb (Server.casts qs id) then Error 500 "Failed to export data"
  else
    match Server.findOne_owned qs id (User._id user) with
    | None => Error 404 "QR code not found or unauthorized"
    | Some qrCode =>
        ExportOk
          (JS.js "qr-analytics-" ++ QRCodeModel.shortId qrCode
           ++ JS.js ".json")
          {| ex_id := QRCodeModel._id qrCode;
             ex_title := QRCodeModel.title qrCode;
             ex_description := QRCodeModel.description qrCode;
             ex_originalUrl := QRCodeModel.url qrCode;
             ex_shortId := QRCodeModel.shortId qrCode;
             ex_createdAt := QRCodeModel.createdAt qrCode;
             ex_totalScans := scans_of qrCode;
             ex_lastScanned :=
               QRCodeModel.lastScanned (QRCodeModel.analytics qrCode);
             ex_scanHistory :=
               map (fun scan =>
                      {| QRCodeModel.timestamp := QRCodeModel.timestamp scan;
                         QRCodeModel.userAgent := QRCodeModel.userAgent scan;
                         QRCodeModel.ipAddress := QRCodeModel.ipAddress scan;
                         QRCodeModel.location := QRCodeModel.location scan |})
                 (history qrCode) |}
    end.

End AnalyticsRoutes.

(** ** The listing of the caller's links *)

Module Listing.

Record Item := {
  id : ObjectId;
  shortUrl : jsstring;
  shortId : jsstring;
  originalUrl : jsstring;
  title : jsstring;
  description : jsstring;
  createdAt : Date;
  qrCodeData : jsstring;
  totalScans : Z;
  lastScanned : option Date;
  isActive : bool
}.

Record Pagination := { current : Z; total : Z; count : Z; totalItems : Z }.

Inductive Response :=
| Error (status : Z) (error : jsstring)
| Listed (qrCodes : list Item) (pagination : Pagination).

Definition format (qr : QRCodeModel.doc) : Item :=
  {| id := QRCodeModel._id qr;
     shortUrl := Server.BASE_URL ++ JS.js "/r/" ++ QRCodeModel.shortId qr;
     shortId := QRCodeModel.shortId qr;
     originalUrl := QRCodeModel.url qr;
     title := QRCodeModel.title qr;
     description := QRCodeModel.description qr;
     createdAt := QRCodeModel.createdAt qr;
     qrCodeData := QRCodeModel.qrCodeData qr;
     totalScans := QRCodeModel.totalScans (QRCodeModel.analytics qr);
     lastScanned := QRCodeModel.lastScanned (QRCodeModel.analytics qr);
     isActive := QRCodeModel.isActive qr |}.

(** GET /api/qr/user/list.  [find({ userId }).sort({ createdAt: -1 })]:
    the caller's links, newest first; links created at the same instant
    are kept here in the order of the collection. *)
Definition list (db : Server.DB) (session : option ObjectId) : Response :=
  match Server.getUserFromToken db session with
  | None => Error 401 "Authentication required"
  | Some user =>
      let qrCodes :=
        sort (fun a b => QRCodeModel.createdAt b - QRCodeModel.createdAt a)
          (filter (fun q => opt_eqb (QRCodeModel.userId q)
                              (Some (User._id user)))
             (Server.qrcodes db)) in
      let formattedQRCodes := map format qrCodes in
      Listed formattedQRCodes
        {| current := 1; total := 1;
           count := Z.of_nat (List.length formattedQRCodes);
           totalItems := Z.of_nat (List.length formattedQRCodes) |}
  end.

End Listing.

(** ** Sessions of the bearer tokens *)

Module Sessions.

Record Session := { userId : ObjectId; expiresAt : Z }.

(** [m.delete(k)] *)
Definition Map_delete {V} (m : Map V) (k : jsstring) : Map V :=
  filter (fun e => negb (str_eqb (fst e) k)) m.

(** [s.split(sep)] for a separator of one character. *)
Fixpoint split (sep : code_unit) (s : jsstring) : list jsstring :=
  match s with
  | [] => [[]]
  | c :: s' =>
      if (c =? sep)%N then [] :: split sep s'
      else match split sep s' with
           | p :: ps => (c :: p) :: ps
           | [] => [[c]]
           end
  end.

(** Seven days, in milliseconds. *)
Definition lifetime : Z := 7 * 24 * 60 * 60 * 1000.

(** The session the registration and the login store for the token they
    have drawn: [sessions.set(token, { userId, expiresAt: Date.now() + ... })]. *)
Definition open_session (sessions : Map Session) (token : jsstring)
  (uid : ObjectId) (now : Date) : Map Session :=
  Map_set sessions token {| userId := uid; expiresAt := now + lifetime |}.

(** The session lookup of [getUserFromToken], for an [Authorization]
    header read at [now]: the sessions afterwards and the user id of the
    live session.  The user is then read with [User.findById], which is
    [Server.getUserFromToken] on this result. *)
Definition live_session (sessions : Map Session)
  (authHeader : option jsstring) (now : Date)
  : Map Session * option ObjectId :=
  match authHeader with
  | None => (sessions, None)
  | Some h =>
      if negb (truthy h) || negb (startsWith h "Bearer ") then
        (sessions, None)
      else
        let token := nth 1 (split 32%N h) [] in
        match Map_get sessions token with
        | None => (Map_delete sessions token, None)
        | Some session =>
            if expiresAt session <? now then
              (Map_delete sessions token, None)
            else (sessions, Some (userId session))
        end
  end.

Definition getUserFromToken (sessions : Map Session) (db : Server.DB)
  (authHeader : option jsstring) (now : Date)
  : Map Session * option User.doc :=
  let '(sessions', session) := live_session sessions authHeader now in
  (sessions', Server.getUserFromToken db session).

End Sessions.

(** ** The Express application: routes/qr.ts behind middleware/auth.ts *)

(** [jwt.verify(token, secret)]: the [id] of the payload of a token the
    library accepts ([None] when it throws [JsonWebTokenError]). *)
Class Jwt := { jwt_verify : jsstring -> option ObjectId }.

Module Express.

Import QRCodeModel.

(** [process.env.BASE_URL || '...']: the default. *)
Definition BASE_URL : jsstring := "http://localhost:5000".

Inductive Body :=
| ErrorBody (error : jsstring)
| CreatedBody (id : ObjectId) (qrCodeData shortUrl shortId
                originalUrl : jsstring) (title description : option jsstring)
              (createdAt : Date)
| DetailsBody (id : ObjectId) (qrCodeData shortUrl shortId originalUrl
                title description : jsstring) (createdAt : Date)
              (customization : Customization)
              (analytics : option (Z * option Date))
| UpdatedBody (id : ObjectId) (title description : jsstring)
              (isActive : bool) (updatedAt : Date)
| MessageBody (message : jsstring).

(** [res.status(s).json(body)] and [res.redirect(url)]. *)
Inductive Response :=
| Json (status : Z) (body : Body)
| Redirect (url : jsstring).

(** [authenticateToken]: the answer it sends, or the [req.user] it sets
    before the handler runs.  [User.findById] casts the [id] of the
    payload; its [CastError] is none of the library's errors and is
    answered 500.  The [_id] of a stored account is an ObjectId. *)
Definition authenticateToken `{Runtime} `{Jwt} (users : list User.doc)
  (authHeader : option jsstring) : Response + User.doc :=
  let token :=
    match authHeader with
    | Some h => if truthy h then nth 1 (Sessions.split 32%N h) [] else []
    | None => []
    end in
  if negb (truthy token) then
    inl (Json 401 (ErrorBody "Access token required"))
  else
    match jwt_verify token with
    | None => inl (Json 401 (ErrorBody "Invalid token"))
    | Some id =>
        if negb (castObjectId id
                 || existsb (fun u => str_eqb (User._id u) id) users)
        then inl (Json 500 (ErrorBody "Authentication failed"))
        else
        match Server.User_findById users id with
        | None => inl (Json 401 (ErrorBody "Invalid token - user not found"))
        | Some user => inr user
        end
    end.

(** POST /generate.  The request carries the fields of the body and what
    the handler draws: the identifier of [generateShortId()], the [_id] of
    the new document and the clock.  [size], when the body has one, is an
    integer, which [parseInt] returns as it is.  The schema has no default
    for [title] and [description]: an absent one is stored here as the
    empty string. *)
Record GenerateRequest := {
  g_url : option jsstring;
  g_title : option jsstring;
  g_description : option jsstring;
  g_size : option Z;
  g_errorCorrectionLevel : option jsstring;
  g_foregroundColor : option jsstring;
  g_backgroundColor : option jsstring;
  g_shortId : jsstring;
  g_id : ObjectId;
  g_now : Date
}.

(** [req.user?.id || null] *)
Definition user_id_or_null (user : option User.doc) : option ObjectId :=
  match user with
  | Some u => if truthy (User._id u) then Some (User._id u) else None
  | None => None
  end.

Definition generate `{Runtime} (qs : list doc) (user : option User.doc)
  (r : GenerateRequest) : list doc * Response :=
  let size := Server.default (g_size r) 256 in
  let errorCorrectionLevel :=
    Server.default (g_errorCorrectionLevel r) (JS.js "M") in
  let foregroundColor :=
    Server.default (g_foregroundColor r) (JS.js "#000000") in
  let backgroundColor :=
    Server.default (g_backgroundColor r) (JS.js "#FFFFFF") in
  let failed := Json 500 (ErrorBody "Failed to generate QR code") in
  if negb (truthy (Server.default (g_url r) [])) then
    (qs, Json 400 (ErrorBody "URL is required"))
  else
  let sanitizedUrl := Utils.sanitizeUrl (Server.default (g_url r) []) in
  if negb (Utils.validateUrl sanitizedUrl) then
    (qs, Json 400 (ErrorBody "Invalid URL format"))
  else
  let shortId := g_shortId r in
  let redirectUrl := BASE_URL ++ JS.js "/r/" ++ shortId in
  match QRCode_toDataURL redirectUrl size 4 foregroundColor backgroundColor
          errorCorrectionLevel with
  | None => (qs, failed)
  | Some dataURL =>
  let qrCode :=
    {| _id := g_id r;
       userId := user_id_or_null user;
       url := sanitizedUrl;
       shortId := shortId;
       qrCodeData := dataURL;
       title := Server.default (g_title r) [];
       description := Server.default (g_description r) [];
       customization :=
         {| size := size; errorCorrectionLevel := errorCorrectionLevel;
            foregroundColor := foregroundColor;
            backgroundColor := backgroundColor |};
       analytics :=
         {| totalScans := 0; lastScanned := None; scanHistory := [] |};
       isActive := true;
       isPremium := Server.isPremium_of user;
       createdAt := g_now r |} in
  match Server.insert qs qrCode with
  | None => (qs, failed)
  | Some qs' =>
      (qs',
       Json 200
         (CreatedBody (_id qrCode) dataURL redirectUrl shortId sanitizedUrl
            (g_title r) (g_description r) (createdAt qrCode)))
  end end.

(** GET /:id *)
Definition details `{Runtime} (qs : list doc) (user : option User.doc)
  (id : jsstring) : Response :=
  if negb (Server.casts qs id) then
    Json 500 (ErrorBody "Failed to fetch QR code")
  else
  match find (fun q => str_eqb (_id q) id) qs with
  | None => Json 404 (ErrorBody "QR code not found")
  | Some qrCode =>
      let isOwner :=
        match user with
        | Some u => opt_eqb (userId qrCode) (Some (User._id u))
        | None => false
        end in
      Json 200
        (DetailsBody (_id qrCode) (qrCodeData qrCode)
           (BASE_URL ++ JS.js "/r/" ++ shortId qrCode) (shortId qrCode)
           (url qrCode) (title qrCode) (description qrCode)
           (createdAt qrCode) (customization qrCode)
           (if isOwner && isPremium qrCode
            then Some (totalScans (analytics qrCode),
                       lastScanned (analytics qrCode))
            else None))
  end.

(** PUT /:id, with the clock [save] stamps [updatedAt] with. *)
Record UpdateRequest := {
  u_id : jsstring;
  u_title : option jsstring;
  u_description : option jsstring;
  u_isActive : option bool;
  u_now : Date
}.

Definition update `{Runtime} (qs : list doc) (user : User.doc)
  (r : UpdateRequest) : list doc * Response :=
  if negb (Server.casts qs (u_id r)) then
    (qs, Json 500 (ErrorBody "Failed to update QR code"))
  else
  match Server.findOne_owned qs (u_id r) (User._id user) with
  | None => (qs, Json 404 (ErrorBody "QR code not found or unauthorized"))
  | Some qrCode =>
  let qrCode :=
    match u_title r with Some t => set_title qrCode t | None => qrCode end in
  let qrCode :=
    match u_description r with
    | Some d => set_description qrCode d
    | None => qrCode
    end in
  let qrCode :=
    match u_isActive r with
    | Some b => set_isActive qrCode b
    | None => qrCode
    end in
  if valid_title (title qrCode) && valid_description (description qrCode)
  then
    (Server.save qs qrCode,
     Json 200
       (UpdatedBody (_id qrCode) (title qrCode) (description qrCode)
          (isActive qrCode) (u_now r)))
  else (qs, Json 500 (ErrorBody "Failed to update QR code"))
  end.

(** DELETE /:id: [findOneAndDelete({ _id, userId })]. *)
Definition delete `{Runtime} (qs : list doc) (user : User.doc)
  (id : jsstring) : list doc * Response :=
  if negb (Server.casts qs id) then
    (qs, Json 500 (ErrorBody "Failed to delete QR code"))
  else
  match Server.findOne_owned qs id (User._id user) with
  | None => (qs, Json 404 (ErrorBody "QR code not found or unauthorized"))
  | Some _ =>
      (Server.remove_first
         (fun q => str_eqb (_id q) id
                   && opt_eqb (userId q) (Some (User._id user))) qs,
       Json 200 (MessageBody "QR code deleted successfully"))
  end.

(** GET /r/:shortId of the application and GET /redirect/:shortId of the
    router, which have the same body. *)
Record RedirectRequest := {
  r_shortId : jsstring;
  r_userAgent : option jsstring;
  r_ip : option jsstring;
  r_remoteAddress : option jsstring;
  r_now : Date;
  r_now' : Date
}.

(** The scan as the handler of the MongoDB server takes it, with
    [req.ip || req.connection.remoteAddress] for the address. *)
Definition scan_of (r : RedirectRequest) : Server.RedirectRequest :=
  {| Server.r_shortId := r_shortId r;
     Server.r_userAgent := r_userAgent r;
     Server.r_remoteAddress :=
       match r_ip r with
       | Some ip => if truthy ip then Some ip else r_remoteAddress r
       | None => r_remoteAddress r
       end;
     Server.r_now := r_now r;
     Server.r_now' := r_now' r |}.

Definition redirect (qs : list doc) (r : RedirectRequest)
  : list doc * Response :=
  match Server.findOne_active qs (r_shortId r) with
  | None => (qs, Json 404 (ErrorBody "QR code not found or inactive"))
  | Some qrCode =>
      let qrCode :=
        set_analytics qrCode (Server.track (analytics qrCode) (scan_of r)) in
      (Server.save qs qrCode, Redirect (url qrCode))
  end.

(** The requests of the application to these routes.  POST /generate and
    GET /:id are declared without [authenticateToken] and nothing else
    sets [req.user], which their handlers read. *)
Inductive Request :=
| POST_generate (r : GenerateRequest)
| GET_details (id : jsstring)
| PUT_qr (authorization : option jsstring) (r : UpdateRequest)
| DELETE_qr (authorization : option jsstring) (id : jsstring)
| GET_redirect (r : RedirectRequest).

Definition handle `{Runtime} `{Jwt} (db : Server.DB) (req : Request)
  : Server.DB * Response :=
  let qs := Server.qrcodes db in
  let with_qrcodes (a : list doc * Response) :=
    ({| Server.qrcodes := fst a; Server.users := Server.users db |},
     snd a) in
  match req with
  | POST_generate r => with_qrcodes (generate qs None r)
  | GET_details id => (db, details qs None id)
  | PUT_qr authorization r =>
      match authenticateToken (Server.users db) authorization with
      | inl refused => (db, refused)
      | inr user => with_qrcodes (update qs user r)
      end
  | DELETE_qr authorization id =>
      match authenticateToken (Server.users db) authorization with
      | inl refused => (db, refused)
      | inr user => with_qrcodes (delete qs user id)
      end
  | GET_redirect r => with_qrcodes (redirect qs r)
  end.

Fixpoint run `{Runtime} `{Jwt} (db : Server.DB) (reqs : list Request)
  : Server.DB * list Response :=
  match reqs with
  | [] => (db, [])
  | req :: reqs' =>
      let '(db', resp) := handle db req in
      let '(db'', resps) := run db' reqs' in
      (db'', resp :: resps)
  end.

End Express.

(** ** The vocabulary of the specification *)

(** The specification's words for the scheme test: the string starts with
    [http://] or [https://], the ASCII letters compared without case. *)
Definition ascii_lower (c : code_unit) : code_unit :=
  (if (65 <=? c) && (c <=? 90) then c + 32 else c)%N.

Definition starts_with_ci (lower_prefix s : jsstring) : Prop :=
  exists p rest, s = p ++ rest /\ map ascii_lower p = lower_prefix.

Definition has_http_scheme (s : jsstring) : Prop :=
  starts_with_ci "http://" s \/ starts_with_ci "https://" s.

(** The specification's words for trimming: [t] is [s] without the white
    space at its two ends. *)
Definition trimmed_of (s t : jsstring) : Prop :=
  exists l r,
    s = l ++ t ++ r
    /\ forallb is_white_space l = true
    /\ forallb is_white_space r = true
    /\ (forall c t', t = c :: t' -> is_white_space c = false)
    /\ (forall c t', t = t' ++ [c] -> is_white_space c = false).

Fixpoint prefix_ci (lower_prefix s : jsstring) : bool :=
  match lower_prefix, s with
  | [], _ => true
  | x :: l', c :: s' => (ascii_lower c =? x)%N && prefix_ci l' s'
  | _ :: _, [] => false
  end.

Definition keys (m : Map Z) : list jsstring := map fst m.

(** How often [k] occurs in [ks]. *)
Definition occurrences (k : jsstring) (ks : list jsstring) : Z :=
  Z.of_nat (List.length (filter (str_eqb k) ks)).

Definition sum_values (m : Map Z) : Z := fold_right Z.add 0 (map snd m).

(** The specification's words for the classes: a keyword occurs in the
    user agent, letters compared without case. *)
Definition contains_ci (ua keyword : jsstring) : Prop :=
  exists pre mid suf, ua = pre ++ mid ++ suf /\ toLowerCase mid = keyword.

Definition mobile_agent (ua : jsstring) : Prop :=
  contains_ci ua "mobile" \/ contains_ci ua "android"
  \/ contains_ci ua "iphone".

Definition tablet_agent (ua : jsstring) : Prop :=
  contains_ci ua "tablet" \/ contains_ci ua "ipad".

Definition bot_agent (ua : jsstring) : Prop :=
  contains_ci ua "bot" \/ contains_ci ua "crawler".

(** The scans of a history that carry a user agent of class [d]. *)
Definition in_class (d : jsstring) (scan : QRCodeModel.ScanEvent) : bool :=
  match Analytics.agent_of scan with
  | Some ua => str_eqb d (Analytics.classify ua)
  | None => false
  end.

Definition class_count (d : jsstring) (h : list QRCodeModel.ScanEvent) : Z :=
  Z.of_nat (List.length (filter (in_class d) h)).

(** The scans that carry a user agent: what the specification calls the
    classified total. *)
Definition total_classified (h : list QRCodeModel.ScanEvent) : Z :=
  Z.of_nat
    (List.length
       (filter (fun scan => match Analytics.agent_of scan with
                            | Some _ => true
                            | None => false
                            end) h)).

Definition device_keys (h : list QRCodeModel.ScanEvent) : list jsstring :=
  flat_map (fun scan => match Analytics.agent_of scan with
                        | Some ua => [Analytics.classify ua]
                        | None => []
                        end) h.

(** The usage counters of the accounts are not negative. *)
Definition counters_nonneg (db : Server.DB) : Prop :=
  Forall (fun u => 0 <= User.qrCodesCreated (User.usage u)) (Server.users db).

(** In the prototype no stored link is inactive. *)
Definition all_active (st : Prototype.State) : Prop :=
  Forall (fun e => Prototype.isActive (snd e) = true) (Prototype.qrCodes st).

(** ** Vocabulary of the analytics *)

(** The countries of the scans that carry one, in the order of the scans. *)
Definition countries (h : list QRCodeModel.ScanEvent) : list jsstring :=
  flat_map (fun scan => match AnalyticsRoutes.country_of scan with
                        | Some c => [c]
                        | None => []
                        end) h.

(** The number of scans of the links [qs] recorded at [since] or later. *)
Definition scans_since (since : Date) (qs : list QRCodeModel.doc) : Z :=
  fold_right Z.add 0
    (map (fun q =>
            Z.of_nat
              (List.length
                 (filter (fun scan => since <=? QRCodeModel.timestamp scan)
                    (AnalyticsRoutes.history q))))
       qs).

(** The entry of the recent activity for a scan of a link. *)
Definition activity_of (q : QRCodeModel.doc) (scan : QRCodeModel.ScanEvent)
  : AnalyticsRoutes.Activity :=
  {| AnalyticsRoutes.qrCodeId := QRCodeModel._id q;
     AnalyticsRoutes.act_title := AnalyticsRoutes.title_or_untitled q;
     AnalyticsRoutes.act_shortId := QRCodeModel.shortId q;
     AnalyticsRoutes.act_timestamp := QRCodeModel.timestamp scan |}.

(** The entry of the ranking for a link. *)
Definition top_of (q : QRCodeModel.doc) : AnalyticsRoutes.TopQRCode :=
  {| AnalyticsRoutes.top_id := QRCodeModel._id q;
     AnalyticsRoutes.top_title := AnalyticsRoutes.title_or_untitled q;
     AnalyticsRoutes.top_shortId := QRCodeModel.shortId q;
     AnalyticsRoutes.top_totalScans := AnalyticsRoutes.scans_of q;
     AnalyticsRoutes.top_lastScanned :=
       QRCodeModel.lastScanned (QRCodeModel.analytics q);
     AnalyticsRoutes.top_createdAt := QRCodeModel.createdAt q |}.


(** ** Vocabulary of the calendar *)

(** The day number of an instant: whole days since 1970-01-01, UTC. *)
Definition utc_day (t : Date) : Z := t / msPerDay.

(** Calendar dates in chronological order. *)
Definition date_lt (a b : Z * Z * Z) : Prop :=
  let '(y, m, d) := a in
  let '(y', m', d') := b in
  y < y' \/ (y = y' /\ (m < m' \/ (m = m' /\ d < d'))).

(** The steps of [civil_from_days]: the era of 400 years and the day of
    the era, the year of the era and the day of that year (years start on
    1 March), and the date these make. *)
Definition era_of (z0 : Z) : Z := (z0 + 719468) / 146097.

Definition day_of_era (z0 : Z) : Z := z0 + 719468 - era_of z0 * 146097.

Definition year_of_era (doe : Z) : Z :=
  (doe - doe / 1460 + doe / 36524 - doe / 146096) / 365.

Definition day_of_year (doe : Z) : Z :=
  let yoe := year_of_era doe in
  doe - (365 * yoe + yoe / 4 - yoe / 100).

Definition civil_of (march_year doy : Z) : Z * Z * Z :=
  let mp := (5 * doy + 2) / 153 in
  let d := doy - (153 * mp + 2) / 5 + 1 in
  let m := if mp <? 10 then mp + 3 else mp - 9 in
  (march_year + (if m <=? 2 then 1 else 0), m, d).

(** The text of a date, as [toISODate] writes it. *)
Definition iso_of (t : Z * Z * Z) : jsstring :=
  let '(y, m, d) := t in
  pad4 y ++ JS.js "-" ++ pad2 m ++ JS.js "-" ++ pad2 d.

(** ** Vocabulary of the Express application *)



(** ** Invariants of the document store *)


(** No two stored links share an [_id] or a [shortId]. *)
Definition unique_ids (db : Server.DB) : Prop :=
  NoDup (map QRCodeModel._id (Server.qrcodes db))
  /\ NoDup (map QRCodeModel.shortId (Server.qrcodes db)).

Definition unique_users (db : Server.DB) : Prop :=
  NoDup (map User._id (Server.users db)).

(** No stored history is longer than 1000 scans. *)
Definition history_bounded (db : Server.DB) : Prop :=
  Forall (fun q =>
            (List.length (QRCodeModel.scanHistory (QRCodeModel.analytics q))
             <= 1000)%nat)
    (Server.qrcodes db).

(** Every stored link passes the validators of the schema. *)
Definition schema_valid (db : Server.DB) : Prop :=
  Forall (fun q => QRCodeModel.validate q = true) (Server.qrcodes db).

(** No account owns more links than its plan allows. *)
Definition within_quota (db : Server.DB) : Prop :=
  Forall (fun u => Server.countDocuments (Server.qrcodes db) (User._id u)
                   <= User.maxQRCodes (User.limits u))
    (Server.users db).

(** No account owns more links than the larger of its limit and the
    number [owned] gives for it. *)
Definition quota_kept (owned : ObjectId -> Z) (db : Server.DB) : Prop :=
  Forall (fun u => Server.countDocuments (Server.qrcodes db) (User._id u)
                   <= Z.max (owned (User._id u))
                        (User.maxQRCodes (User.limits u)))
    (Server.users db).

(** The usage counter of every account is the number of links it owns. *)
Definition usage_consistent (db : Server.DB) : Prop :=
  Forall (fun u => User.qrCodesCreated (User.usage u)
                   = Server.countDocuments (Server.qrcodes db) (User._id u))
    (Server.users db).

(** A runtime for closed examples: its [URL] accepts a text that starts
    with [http://] or [https://] in any case and goes on, as the WHATWG
    parser does for the texts of the examples; its encoder echoes the
    text; its cast takes the strings of 24 hexadecimal digits. *)
Definition sample_runtime : Runtime :=
  {| URL_parse := fun s =>
       if re_match false (Utils.re_scheme_i ++ [dot]) s
       then Some {| protocol :=
                      if startsWith (toLowerCase s) "https:"
                      then JS.js "https:" else JS.js "http:";
                    href := s |}
       else None;
     QRCode_toDataURL := fun text _ _ _ _ _ =>
       Some (JS.js "data:image/png;base64," ++ text);
     castObjectId := fun s =>
       (List.length s =? 24)%nat && forallb (re_class hex_i) s |}.

(** Sample documents and requests for closed examples. *)
Definition sample_link : QRCodeModel.doc :=
  {| QRCodeModel._id := "665f1c2ab7e4d90012a4c001";
     QRCodeModel.userId := None;
     QRCodeModel.url := "https://example.com";
     QRCodeModel.shortId := "Ab3dE9xZ";
     QRCodeModel.qrCodeData := "data:image/png;base64,AAAA";
     QRCodeModel.title := "Untitled QR Code";
     QRCodeModel.description := [];
     QRCodeModel.customization :=
       {| QRCodeModel.size := 256;
          QRCodeModel.errorCorrectionLevel := "M";
          QRCodeModel.foregroundColor := "#000000";
          QRCodeModel.backgroundColor := "#FFFFFF" |};
     QRCodeModel.analytics :=
       {| QRCodeModel.totalScans := 0;
          QRCodeModel.lastScanned := None;
          QRCodeModel.scanHistory := [] |};
     QRCodeModel.isActive := true;
     QRCodeModel.isPremium := true;
     QRCodeModel.createdAt := 1706700000000 |}.

Definition sample_scan (now : Date) (ua : option jsstring)
  : Server.RedirectRequest :=
  {| Server.r_shortId := "Ab3dE9xZ";
     Server.r_userAgent := ua;
     Server.r_remoteAddress := Some (JS.js "203.0.113.7");
     Server.r_now := now;
     Server.r_now' := now + 1 |}.

Definition sample_user (id plan : jsstring) (created : Z) : User.doc :=
  {| User._id := id;
     User.email := "ada@example.com";
     User.name := "Ada";
     User.plan := plan;
     User.usage :=
       {| User.qrCodesCreated := created; User.monthlyScans := 0;
          User.lastResetDate := 1706700000000 |};
     User.limits :=
       {| User.maxQRCodes := 5; User.maxScansPerMonth := 100;
          User.canCustomize := false; User.canTrackAnalytics := false;
          User.canExportData := false |} |}.

Definition sample_owned_link (owner : jsstring) : QRCodeModel.doc :=
  {| QRCodeModel._id := QRCodeModel._id sample_link;
     QRCodeModel.userId := Some owner;
     QRCodeModel.url := QRCodeModel.url sample_link;
     QRCodeModel.shortId := QRCodeModel.shortId sample_link;
     QRCodeModel.qrCodeData := QRCodeModel.qrCodeData sample_link;
     QRCodeModel.title := QRCodeModel.title sample_link;
     QRCodeModel.description := QRCodeModel.description sample_link;
     QRCodeModel.customization := QRCodeModel.customization sample_link;
     QRCodeModel.analytics := QRCodeModel.analytics sample_link;
     QRCodeModel.isActive := true;
     QRCodeModel.isPremium := false;
     QRCodeModel.createdAt := QRCodeModel.createdAt sample_link |}.

Definition sample_create (session : option jsstring) (url shortId id : jsstring)
  : Server.GenerateRequest :=
  {| Server.g_session := session;
     Server.g_url := Some url;
     Server.g_title := None;
     Server.g_description := None;
     Server.g_size := None;
     Server.g_errorCorrectionLevel := None;
     Server.g_foregroundColor := None;
     Server.g_backgroundColor := None;
     Server.g_shortId := shortId;
     Server.g_id := id;
     Server.g_now := 1706702400000 |}.

(** An account moved to the enterprise plan and saved. *)
Definition sample_enterprise_user : User.doc :=
  User.pre_save_limits
    (User.assign_plan
       {| User.this := sample_user "665f1c2ab7e4d90012a4b003" "free" 0;
          User.isModified_plan := false |}
       "enterprise").

(** A scan with a user agent and one without. *)
Definition sample_history : list QRCodeModel.ScanEvent :=
  [Server.scanData (sample_scan 1706702400000 (Some (JS.js "iPhone")));
   Server.scanData (sample_scan 1706702460000 None)].

(** A scan of the sample link, a creation with its short identifier
    (refused by the unique index), a creation whose address the schema
    refuses, and an anonymous creation with a new short identifier. *)
Definition sample_requests : list Server.Request :=
  [Server.GET_r (sample_scan 1706702400000 (Some (JS.js "iPhone")));
   Server.POST_generate
     (sample_create None "example.org" "Ab3dE9xZ" "665f1c2ab7e4d90012a4c002");
   Server.POST_generate
     (sample_create None " HTTP://example.net" "Qw8rT2pL"
        "665f1c2ab7e4d90012a4c003");
   Server.POST_generate
     (sample_create None "example.net" "Qw8rT2pL"
        "665f1c2ab7e4d90012a4c003")].

Definition sample_db : Server.DB :=
  {| Server.qrcodes := [sample_link]; Server.users := [] |}.

(** An account on the free plan that owns the sample link. *)
Definition sample_owner : ObjectId := "665f1c2ab7e4d90012a4b001".

Definition sample_account_db : Server.DB :=
  {| Server.qrcodes := [sample_owned_link sample_owner];
     Server.users := [sample_user sample_owner "free" 1] |}.

(** The owner deactivates the link, scans it, deletes it, deletes it
    again and creates another one. *)
Definition sample_account_requests : list Server.Request :=
  [Server.PUT_qr {| Server.u_session := Some sample_owner;
                    Server.u_qrId := "665f1c2ab7e4d90012a4c001";
                    Server.u_title := None; Server.u_description := None;
                    Server.u_isActive := Some false |};
   Server.GET_r (sample_scan 1706702400000 None);
   Server.DELETE_qr {| Server.d_session := Some sample_owner;
                       Server.d_qrId := "665f1c2ab7e4d90012a4c001" |};
   Server.DELETE_qr {| Server.d_session := Some sample_owner;
                       Server.d_qrId := "665f1c2ab7e4d90012a4c001" |};
   Server.POST_generate
     (sample_create (Some sample_owner) "example.com" "Zz9yX8wV"
        "665f1c2ab7e4d90012a4c002")].

(** The account of the sample owner after a move to the pro plan. *)
Definition sample_pro_user : User.doc :=
  User.pre_save_limits
    (User.assign_plan
       {| User.this := sample_user sample_owner "free" 1;
          User.isModified_plan := false |}
       "pro").

(** The owner's link after the two scans of the sample history. *)
Definition sample_scanned_link : QRCodeModel.doc :=
  QRCodeModel.set_analytics (sample_owned_link sample_owner)
    {| QRCodeModel.totalScans := 2;
       QRCodeModel.lastScanned := Some 1706702460001;
       QRCodeModel.scanHistory := sample_history |}.

(** A link of another account. *)
Definition sample_foreign_link : QRCodeModel.doc :=
  QRCodeModel.set_analytics (sample_owned_link "665f1c2ab7e4d90012a4b002")
    {| QRCodeModel.totalScans := 1;
       QRCodeModel.lastScanned := Some 1706702400001;
       QRCodeModel.scanHistory :=
         [Server.scanData (sample_scan 1706702400000 None)] |}.






(** * Properties *)

(** ** Strings and lists *)

Lemma str_eqb_refl (a : jsstring) : str_eqb a a = true.
Proof.
  induction a as [|c a IH]; simpl; [reflexivity|].
  now rewrite N.eqb_refl, IH.
Qed.

Lemma str_eqb_eq (a b : jsstring) : str_eqb a b = true <-> a = b.
Proof.
  split; [|intros ->; apply str_eqb_refl].
  revert b; induction a as [|x a IH]; intros [|y b]; simpl; try discriminate.
  - reflexivity.
  - intros E. apply andb_true_iff in E as [E1 E2].
    apply N.eqb_eq in E1. apply IH in E2. now subst.
Qed.

Lemma str_eqb_neq (a b : jsstring) : str_eqb a b = false <-> a <> b.
Proof.
  rewrite <- str_eqb_eq. destruct (str_eqb a b); split; congruence.
Qed.

Lemma slice_last_short {A} (n : nat) (l : list A) :
  (List.length l <= n)%nat -> slice_last n l = l.
Proof.
  intros Hl. unfold slice_last.
  replace (List.length l - n)%nat with 0%nat by lia. apply skipn_0.
Qed.

Lemma slice_last_length {A} (n : nat) (l : list A) :
  List.length (slice_last n l) = Nat.min (List.length l) n.
Proof. unfold slice_last. rewrite length_skipn. lia. Qed.


Lemma find_replace_first {A} (p pid : A -> bool) (x x' : A) (l : list A) :
  find p l = Some x -> pid x = true -> p x' = true ->
  find p (Server.replace_first pid x' l) = Some x'.
Proof.
  intros Hf Hid Hp.
  induction l as [|y l IH]; simpl in *; [discriminate|].
  destruct (p y) eqn:Hy.
  - injection Hf as ->. rewrite Hid. simpl. now rewrite Hp.
  - destruct (pid y); simpl.
    + now rewrite Hp.
    + rewrite Hy. now apply IH.
Qed.

Lemma Forall_replace_first {A} (P : A -> Prop) (pid : A -> bool) (x : A)
  (l : list A) :
  Forall P l -> P x -> Forall P (Server.replace_first pid x l).
Proof.
  intros Hl Hx. induction Hl as [|y l Hy Hl IH]; simpl; [constructor|].
  destruct (pid y); constructor; assumption.
Qed.

(** ** Scan recording *)

Section ScanRecording.

Import QRCodeModel Server.

Lemma track_history (a : Analytics) (r : RedirectRequest) :
  scanHistory (track a r) = slice_last 1000 (scanHistory a ++ [scanData r]).
Proof.
  unfold track; simpl.
  destruct (Nat.ltb_spec 1000 (List.length (scanHistory a ++ [scanData r])));
    [reflexivity|].
  symmetry. now apply slice_last_short.
Qed.




Context `{Runtime}.



End ScanRecording.


(** ** Ownership on update and delete *)

Section Ownership.

Context `{Runtime}.

Import QRCodeModel Server.

Lemma opt_eqb_eq (a b : option jsstring) : opt_eqb a b = true <-> a = b.
Proof.
  destruct a as [x|], b as [y|]; simpl; try (split; congruence).
  rewrite str_eqb_eq. split; congruence.
Qed.



Lemma casts_stored (qs : list doc) (q : doc) :
  In q qs -> casts qs (_id q) = true.
Proof.
  intros Hq. unfold casts. apply orb_true_iff. right.
  apply existsb_exists. exists q. split; [exact Hq|apply str_eqb_refl].
Qed.


End Ownership.



(** ** Creation: the premium flag, the plan limit and the usage counter *)

Section Creation.

Import QRCodeModel Server.

Context `{Runtime}.

Lemma plan_limit_check_403 (db : DB) (cu : option User.doc) (resp : Response) :
  plan_limit_check db cu = Some resp -> exists b, resp = Json 403 b.
Proof.
  unfold plan_limit_check. destruct cu as [u|]; [|discriminate].
  destruct (limit_reached _ u); [|discriminate].
  intros [= <-]. eauto.
Qed.

(** What a creation that answers 200 has stored, and whose counter it has
    moved. *)
Lemma generate_created (db db' : DB) (r : GenerateRequest) (b : Body) :
  generate db r = (db', Json 200 b) ->
  let currentUser := getUserFromToken db (g_session r) in
  exists q,
    qrcodes db' = qrcodes db ++ [q]
    /\ userId q = option_map User._id currentUser
    /\ isPremium q = isPremium_of currentUser
    /\ isActive q = true
    /\ analytics q
       = {| totalScans := 0; lastScanned := None; scanHistory := [] |}
    /\ plan_limit_check db currentUser = None.
Proof.
  unfold generate.
  destruct (negb (truthy (default (g_url r) []))); [discriminate|].
  destruct (sanitizeUrl (default (g_url r) [])) as [sanitizedUrl|];
    [|discriminate].
  destruct (negb (validateUrl sanitizedUrl)); [discriminate|].
  destruct (plan_limit_check db (getUserFromToken db (g_session r)))
    as [denied|] eqn:Hlim.
  { intros [= _ Hd]. apply plan_limit_check_403 in Hlim as [b' ->].
    discriminate. }
  destruct (QRCode_toDataURL _ _ _ _ _ _) as [dataURL|]; [|discriminate].
  unfold insert.
  match goal with |- context [if ?c then Some _ else None] => destruct c end;
    [|discriminate].
  intros [= <- _]. simpl. eexists. repeat split.
Qed.

(** C9: a creation by an anonymous caller stores a link whose [isPremium]
    is true, since [currentUser?.plan !== 'free' || false] is true without a
    user; the stored flag is false exactly for an authenticated owner whose
    plan is 'free'. *)
Theorem anonymous_links_are_premium (db db' : DB) (r : GenerateRequest)
  (b : Body) :
  generate db r = (db', Json 200 b) ->
  exists q,
    qrcodes db' = qrcodes db ++ [q]
    /\ (getUserFromToken db (g_session r) = None -> isPremium q = true)
    /\ (isPremium q = false <->
        exists u, getUserFromToken db (g_session r) = Some u
                  /\ User.plan u = JS.js "free").
Proof.
  intros Hg. destruct (generate_created db db' r b Hg)
    as (q & Hq & _ & Hp & _).
  exists q. split; [exact Hq|]. rewrite Hp. unfold isPremium_of.
  destruct (getUserFromToken db (g_session r)) as [u|]; simpl.
  - split; [discriminate|]. rewrite orb_false_r, negb_false_iff, str_eqb_eq.
    split.
    + intros E. exists u. now split.
    + intros (u' & [= <-] & E). exact E.
  - split; [reflexivity|]. split; [discriminate|].
    intros (u & E & _). discriminate.
Qed.

Lemma getUserFromToken_In (db : DB) (session : option ObjectId) (u : User.doc) :
  getUserFromToken db session = Some u -> In u (users db).
Proof.
  destruct session as [uid|]; simpl; [|discriminate].
  intros Hf. now apply find_some in Hf.
Qed.

Lemma User_save_counter (db : DB) (u : User.doc) (n : Z) :
  counters_nonneg db -> 0 <= n ->
  Forall (fun u => 0 <= User.qrCodesCreated (User.usage u))
    (User_save (users db)
       {| User.this := User.set_qrCodesCreated u n;
          User.isModified_plan := false |}).
Proof.
  intros Hdb Hn. unfold User_save. now apply Forall_replace_first.
Qed.

Lemma generate_counters (db : DB) (r : GenerateRequest) :
  counters_nonneg db -> counters_nonneg (fst (generate db r)).
Proof.
  intros Hdb. unfold generate.
  destruct (negb (truthy (default (g_url r) []))); [exact Hdb|].
  destruct (sanitizeUrl (default (g_url r) [])) as [sanitizedUrl|];
    [|exact Hdb].
  destruct (negb (validateUrl sanitizedUrl)); [exact Hdb|].
  destruct (plan_limit_check db (getUserFromToken db (g_session r)));
    [exact Hdb|].
  destruct (QRCode_toDataURL _ _ _ _ _ _) as [dataURL|]; [|exact Hdb].
  destruct (insert _ _) as [qs|]; [|exact Hdb].
  unfold counters_nonneg; simpl.
  destruct (getUserFromToken db (g_session r)) as [u|] eqn:Hu; [|exact Hdb].
  apply User_save_counter; [exact Hdb|].
  apply getUserFromToken_In in Hu.
  unfold counters_nonneg in Hdb. rewrite Forall_forall in Hdb.
  specialize (Hdb u Hu). simpl in Hdb. lia.
Qed.

Lemma delete_counters (db : DB) (r : DeleteRequest) :
  counters_nonneg db -> counters_nonneg (fst (delete db r)).
Proof.
  intros Hdb. unfold delete.
  destruct (getUserFromToken db (d_session r)) as [u|]; [|exact Hdb].
  destruct (negb (casts _ _)); [exact Hdb|].
  destruct (findOne_owned _ _ _); [|exact Hdb].
  unfold counters_nonneg; simpl.
  destruct (Z.gtb_spec (User.qrCodesCreated (User.usage u)) 0); [|exact Hdb].
  apply User_save_counter; [exact Hdb|lia].
Qed.

Lemma handle_counters (db : DB) (req : Request) :
  counters_nonneg db -> counters_nonneg (fst (handle db req)).
Proof.
  intros Hdb. destruct req as [r|r|r|r]; simpl.
  - now apply generate_counters.
  - unfold update.
    destruct (getUserFromToken db (u_session r)); [|exact Hdb].
    destruct (negb (casts _ _)); [exact Hdb|].
    destruct (findOne_owned _ _ _); [|exact Hdb].
    match goal with |- context [if ?c then _ else _] => destruct c end;
      exact Hdb.
  - now apply delete_counters.
  - unfold redirect. destruct (findOne_active _ _); exact Hdb.
Qed.

(** How a delete moves the counter of the caller: not at all, or down by
    one from a strictly positive value. *)
Lemma delete_users (db : DB) (r : DeleteRequest) :
  users (fst (delete db r)) = users db
  \/ exists user,
       getUserFromToken db (d_session r) = Some user
       /\ 0 < User.qrCodesCreated (User.usage user)
       /\ users (fst (delete db r))
          = User_save (users db)
              {| User.this :=
                   User.set_qrCodesCreated user
                     (User.qrCodesCreated (User.usage user) - 1);
                 User.isModified_plan := false |}.
Proof.
  unfold delete.
  destruct (getUserFromToken db (d_session r)) as [u|]; [|now left].
  destruct (negb (casts _ _)); [now left|].
  destruct (findOne_owned _ _ _); [|now left]. simpl.
  destruct (Z.gtb_spec (User.qrCodesCreated (User.usage u)) 0); [|now left].
  right. exists u. repeat split. lia.
Qed.

(** C10: under every sequence of requests (creations, updates, deletes,
    scans) the usage counters of the accounts stay at or above zero,
    whatever their relation to the links stored; a delete lowers the
    caller's counter only from a strictly positive value. *)
Theorem usage_counter_never_negative (db : DB) (reqs : list Request) :
  counters_nonneg db ->
  counters_nonneg (fst (run db reqs))
  /\ forall r : DeleteRequest,
       users (fst (delete db r)) = users db
       \/ exists user,
            getUserFromToken db (d_session r) = Some user
            /\ 0 < User.qrCodesCreated (User.usage user)
            /\ users (fst (delete db r))
               = User_save (users db)
                   {| User.this :=
                        User.set_qrCodesCreated user
                          (User.qrCodesCreated (User.usage user) - 1);
                      User.isModified_plan := false |}.
Proof.
  intros Hdb. split; [|apply delete_users].
  revert db Hdb. induction reqs as [|req reqs IH]; intros db Hdb;
    [exact Hdb|].
  simpl. pose proof (handle_counters db req Hdb) as Hstep.
  destruct (handle db req) as [db1 resp]. simpl in Hstep.
  specialize (IH db1 Hstep).
  destruct (run db1 reqs) as [db2 resps]. exact IH.
Qed.

(** The check lets a creation through exactly when the owner has fewer
    links than [maxQRCodes]; an anonymous creation is never refused. *)
Lemma plan_limit_check_allows (db : DB) (u : User.doc) :
  plan_limit_check db (Some u) = None
  <-> countDocuments (qrcodes db) (User._id u)
      < User.maxQRCodes (User.limits u).
Proof.
  unfold plan_limit_check, limit_reached.
  destruct (Z.geb_spec (countDocuments (qrcodes db) (User._id u))
              (User.maxQRCodes (User.limits u))); split;
    try discriminate; try reflexivity; lia.
Qed.

Lemma plan_limit_check_anonymous (db : DB) : plan_limit_check db None = None.
Proof. reflexivity. Qed.

(** On the free plan the first five creations pass the check and the sixth
    does not. *)
Lemma free_plan_five_links (db : DB) (u : User.doc) :
  User.maxQRCodes (User.limits u) = 5 ->
  (plan_limit_check db (Some u) = None
   <-> countDocuments (qrcodes db) (User._id u) < 5).
Proof. intros E. rewrite plan_limit_check_allows, E. reflexivity. Qed.

(** With the limit -1 of the enterprise plan the check refuses every
    creation: a count is never below -1. *)
Lemma unlimited_plan_is_refused (db : DB) (u : User.doc) :
  User.maxQRCodes (User.limits u) = -1 ->
  plan_limit_check db (Some u) <> None.
Proof.
  intros E Hn. apply plan_limit_check_allows in Hn. rewrite E in Hn.
  unfold countDocuments in Hn. lia.
Qed.

End Creation.

(** C2, at the input where the code departs from it: an account on the
    enterprise plan, whose [maxQRCodes] the plan hook sets to -1
    ("Unlimited"), owns no link and asks for its first one; the handler
    answers 403 and stores nothing. *)
Theorem enterprise_owner_is_refused :
  let db := {| Server.qrcodes := []; Server.users := [sample_enterprise_user] |} in
  User.maxQRCodes (User.limits sample_enterprise_user) = -1
  /\ @Server.generate sample_runtime db
       (sample_create (Some (JS.js "665f1c2ab7e4d90012a4b003")) "example.com"
          "Ab3dE9xZ" "665f1c2ab7e4d90012a4c001")
     = (db,
        Server.Json 403
          (Server.LimitBody
             "Plan limit reached. You can create up to -1 QR codes on the enterprise plan."
             "/pricing")).
Proof. split; vm_compute; reflexivity. Qed.

(** Six creations in a row by an account on the free plan: five are
    answered 200, the sixth 403. *)
Example free_plan_sixth_creation_is_refused :
  let owner := JS.js "665f1c2ab7e4d90012a4b001" in
  let create := fun sid id =>
    Server.POST_generate (sample_create (Some owner) "example.com" sid id) in
  map Server.status_of
    (snd (@Server.run sample_runtime
            {| Server.qrcodes := [];
               Server.users := [sample_user owner "free" 0] |}
            [create (JS.js "aaaaaaa1") (JS.js "665f1c2ab7e4d90012a4c001");
             create (JS.js "aaaaaaa2") (JS.js "665f1c2ab7e4d90012a4c002");
             create (JS.js "aaaaaaa3") (JS.js "665f1c2ab7e4d90012a4c003");
             create (JS.js "aaaaaaa4") (JS.js "665f1c2ab7e4d90012a4c004");
             create (JS.js "aaaaaaa5") (JS.js "665f1c2ab7e4d90012a4c005");
             create (JS.js "aaaaaaa6") (JS.js "665f1c2ab7e4d90012a4c006")]))
  = [200; 200; 200; 200; 200; 403].
Proof. vm_compute. reflexivity. Qed.

(** An anonymous creation of a link to example.com. *)
Lemma anonymous_links_are_premium_witness :
  let db := {| Server.qrcodes := []; Server.users := [] |} in
  let r := sample_create None "example.com" "Ab3dE9xZ"
             "665f1c2ab7e4d90012a4c001" in
  exists q,
    Server.qrcodes (fst (@Server.generate sample_runtime db r))
    = Server.qrcodes db ++ [q]
    /\ QRCodeModel.url q = JS.js "https://example.com"
    /\ QRCodeModel.isPremium q = true.
Proof.
  intros db r.
  assert (Hg : exists b,
             @Server.generate sample_runtime db r
             = (fst (@Server.generate sample_runtime db r), Server.Json 200 b)).
  { eexists. cbv. reflexivity. }
  destruct Hg as [b Hg].
  destruct (@anonymous_links_are_premium sample_runtime db _ r b Hg)
    as (q & Hq & Hanon & _).
  exists q. split; [exact Hq|]. split; [|apply Hanon; reflexivity].
  assert (Hl : last (Server.qrcodes (fst (@Server.generate sample_runtime db r)))
                 q = q) by (rewrite Hq; apply last_last).
  rewrite <- Hl. cbv. reflexivity.
Defined.

(** Two deletes and a creation by an account whose counter is at zero
    while it owns a link. *)
Lemma usage_counter_never_negative_witness :
  let owner := JS.js "665f1c2ab7e4d90012a4b001" in
  let db := {| Server.qrcodes := [sample_owned_link owner];
               Server.users := [sample_user owner "free" 0] |} in
  let reqs :=
    [Server.DELETE_qr {| Server.d_session := Some owner;
                         Server.d_qrId := "665f1c2ab7e4d90012a4c001" |};
     Server.DELETE_qr {| Server.d_session := Some owner;
                         Server.d_qrId := "665f1c2ab7e4d90012a4c001" |};
     Server.POST_generate
       (sample_create (Some owner) "example.com" "Zz9yX8wV"
          "665f1c2ab7e4d90012a4c002")] in
  counters_nonneg db
  /\ counters_nonneg (fst (@Server.run sample_runtime db reqs)).
Proof.
  intros owner db reqs.
  assert (Hdb : counters_nonneg db).
  { constructor; [simpl; lia|constructor]. }
  split; [exact Hdb|].
  exact (proj1 (@usage_counter_never_negative sample_runtime db reqs Hdb)).
Defined.

(** ** The plan hook *)

(** C7: when an account whose plan is changed is saved, the pre-save hook
    overwrites its limits, whatever they were, with the values of the new
    plan: pro gives 100, 10000, true, true, true; free gives 5, 100, false,
    false, false; enterprise gives -1, -1, true, true, true. *)
Theorem plan_change_recomputes_limits (d : User.loaded) :
  (User.plan (User.this d) <> JS.js "pro" ->
   User.pre_save_limits (User.assign_plan d "pro")
   = User.set_limits (User.set_plan (User.this d) "pro")
       {| User.maxQRCodes := 100; User.maxScansPerMonth := 10000;
          User.canCustomize := true; User.canTrackAnalytics := true;
          User.canExportData := true |})
  /\ (User.plan (User.this d) <> JS.js "free" ->
      User.pre_save_limits (User.assign_plan d "free")
      = User.set_limits (User.set_plan (User.this d) "free")
          {| User.maxQRCodes := 5; User.maxScansPerMonth := 100;
             User.canCustomize := false; User.canTrackAnalytics := false;
             User.canExportData := false |})
  /\ (User.plan (User.this d) <> JS.js "enterprise" ->
      User.pre_save_limits (User.assign_plan d "enterprise")
      = User.set_limits (User.set_plan (User.this d) "enterprise")
          {| User.maxQRCodes := -1; User.maxScansPerMonth := -1;
             User.canCustomize := true; User.canTrackAnalytics := true;
             User.canExportData := true |}).
Proof.
  repeat split; intros Hp; apply str_eqb_neq in Hp;
    unfold User.assign_plan; rewrite Hp; reflexivity.
Qed.

(** A free account with hand-edited limits, moved to pro. *)
Lemma plan_change_recomputes_limits_witness :
  User.limits
    (User.pre_save_limits
       (User.assign_plan
          (User.assign_limits
             {| User.this := sample_user "665f1c2ab7e4d90012a4b001" "free" 3;
                User.isModified_plan := false |}
             {| User.maxQRCodes := 7; User.maxScansPerMonth := 1;
                User.canCustomize := true; User.canTrackAnalytics := false;
                User.canExportData := true |})
          "pro"))
  = {| User.maxQRCodes := 100; User.maxScansPerMonth := 10000;
       User.canCustomize := true; User.canTrackAnalytics := true;
       User.canExportData := true |}.
Proof.
  rewrite (proj1 (plan_change_recomputes_limits _)).
  - reflexivity.
  - vm_compute. discriminate.
Defined.

(** ** URL sanitising and validation *)

Lemma prefix_ci_spec (l s : jsstring) :
  prefix_ci l s = true <-> starts_with_ci l s.
Proof.
  unfold starts_with_ci. revert s.
  induction l as [|x l IH]; intros s; simpl.
  - split; [|reflexivity]. intros _. now exists [], s.
  - destruct s as [|c s].
    + split; [discriminate|]. intros (p & rest & E & Hp).
      destruct p; discriminate.
    + rewrite andb_true_iff, N.eqb_eq, IH. split.
      * intros (Hc & p & rest & -> & Hp). exists (c :: p), rest.
        simpl. now rewrite Hc, Hp.
      * intros (p & rest & E & Hp). destruct p as [|c' p]; [discriminate|].
        simpl in *. injection E as <- ->. injection Hp as Hc Hp.
        split; [exact Hc|]. now exists p, rest.
Qed.

(** An optional item after mandatory ones: the match with it or without. *)
Lemma re_match_optional (e : bool) (its1 : list re_item) (it : re_item)
  (its2 : list re_item) :
  Forall (fun i => re_optional i = false) its1 ->
  re_optional it = false ->
  forall s,
    re_match e (its1 ++ opt it :: its2) s
    = re_match e (its1 ++ it :: its2) s || re_match e (its1 ++ its2) s.
Proof.
  intros H1 Hit. induction H1 as [|i its1 Hi H1 IH]; intros s; simpl.
  - rewrite Hit. simpl. now rewrite orb_false_r.
  - rewrite Hi. simpl. rewrite !orb_false_r.
    destruct s as [|c s]; [reflexivity|]. rewrite IH.
    now destruct (re_class i c).
Qed.

(** Mandatory items that each compare the lowered code unit with a fixed
    one: the match is the prefix test. *)
Lemma re_match_prefix_ci (items : list re_item) (l : jsstring) :
  Forall2 (fun i x => re_optional i = false
                      /\ forall u, re_class i u = (ascii_lower u =? x)%N)
    items l ->
  forall s, re_match false items s = prefix_ci l s.
Proof.
  induction 1 as [|i x items l [Hi Hc] _ IH]; intros s; simpl;
    [reflexivity|].
  rewrite Hi. simpl. rewrite orb_false_r.
  destruct s as [|c s]; [reflexivity|]. now rewrite Hc, IH.
Qed.

Lemma lit_i_class (a : ascii) :
  (97 <= N_of_ascii a <= 122)%N ->
  forall u, re_class (lit_i a) u = (ascii_lower u =? N_of_ascii a)%N.
Proof.
  intros Ha u. unfold lit_i, ascii_lower; simpl.
  destruct (N.leb_spec 65 u), (N.leb_spec u 90); simpl;
    repeat match goal with
    | |- context [(?x =? ?y)%N] => destruct (N.eqb_spec x y)
    end; simpl; try reflexivity; lia.
Qed.

Lemma lit_class (a : ascii) :
  (N_of_ascii a < 65)%N ->
  forall u, re_class (lit a) u = (ascii_lower u =? N_of_ascii a)%N.
Proof.
  intros Ha u. unfold lit, ascii_lower; simpl.
  destruct (N.leb_spec 65 u), (N.leb_spec u 90); simpl;
    repeat match goal with
    | |- context [(?x =? ?y)%N] => destruct (N.eqb_spec x y)
    end; simpl; try reflexivity; lia.
Qed.

Lemma re_scheme_i_spec (s : jsstring) :
  re_match false Utils.re_scheme_i s = true <-> has_http_scheme s.
Proof.
  unfold has_http_scheme. rewrite <- !prefix_ci_spec, <- orb_true_iff.
  change Utils.re_scheme_i
    with ([lit_i "h"; lit_i "t"; lit_i "t"; lit_i "p"]%char
          ++ opt (lit_i "s"%char) :: [lit ":"; lit "/"; lit "/"]%char).
  rewrite re_match_optional by (repeat constructor).
  rewrite (re_match_prefix_ci _ (JS.js "https://")),
          (re_match_prefix_ci _ (JS.js "http://")).
  - now rewrite orb_comm.
  - repeat constructor;
      first [apply lit_i_class; vm_compute; split; discriminate
            |apply lit_class; reflexivity].
  - repeat constructor;
      first [apply lit_i_class; vm_compute; split; discriminate
            |apply lit_class; reflexivity].
Qed.

Lemma trimStart_spec (s : jsstring) :
  exists l,
    s = l ++ trimStart s /\ forallb is_white_space l = true
    /\ forall c t', trimStart s = c :: t' -> is_white_space c = false.
Proof.
  induction s as [|c s (l & E & Hl & Hh)]; simpl.
  - exists []. repeat split. discriminate.
  - destruct (is_white_space c) eqn:Hc.
    + exists (c :: l). simpl. rewrite Hc, Hl, <- E. repeat split. exact Hh.
    + exists []. repeat split. now intros c' t' [= <- _].
Qed.

Lemma trimStart_last (s : jsstring) (c : code_unit) (t' : jsstring) :
  trimStart s = t' ++ [c] -> exists s', s = s' ++ [c].
Proof.
  destruct (trimStart_spec s) as (l & E & _). intros Ht.
  exists (l ++ t'). now rewrite <- app_assoc, <- Ht.
Qed.

Lemma trim_spec (s : jsstring) : trimmed_of s (trim s).
Proof.
  unfold trimmed_of, trim, trimEnd.
  destruct (trimStart_spec s) as (l & El & Hl & Hhd).
  destruct (trimStart_spec (rev (trimStart s))) as (r & Er & Hr & Hlast).
  exists l, (rev r). repeat split.
  - rewrite <- rev_app_distr, <- Er, rev_involutive. exact El.
  - exact Hl.
  - rewrite forallb_forall in *. intros x Hx. apply Hr. now apply in_rev.
  - intros c t' Ht.
    destruct (trimStart (rev (trimStart s))) as [|z zs] eqn:Ez;
      [discriminate|].
    assert (Hz : rev (z :: zs) = c :: t') by exact Ht.
    apply (f_equal (@rev _)) in Hz. rewrite rev_involutive in Hz.
    simpl in Hz. rewrite Hz in Ez.
    apply trimStart_last in Ez as [s' Es'].
    apply (f_equal (@rev _)) in Es'.
    rewrite rev_involutive, rev_app_distr in Es'. simpl in Es'.
    apply (Hhd c (rev s')). exact Es'.
  - intros c t' Ht. apply (f_equal (@rev _)) in Ht.
    rewrite rev_involutive, rev_app_distr in Ht. simpl in Ht.
    apply (Hlast c (rev t')). exact Ht.
Qed.

Section Sanitising.

Context `{Runtime}.

(** C6: [sanitizeUrl] trims the white space at both ends and puts
    [https://] in front exactly when what is left does not start with
    [http://] or [https://], letters compared without case, so that
    [example.com] becomes [https://example.com]; and when the sanitized
    string parses as a URL whose scheme is http or https, [validateUrl]
    accepts it (and only then).  The servers' own copies sanitize to the
    same string and validate whatever parses. *)
Theorem sanitize_then_validate (s : jsstring) :
  trimmed_of s (trim s)
  /\ (has_http_scheme (trim s) -> Utils.sanitizeUrl s = trim s)
  /\ (~ has_http_scheme (trim s) ->
      Utils.sanitizeUrl s = JS.js "https://" ++ trim s)
  /\ Utils.sanitizeUrl "example.com" = JS.js "https://example.com"
  /\ (Utils.validateUrl (Utils.sanitizeUrl s) = true <->
      exists u, URL_parse (Utils.sanitizeUrl s) = Some u
                /\ (protocol u = JS.js "http:"
                    \/ protocol u = JS.js "https:"))
  /\ Prototype.sanitizeUrl s = Utils.sanitizeUrl s
  /\ (truthy s = true -> Server.sanitizeUrl s = Some (Utils.sanitizeUrl s))
  /\ (forall u, URL_parse (Utils.sanitizeUrl s) = Some u ->
      Server.validateUrl (Utils.sanitizeUrl s) = true
      /\ Prototype.validateUrl (Utils.sanitizeUrl s) = true).
Proof.
  split; [apply trim_spec|].
  unfold Utils.sanitizeUrl, Prototype.sanitizeUrl, Server.sanitizeUrl.
  split; [|split; [|split; [|split; [|split; [|split]]]]].
  - intros Hs. apply re_scheme_i_spec in Hs. now rewrite Hs.
  - intros Hs. destruct (re_match false Utils.re_scheme_i (trim s)) eqn:E;
      [|reflexivity].
    now apply re_scheme_i_spec in E.
  - reflexivity.
  - unfold Utils.validateUrl.
    destruct (URL_parse _) as [u|].
    + rewrite orb_true_iff, !str_eqb_eq. split.
      * intros Hp. now exists u.
      * now intros (u' & [= <-] & Hp).
    + split; [discriminate|]. now intros (u & E & _).
  - reflexivity.
  - intros Ht. rewrite Ht. cbn [negb].
    now destruct (re_match false Utils.re_scheme_i (trim s)).
  - intros u Hu. unfold Server.validateUrl, Prototype.validateUrl.
    now rewrite Hu.
Qed.

End Sanitising.

(** ** Counting into a map *)

Section Counting.

Import Analytics.

Lemma or_0_Some (v : Z) : or_0 (Some v) = v.
Proof. simpl. destruct (Z.eqb_spec v 0); congruence. Qed.

Lemma Map_get_set_same (m : Map Z) (k : jsstring) (v : Z) :
  Map_get (Map_set m k v) k = Some v.
Proof.
  induction m as [|[k' v'] m IH]; simpl.
  - now rewrite str_eqb_refl.
  - destruct (str_eqb k' k) eqn:E; simpl; now rewrite E.
Qed.

Lemma Map_get_set_other (m : Map Z) (k k' : jsstring) (v : Z) :
  k' <> k -> Map_get (Map_set m k v) k' = Map_get m k'.
Proof.
  intros Hk. induction m as [|[k0 v0] m IH]; simpl.
  - destruct (str_eqb k k') eqn:E; [|reflexivity].
    apply str_eqb_eq in E. congruence.
  - destruct (str_eqb k0 k) eqn:E; simpl.
    + apply str_eqb_eq in E. subst k0.
      destruct (str_eqb k k') eqn:E'; [|reflexivity].
      apply str_eqb_eq in E'. congruence.
    + now rewrite IH.
Qed.

Lemma keys_set (m : Map Z) (k : jsstring) (v : Z) :
  keys (Map_set m k v) = if existsb (fun k' => str_eqb k' k) (keys m)
                         then keys m else keys m ++ [k].
Proof.
  induction m as [|[k' v'] m IH]; simpl; [reflexivity|].
  destruct (str_eqb k' k); simpl; [reflexivity|].
  fold (keys m) (keys (Map_set m k v)). rewrite IH.
  now destruct (existsb _ (keys m)).
Qed.

Lemma existsb_key (k : jsstring) (ks : list jsstring) :
  existsb (fun k' => str_eqb k' k) ks = true <-> In k ks.
Proof.
  rewrite existsb_exists. split.
  - intros (x & Hx & E). apply str_eqb_eq in E. now subst.
  - intros Hk. exists k. split; [exact Hk|apply str_eqb_refl].
Qed.

Lemma In_keys_set (m : Map Z) (k k' : jsstring) (v : Z) :
  In k' (keys (Map_set m k v)) <-> k' = k \/ In k' (keys m).
Proof.
  rewrite keys_set. destruct (existsb _ (keys m)) eqn:E.
  - apply existsb_key in E. split; [now right|]. intros [->|Hk]; assumption.
  - rewrite in_app_iff. simpl. intuition congruence.
Qed.

Lemma NoDup_keys_set (m : Map Z) (k : jsstring) (v : Z) :
  NoDup (keys m) -> NoDup (keys (Map_set m k v)).
Proof.
  intros Hm. rewrite keys_set. destruct (existsb _ (keys m)) eqn:E;
    [exact Hm|].
  apply NoDup_app; [exact Hm|repeat constructor; intros []|].
  intros x Hx [<-|[]]. apply existsb_key in Hx. congruence.
Qed.

Lemma sum_values_set (m : Map Z) (k : jsstring) (v : Z) :
  NoDup (keys m) ->
  sum_values (Map_set m k v) = sum_values m - or_0 (Map_get m k) + v.
Proof.
  unfold sum_values. induction m as [|[k' v'] m IH]; intros Hm; simpl.
  - lia.
  - inversion Hm as [|x xs Hx Hm']; subst.
    destruct (str_eqb k' k) eqn:E; simpl.
    + destruct (Z.eqb_spec v' 0); lia.
    + rewrite IH by assumption. lia.
Qed.

Lemma Map_get_In (m : Map Z) (k : jsstring) (v : Z) :
  NoDup (keys m) -> (In (k, v) m <-> Map_get m k = Some v).
Proof.
  induction m as [|[k' v'] m IH]; intros Hm; simpl.
  - split; [intros []|discriminate].
  - inversion Hm as [|x xs Hx Hm']; subst.
    destruct (str_eqb k' k) eqn:E.
    + apply str_eqb_eq in E. subst k'. split.
      * intros [[= ->]|Hin]; [reflexivity|].
        exfalso. apply Hx. apply (in_map fst) in Hin. exact Hin.
      * intros [= ->]. now left.
    + apply str_eqb_neq in E. rewrite <- IH by assumption. split.
      * intros [[= -> _]|Hin]; [congruence|exact Hin].
      * intros Hin. now right.
Qed.

Lemma Map_get_None (m : Map Z) (k : jsstring) :
  Map_get m k = None <-> ~ In k (keys m).
Proof.
  induction m as [|[k' v'] m IH]; simpl; [tauto|].
  destruct (str_eqb k' k) eqn:E.
  - apply str_eqb_eq in E. split; [discriminate|]. intros Hn. tauto.
  - apply str_eqb_neq in E. rewrite IH. fold (keys m). tauto.
Qed.

Lemma occurrences_cons (k x : jsstring) (ks : list jsstring) :
  occurrences k (x :: ks)
  = (if str_eqb k x then 1 else 0) + occurrences k ks.
Proof.
  unfold occurrences. simpl. destruct (str_eqb k x); simpl List.length; lia.
Qed.

Lemma occurrences_pos (k : jsstring) (ks : list jsstring) :
  0 < occurrences k ks <-> In k ks.
Proof.
  induction ks as [|x ks IH]; [unfold occurrences; simpl; split; [lia|tauto]|].
  rewrite occurrences_cons. simpl. destruct (str_eqb k x) eqn:E.
  - apply str_eqb_eq in E. subst. unfold occurrences. split; [auto|lia].
  - apply str_eqb_neq in E. rewrite Z.add_0_l, IH.
    split; [auto|]. intros [E'|Hin]; [congruence|exact Hin].
Qed.

(** The map after counting the keys [ks] into [m], one [bump] each. *)
Lemma count_into (ks : list jsstring) :
  forall m : Map Z,
  NoDup (keys m) ->
  let m' := fold_left bump ks m in
  NoDup (keys m')
  /\ (forall k, or_0 (Map_get m' k) = or_0 (Map_get m k) + occurrences k ks)
  /\ (forall k, In k (keys m') <-> In k (keys m) \/ In k ks)
  /\ sum_values m' = sum_values m + Z.of_nat (List.length ks).
Proof.
  induction ks as [|x ks IH]; intros m Hm; cbn [fold_left].
  - repeat split; try assumption.
    + intros k. unfold occurrences. simpl. lia.
    + simpl. tauto.
    + simpl. tauto.
    + simpl. lia.
  - assert (Hb : NoDup (keys (bump m x))) by now apply NoDup_keys_set.
    destruct (IH (bump m x) Hb) as (H1 & H2 & H3 & H4).
    repeat split.
    + exact H1.
    + intros k. rewrite H2, occurrences_cons. unfold bump.
      destruct (str_eqb k x) eqn:E.
      * apply str_eqb_eq in E. subst k.
        rewrite Map_get_set_same, or_0_Some. lia.
      * apply str_eqb_neq in E. rewrite Map_get_set_other by exact E. lia.
    + rewrite H3. unfold bump. rewrite In_keys_set. simpl.
      intuition congruence.
    + rewrite H3. unfold bump. rewrite In_keys_set. simpl.
      intuition congruence.
    + rewrite H4. unfold bump. rewrite sum_values_set by assumption.
      change (List.length (x :: ks)) with (S (List.length ks)).
      rewrite Nat2Z.inj_succ. lia.
Qed.

End Counting.

(** ** Sorting *)

Section Sorting.

Context {A : Type} (cmp : A -> A -> Z) (R : A -> A -> Prop).

Hypothesis cmp_le : forall x y, cmp x y <= 0 -> R x y.
Hypothesis cmp_gt : forall x y, 0 < cmp x y -> R y x.
Hypothesis R_trans : forall x y z, R x y -> R y z -> R x z.

Lemma sort_insert_perm (x : A) (l : list A) :
  Permutation (sort_insert cmp x l) (x :: l).
Proof.
  induction l as [|y l IH]; simpl; [reflexivity|].
  destruct (cmp x y <=? 0); [reflexivity|].
  rewrite IH. apply perm_swap.
Qed.

Lemma sort_perm (l : list A) : Permutation (sort cmp l) l.
Proof.
  induction l as [|x l IH]; simpl; [reflexivity|].
  rewrite sort_insert_perm. now constructor.
Qed.

Lemma sort_insert_sorted (x : A) (l : list A) :
  StronglySorted R l -> StronglySorted R (sort_insert cmp x l).
Proof.
  induction 1 as [|y l Hl IH Hy]; simpl.
  - repeat constructor.
  - destruct (Z.leb_spec (cmp x y) 0) as [Hle|Hgt].
    + constructor; [now constructor|].
      constructor; [now apply cmp_le|].
      rewrite Forall_forall in *. intros z Hz.
      apply R_trans with y; [now apply cmp_le|now apply Hy].
    + constructor; [exact IH|].
      rewrite Forall_forall in *. intros z Hz.
      apply (Permutation_in _ (sort_insert_perm x l)) in Hz.
      destruct Hz as [<-|Hz]; [now apply cmp_gt|now apply Hy].
Qed.

Lemma sort_sorted (l : list A) : StronglySorted R (sort cmp l).
Proof.
  induction l as [|x l IH]; simpl; [constructor|].
  now apply sort_insert_sorted.
Qed.

End Sorting.

(** ** Device breakdown *)

Section DeviceBreakdown.

Import QRCodeModel Analytics.

Lemma startsWith_spec (s p : jsstring) :
  startsWith s p = true <-> exists suf, s = p ++ suf.
Proof.
  revert s. induction p as [|x p IH]; intros s; simpl.
  - split; [|reflexivity]. intros _. now exists s.
  - destruct s as [|c s].
    + split; [discriminate|]. intros (suf & E). discriminate.
    + rewrite andb_true_iff, N.eqb_eq, IH. split.
      * intros (-> & suf & ->). now exists suf.
      * intros (suf & [= -> ->]). split; [reflexivity|]. now exists suf.
Qed.

Lemma includes_spec (s p : jsstring) :
  includes s p = true <-> exists pre suf, s = pre ++ p ++ suf.
Proof.
  induction s as [|c s IH]; simpl.
  - rewrite orb_false_r, startsWith_spec. split.
    + intros (suf & E). now exists [], suf.
    + intros (pre & suf & E). destruct pre; [now exists suf|discriminate].
  - rewrite orb_true_iff, startsWith_spec, IH. split.
    + intros [(suf & E)|(pre & suf & E)].
      * now exists [], suf.
      * exists (c :: pre), suf. simpl. now rewrite E.
    + intros (pre & suf & E). destruct pre as [|c' pre].
      * left. now exists suf.
      * right. injection E as _ E. now exists pre, suf.
Qed.

Lemma includes_lower (ua keyword : jsstring) :
  includes (toLowerCase ua) keyword = true <-> contains_ci ua keyword.
Proof.
  rewrite includes_spec. unfold contains_ci, toLowerCase. split.
  - intros (pre & suf & E).
    apply map_eq_app in E as (a & bc & -> & Ha & E).
    apply map_eq_app in E as (b & c & -> & Hb & Hc).
    now exists a, b, c.
  - intros (pre & mid & suf & -> & Hm).
    exists (map lower_unit pre), (map lower_unit suf).
    now rewrite !map_app, Hm.
Qed.

(** The class of a user agent, in the priority order of the handler. *)
Lemma classify_spec (ua : jsstring) :
  (mobile_agent ua -> classify ua = JS.js "Mobile")
  /\ (~ mobile_agent ua -> tablet_agent ua -> classify ua = JS.js "Tablet")
  /\ (~ mobile_agent ua -> ~ tablet_agent ua -> bot_agent ua ->
      classify ua = JS.js "Bot")
  /\ (~ mobile_agent ua -> ~ tablet_agent ua -> ~ bot_agent ua ->
      classify ua = JS.js "Desktop").
Proof.
  unfold mobile_agent, tablet_agent, bot_agent, classify.
  rewrite <- !includes_lower.
  destruct (includes (toLowerCase ua) "mobile"),
           (includes (toLowerCase ua) "android"),
           (includes (toLowerCase ua) "iphone"),
           (includes (toLowerCase ua) "tablet"),
           (includes (toLowerCase ua) "ipad"),
           (includes (toLowerCase ua) "bot"),
           (includes (toLowerCase ua) "crawler"); simpl;
    repeat split; intros; try reflexivity; exfalso; intuition congruence.
Qed.

Lemma fold_device_keys (h : list ScanEvent) :
  forall m : Map Z,
  fold_left (fun m scan => match agent_of scan with
                           | Some ua => bump m (classify ua)
                           | None => m
                           end) h m
  = fold_left bump (device_keys h) m.
Proof.
  induction h as [|scan h IH]; intros m; simpl; [reflexivity|].
  rewrite IH. now destruct (agent_of scan).
Qed.

Lemma occurrences_device_keys (d : jsstring) (h : list ScanEvent) :
  occurrences d (device_keys h) = class_count d h.
Proof.
  unfold occurrences, class_count, device_keys.
  induction h as [|scan h IH]; simpl; [reflexivity|].
  unfold in_class at 1. destruct (agent_of scan) as [ua|]; simpl.
  - destruct (str_eqb d (classify ua)); simpl List.length; lia.
  - exact IH.
Qed.

Lemma device_keys_nonempty (d : jsstring) (h : list ScanEvent) :
  In d (device_keys h) -> 0 < Z.of_nat (List.length h).
Proof. destruct h; simpl; [tauto|lia]. Qed.

(** C3, as the code has it: [getDeviceStats] classes every scan that has
    a user agent by the first keyword group found in it, letters compared
    without case (mobile, android, iphone: Mobile; else tablet, ipad:
    Tablet; else bot, crawler: Bot; else Desktop); it returns one entry for
    each class that occurs, with the number of scans of the class; the
    percentage is [Math.round(count / total * 100)] where [total] is the
    length of the whole history, the scans without a user agent included;
    and the entries come in descending order of count. *)
Theorem device_breakdown (h : list ScanEvent) :
  let stats := getDeviceStats h in
  (forall ua,
     (mobile_agent ua -> classify ua = JS.js "Mobile")
     /\ (~ mobile_agent ua -> tablet_agent ua -> classify ua = JS.js "Tablet")
     /\ (~ mobile_agent ua -> ~ tablet_agent ua -> bot_agent ua ->
         classify ua = JS.js "Bot")
     /\ (~ mobile_agent ua -> ~ tablet_agent ua -> ~ bot_agent ua ->
         classify ua = JS.js "Desktop"))
  /\ NoDup (map device stats)
  /\ (forall d, In d (map device stats) <-> 0 < class_count d h)
  /\ (forall e, In e stats ->
        count e = class_count (device e) h
        /\ percentage e = percent (count e) (Z.of_nat (List.length h)))
  /\ StronglySorted (fun a b => count b <= count a) stats.
Proof.
  intros stats. split; [exact classify_spec|].
  subst stats. unfold getDeviceStats. rewrite fold_device_keys.
  set (m := fold_left bump (device_keys h) []).
  set (mk := fun e : jsstring * Z =>
               {| device := fst e; count := snd e;
                  percentage :=
                    if 0 <? Z.of_nat (List.length h)
                    then percent (snd e) (Z.of_nat (List.length h))
                    else of_Z 0 |}).
  set (cmp := fun a b : DeviceStat => count b - count a).
  destruct (count_into (device_keys h) [] (NoDup_nil _))
    as (Hnd & Hget & Hkeys & _).
  fold m in Hnd, Hget, Hkeys.
  assert (Hdev : map device (map mk m) = keys m).
  { rewrite map_map. reflexivity. }
  assert (Hperm : Permutation (sort cmp (map mk m)) (map mk m))
    by apply sort_perm.
  assert (Hin : forall d, In d (keys m) <-> 0 < class_count d h).
  { intros d. rewrite Hkeys, <- occurrences_device_keys, occurrences_pos.
    simpl. tauto. }
  repeat split.
  - apply (Permutation_NoDup (l := keys m)); [|exact Hnd].
    rewrite <- Hdev. symmetry. now apply Permutation_map.
  - intros Hd. apply Hin. rewrite <- Hdev.
    apply (Permutation_in _ (Permutation_map device Hperm)). exact Hd.
  - intros Hd. apply Hin in Hd. rewrite <- Hdev in Hd.
    apply (Permutation_in _ (Permutation_sym (Permutation_map device Hperm))).
    exact Hd.
  - rename H into He. apply (Permutation_in _ Hperm) in He.
    apply in_map_iff in He as ([k v] & <- & Hkv). simpl.
    apply Map_get_In in Hkv; [|exact Hnd].
    specialize (Hget k). rewrite Hkv, or_0_Some in Hget. simpl in Hget.
    now rewrite Hget, occurrences_device_keys.
  - rename H into He. apply (Permutation_in _ Hperm) in He.
    apply in_map_iff in He as ([k v] & <- & Hkv). simpl.
    assert (Hk : In k (keys m)) by (apply (in_map fst) in Hkv; exact Hkv).
    apply Hkeys in Hk as [[]|Hk]. apply device_keys_nonempty in Hk.
    apply Z.ltb_lt in Hk. now rewrite Hk.
  - apply sort_sorted; unfold cmp; intros; lia.
Qed.

(** The percentage is computed in double arithmetic: 23 scans of 40 make
    57.49999999999999 per cent, which rounds to 57. *)
Example percent_23_of_40 : percent 23 40 = of_Z 57.
Proof. vm_compute. reflexivity. Qed.

(** One scan from an iPhone and one without a user agent: the code answers
    Mobile, 1 scan, 50 per cent, where a denominator without the silent
    scan gives 100. *)
Lemma device_percentage_counts_silent_scans :
  getDeviceStats sample_history
  = [{| device := "Mobile"; count := 1; percentage := of_Z 50 |}]
  /\ total_classified sample_history = 1
  /\ percent 1 (total_classified sample_history) = of_Z 100
  /\ of_Z 50 <> of_Z 100.
Proof. repeat split; vm_compute; [reflexivity..|discriminate]. Qed.

End DeviceBreakdown.

(** ** Resolution of inactive and unknown identifiers *)

Section NotFound.

Context `{Runtime}.

Lemma findOne_active_none (qs : list QRCodeModel.doc) (sid : jsstring) :
  (forall q, In q qs -> QRCodeModel.shortId q = sid ->
             QRCodeModel.isActive q = false) ->
  Server.findOne_active qs sid = None.
Proof.
  intros Hq. unfold Server.findOne_active.
  induction qs as [|y qs IH]; simpl; [reflexivity|].
  destruct (str_eqb (QRCodeModel.shortId y) sid) eqn:E; simpl.
  - apply str_eqb_eq in E. rewrite (Hq y (or_introl eq_refl) E).
    apply IH. intros q Hin. apply Hq. now right.
  - apply IH. intros q Hin. apply Hq. now right.
Qed.

Lemma Forall_Map_set {V} (P : V -> Prop) (m : Map V) (k : jsstring) (v : V) :
  Forall (fun e => P (snd e)) m -> P v ->
  Forall (fun e => P (snd e)) (Map_set m k v).
Proof.
  intros Hm Hv. induction Hm as [|[k' v'] m Hy Hm IH]; simpl.
  - now repeat constructor.
  - destruct (str_eqb k' k); constructor; assumption.
Qed.

Lemma Forall_Map_get {V} (P : V -> Prop) (m : Map V) (k : jsstring) (v : V) :
  Forall (fun e => P (snd e)) m -> Map_get m k = Some v -> P v.
Proof.
  intros Hm. induction Hm as [|[k' v'] m Hy Hm IH]; simpl; [discriminate|].
  destruct (str_eqb k' k); [|exact IH]. now intros [= <-].
Qed.

Lemma prototype_keeps_links_active (st : Prototype.State)
  (req : Prototype.Request) :
  all_active st -> all_active (fst (Prototype.handle st req)).
Proof.
  intros Hst. destruct req as [r|sid now]; simpl.
  - unfold Prototype.generate.
    destruct (negb (truthy _)); [exact Hst|].
    destruct (negb (Prototype.validateUrl _)); [exact Hst|].
    match goal with
    | |- context [match ?c with Some denied => _ | None => _ end] =>
        destruct c
    end; [exact Hst|].
    destruct (QRCode_toDataURL _ _ _ _ _ _); [|exact Hst].
    unfold all_active; simpl.
    now apply (Forall_Map_set (fun qr => Prototype.isActive qr = true)).
  - unfold Prototype.redirect.
    destruct (Map_get (Prototype.qrCodes st) sid) as [qr|] eqn:Hg;
      [|exact Hst].
    unfold all_active; simpl.
    apply (Forall_Map_set (fun qr => Prototype.isActive qr = true));
      [exact Hst|]. simpl.
    exact (Forall_Map_get (fun qr => Prototype.isActive qr = true) _ _ _
             Hst Hg).
Qed.

(** C5: on the redirect path an identifier under which only inactive
    links, or no link at all, are stored is answered 404 Not Found, never
    with a destination, and the store, with the analytics of every link,
    is left as it was.  In the in-memory prototype, whose lookup is by key
    alone, an unknown identifier is answered the same way and no stored
    link is ever inactive. *)
Theorem inactive_or_unknown_is_not_found :
  (forall (db : Server.DB) (r : Server.RedirectRequest),
     (forall q, In q (Server.qrcodes db) ->
                QRCodeModel.shortId q = Server.r_shortId r ->
                QRCodeModel.isActive q = false) ->
     Server.redirect db r = (db, Server.Html 404 Server.not_found_page))
  /\ (forall (st : Prototype.State) (sid : jsstring) (now : Date),
        Map_get (Prototype.qrCodes st) sid = None ->
        Prototype.redirect st sid now
        = (st, Prototype.Page 404 Server.not_found_page))
  /\ all_active {| Prototype.qrCodes := []; Prototype.users := [] |}
  /\ (forall (st : Prototype.State) (req : Prototype.Request),
        all_active st -> all_active (fst (Prototype.handle st req))).
Proof.
  repeat split.
  - intros db r Hq. unfold Server.redirect.
    now rewrite (findOne_active_none _ _ Hq).
  - intros st sid now Hg. unfold Prototype.redirect. now rewrite Hg.
  - constructor.
  - apply prototype_keeps_links_active.
Qed.

End NotFound.

(** A scan of the sample link after it was deactivated, and a scan of an
    identifier that was never issued. *)
Lemma inactive_or_unknown_is_not_found_witness :
  let db := {| Server.qrcodes := [QRCodeModel.set_isActive sample_link false];
               Server.users := [] |} in
  Server.redirect db (sample_scan 1706702400000 None)
  = (db, Server.Html 404 Server.not_found_page)
  /\ Server.redirect {| Server.qrcodes := []; Server.users := [] |}
       (sample_scan 1706702400000 None)
     = ({| Server.qrcodes := []; Server.users := [] |},
        Server.Html 404 Server.not_found_page).
Proof.
  intros db. split.
  - apply (proj1 (@inactive_or_unknown_is_not_found sample_runtime)).
    intros q [<-|[]] _. reflexivity.
  - apply (proj1 (@inactive_or_unknown_is_not_found sample_runtime)).
    intros q [].
Defined.

(** ** The daily series *)

(** C4, at the input where the code departs from it: at noon of
    2024-01-31 (UTC) a history with one scan made at 13:00 of 2024-01-01.
    The scan lies in the 30-day window, which starts at noon of
    2024-01-01, but the buckets laid out are those of 2024-01-02 to
    2024-01-31; the function returns 31 buckets, the first the day of the
    scan. *)
Theorem daily_series_of_day_thirty :
  let now := 1706702400000 in
  let scan := {| QRCodeModel.timestamp := now - 30 * msPerDay + 3600000;
                 QRCodeModel.userAgent := None;
                 QRCodeModel.ipAddress := None;
                 QRCodeModel.location := None |} in
  (minus_days now 30 <=? QRCodeModel.timestamp scan) = true
  /\ toISODate now = JS.js "2024-01-31"
  /\ List.length (Analytics.getDailyScans now []) = 30%nat
  /\ List.length (Analytics.getDailyScans now [scan]) = 31%nat
  /\ hd_error (Analytics.getDailyScans now [scan])
     = Some {| Analytics.date := "2024-01-01"; Analytics.scans := 1 |}
  /\ nth_error (Analytics.getDailyScans now [scan]) 1
     = Some {| Analytics.date := "2024-01-02"; Analytics.scans := 0 |}.
Proof. repeat split; vm_compute; reflexivity. Qed.

(** What holds of the daily series at every input: the counts of its
    buckets add up to the number of scans in the window. *)
Section DailySeries.

Import QRCodeModel Analytics.

Lemma fold_left_keys {X} (key : X -> jsstring) (l : list X) :
  forall m : Map Z,
  fold_left (fun m x => bump m (key x)) l m = fold_left bump (map key l) m.
Proof. induction l as [|x l IH]; intros m; simpl; [reflexivity|apply IH]. Qed.

Lemma zero_buckets {X} (key : X -> jsstring) (l : list X) :
  forall m : Map Z,
  NoDup (keys m) -> Forall (fun e => snd e = 0) m ->
  let m' := fold_left (fun m x => Map_set m (key x) 0) l m in
  NoDup (keys m') /\ Forall (fun e => snd e = 0) m'.
Proof.
  induction l as [|x l IH]; intros m Hm Hz; simpl; [now split|].
  apply IH.
  - now apply NoDup_keys_set.
  - now apply (Forall_Map_set (fun v => v = 0)).
Qed.

Lemma sum_values_zero (m : Map Z) :
  Forall (fun e => snd e = 0) m -> sum_values m = 0.
Proof.
  unfold sum_values. induction 1 as [|[k v] m Hv _ IH]; simpl in *; lia.
Qed.

Lemma sum_permutation (l l' : list Z) :
  Permutation l l' -> fold_right Z.add 0 l = fold_right Z.add 0 l'.
Proof. induction 1; simpl; lia. Qed.

Lemma daily_series_sum (now : Date) (scanHistory : list ScanEvent) :
  fold_right Z.add 0 (map scans (getDailyScans now scanHistory))
  = Z.of_nat
      (List.length
         (filter (fun scan => minus_days now 30 <=? timestamp scan)
            scanHistory)).
Proof.
  unfold getDailyScans.
  set (days := map Z.of_nat (seq 0 30)).
  set (window := filter _ scanHistory).
  destruct (zero_buckets (fun i => toISODate (minus_days now i)) days []
              (NoDup_nil _) (Forall_nil _)) as [Hnd Hz].
  set (m0 := fold_left
               (fun (m : Map Z) (i : Z) =>
                  Map_set m (toISODate (minus_days now i)) 0) days []) in *.
  rewrite fold_left_keys.
  destruct (count_into (map (fun scan => toISODate (timestamp scan)) window)
              m0 Hnd) as (_ & _ & _ & Hsum).
  rewrite (sum_permutation _ _
             (Permutation_map scans (sort_perm _ _))).
  rewrite map_map.
  rewrite (map_ext (fun e : jsstring * Z =>
                      scans {| date := fst e; scans := snd e |}) snd)
    by reflexivity.
  pose proof (sum_values_zero m0 Hz) as H0.
  unfold sum_values in Hsum, H0.
  rewrite Hsum, H0, length_map. reflexivity.
Qed.

Lemma localeCompare_antisym (a : jsstring) :
  forall b, localeCompare b a = - localeCompare a b.
Proof.
  induction a as [|x a IH]; intros [|y b]; simpl; try reflexivity.
  rewrite (N.compare_antisym x y).
  destruct (x ?= y)%N; simpl; [apply IH|reflexivity..].
Qed.

Lemma localeCompare_trans (a : jsstring) :
  forall b c,
  localeCompare a b <= 0 -> localeCompare b c <= 0 -> localeCompare a c <= 0.
Proof.
  induction a as [|x a IH]; intros [|y b] [|z c]; simpl; try lia.
  destruct (N.compare_spec x y) as [Exy|Hxy|Hxy];
    destruct (N.compare_spec y z) as [Eyz|Hyz|Hyz];
    intros H1 H2; try lia.
  - subst. rewrite N.compare_refl. now apply IH with b.
  - assert (Hxz : (x ?= z)%N = Lt) by (apply N.compare_lt_iff; lia).
    rewrite Hxz. lia.
  - assert (Hxz : (x ?= z)%N = Lt) by (apply N.compare_lt_iff; lia).
    rewrite Hxz. lia.
  - assert (Hxz : (x ?= z)%N = Lt) by (apply N.compare_lt_iff; lia).
    rewrite Hxz. lia.
Qed.

(** The buckets come in ascending order of date. *)
Lemma daily_series_sorted (now : Date) (scanHistory : list ScanEvent) :
  StronglySorted (fun a b => localeCompare (date a) (date b) <= 0)
    (getDailyScans now scanHistory).
Proof.
  unfold getDailyScans. apply sort_sorted.
  - auto.
  - intros x y Hxy. rewrite localeCompare_antisym. lia.
  - intros x y z. apply localeCompare_trans.
Qed.

End DailySeries.

(** The device breakdown of the sample history: the class of the one scan
    that has a user agent. *)
Lemma device_breakdown_witness :
  mobile_agent "iPhone"
  /\ Analytics.classify "iPhone" = JS.js "Mobile"
  /\ forall e, In e (Analytics.getDeviceStats sample_history) ->
       Analytics.percentage e = Analytics.percent (Analytics.count e) 2.
Proof.
  assert (Hm : mobile_agent "iPhone").
  { right. right. exists [], (JS.js "iPhone"), []. split; reflexivity. }
  destruct (device_breakdown sample_history) as (Hc & _ & _ & He & _).
  split; [exact Hm|]. split; [exact (proj1 (Hc (JS.js "iPhone")) Hm)|].
  intros e Hin. exact (proj2 (He e Hin)).
Defined.

(** A URL that has its scheme, in capitals and between spaces, and the
    bare domain of the specification. *)
Lemma sanitize_then_validate_witness :
  has_http_scheme (trim " HTTP://Example.com ")
  /\ Utils.sanitizeUrl " HTTP://Example.com " = JS.js "HTTP://Example.com"
  /\ @Utils.validateUrl sample_runtime (Utils.sanitizeUrl "example.com")
     = true.
Proof.
  assert (Hs : has_http_scheme (trim " HTTP://Example.com ")).
  { left. exists (JS.js "HTTP://"), (JS.js "Example.com").
    split; reflexivity. }
  split; [exact Hs|]. split.
  - exact (proj1 (proj2 (@sanitize_then_validate sample_runtime
                           " HTTP://Example.com ")) Hs).
  - apply (proj1 (proj2 (proj2 (proj2 (proj2
             (@sanitize_then_validate sample_runtime "example.com")))))).
    eexists. split; [reflexivity|]. right. reflexivity.
Defined.

(** * Further properties of the handlers *)

(** ** What each handler does to the store *)

Section Effects.

Import QRCodeModel Server.

Context `{Runtime}.

Lemma insert_Some (qs qs' : list doc) (q : doc) :
  insert qs q = Some qs' ->
  qs' = qs ++ [q] /\ validate q = true
  /\ forall d, In d qs -> _id d <> _id q /\ shortId d <> shortId q.
Proof.
  unfold insert.
  destruct (validate q); simpl; [|discriminate].
  destruct (existsb _ qs) eqn:E; simpl; [discriminate|].
  intros [= <-]. repeat split.
  - intros Hid. assert (Hx : existsb
        (fun d0 => str_eqb (_id d0) (_id q) || str_eqb (shortId d0) (shortId q))
        qs = true).
    { apply existsb_exists. exists d. split; [assumption|].
      rewrite Hid, str_eqb_refl. reflexivity. }
    congruence.
  - intros Hid. assert (Hx : existsb
        (fun d0 => str_eqb (_id d0) (_id q) || str_eqb (shortId d0) (shortId q))
        qs = true).
    { apply existsb_exists. exists d. split; [assumption|].
      rewrite Hid, str_eqb_refl. apply orb_true_r. }
    congruence.
Qed.

(** A creation leaves the store alone and answers an error, or appends one
    validated link and answers 200. *)
Lemma generate_effect (db : DB) (r : GenerateRequest) :
  let currentUser := getUserFromToken db (g_session r) in
  (fst (generate db r) = db /\ status_of (snd (generate db r)) <> 200)
  \/ exists q,
       sanitizeUrl (default (g_url r) []) = Some (url q)
       /\ plan_limit_check db currentUser = None
       /\ insert (qrcodes db) q = Some (qrcodes db ++ [q])
       /\ _id q = g_id r /\ shortId q = g_shortId r
       /\ userId q = option_map User._id currentUser
       /\ isActive q = true
       /\ analytics q
          = {| totalScans := 0; lastScanned := None; scanHistory := [] |}
       /\ generate db r =
          ({| qrcodes := qrcodes db ++ [q];
              users :=
                match currentUser with
                | Some u =>
                    User_save (users db)
                      {| User.this :=
                           User.set_qrCodesCreated u
                             (User.qrCodesCreated (User.usage u) + 1);
                         User.isModified_plan := false |}
                | None => users db
                end |},
           Json 200
             (CreatedBody (g_id r) (qrCodeData q)
                (BASE_URL ++ JS.js "/r/" ++ g_shortId r) (g_shortId r)
                (url q) (title q) (description q) (g_now r))).
Proof.
  intros currentUser. unfold generate. fold currentUser.
  destruct (negb (truthy (default (g_url r) []))); [left; split; [reflexivity|discriminate]|].
  destruct (sanitizeUrl (default (g_url r) [])) as [sanitizedUrl|];
    [|left; split; [reflexivity|discriminate]].
  destruct (negb (validateUrl sanitizedUrl));
    [left; split; [reflexivity|discriminate]|].
  destruct (plan_limit_check db currentUser) as [denied|] eqn:Hlim.
  { left. split; [reflexivity|]. simpl.
    apply plan_limit_check_403 in Hlim as [b ->]. discriminate. }
  destruct (QRCode_toDataURL _ _ _ _ _ _) as [dataURL|];
    [|left; split; [reflexivity|discriminate]].
  match goal with
  | |- context [insert (qrcodes db) ?q0] =>
      destruct (insert (qrcodes db) q0) as [qs|] eqn:Hins;
      [|left; split; [reflexivity|discriminate]];
      right; exists q0
  end.
  destruct (insert_Some _ _ _ Hins) as (-> & _ & _).
  repeat split; try reflexivity. exact Hins.
Qed.

(** An update leaves the store alone, or writes back the caller's link with
    the title, the description and the activity flag of the request. *)
Lemma update_effect (db : DB) (r : UpdateRequest) :
  (fst (update db r) = db /\ status_of (snd (update db r)) <> 200)
  \/ exists user q q',
       getUserFromToken db (u_session r) = Some user
       /\ findOne_owned (qrcodes db) (u_qrId r) (User._id user) = Some q
       /\ _id q' = _id q /\ shortId q' = shortId q /\ url q' = url q
       /\ userId q' = userId q /\ analytics q' = analytics q
       /\ qrCodeData q' = qrCodeData q
       /\ customization q' = customization q
       /\ title q' = default (u_title r) (title q)
       /\ description q' = default (u_description r) (description q)
       /\ isActive q' = default (u_isActive r) (isActive q)
       /\ valid_title (title q') = true
       /\ valid_description (description q') = true
       /\ update db r =
          ({| qrcodes := save (qrcodes db) q'; users := users db |},
           Json 200
             (UpdatedBody (_id q') (title q') (description q') (isActive q')
                "QR code updated successfully")).
Proof.
  unfold update.
  destruct (getUserFromToken db (u_session r)) as [user|] eqn:Hu;
    [|left; split; [reflexivity|discriminate]].
  destruct (negb (casts _ _)); [left; split; [reflexivity|discriminate]|].
  destruct (findOne_owned _ _ _) as [q|] eqn:Hq;
    [|left; split; [reflexivity|discriminate]].
  match goal with
  | |- context [valid_title (title ?q0)] => set (q' := q0)
  end.
  destruct (valid_title (title q') && valid_description (description q'))
    eqn:Hv; [|left; split; [reflexivity|discriminate]].
  apply andb_true_iff in Hv as [Hv1 Hv2].
  right. exists user, q, q'.
  split; [reflexivity|]. split; [exact Hq|].
  subst q'.
  destruct (u_title r), (u_description r), (u_isActive r);
    repeat split; assumption.
Qed.

(** A delete leaves the store alone, or removes the caller's link and, when
    the caller's counter is positive, lowers it by one. *)
Lemma delete_effect (db : DB) (r : DeleteRequest) :
  (fst (delete db r) = db /\ status_of (snd (delete db r)) <> 200)
  \/ exists user q,
       getUserFromToken db (d_session r) = Some user
       /\ findOne_owned (qrcodes db) (d_qrId r) (User._id user) = Some q
       /\ delete db r =
          ({| qrcodes := findByIdAndDelete (qrcodes db) (d_qrId r);
              users :=
                if User.qrCodesCreated (User.usage user) >? 0 then
                  User_save (users db)
                    {| User.this :=
                         User.set_qrCodesCreated user
                           (User.qrCodesCreated (User.usage user) - 1);
                       User.isModified_plan := false |}
                else users db |},
           Json 200 (MessageBody "QR code deleted successfully")).
Proof.
  unfold delete.
  destruct (getUserFromToken db (d_session r)) as [user|] eqn:Hu;
    [|left; split; [reflexivity|discriminate]].
  destruct (negb (casts _ _)); [left; split; [reflexivity|discriminate]|].
  destruct (findOne_owned _ _ _) as [q|] eqn:Hq;
    [|left; split; [reflexivity|discriminate]].
  right. exists user, q. repeat split. exact Hq.
Qed.

(** A scan leaves the store alone, or writes back the resolved link with
    its analytics updated. *)
Lemma redirect_effect (db : DB) (r : RedirectRequest) :
  (fst (redirect db r) = db /\ status_of (snd (redirect db r)) <> 302)
  \/ exists q,
       findOne_active (qrcodes db) (r_shortId r) = Some q
       /\ redirect db r =
          ({| qrcodes :=
                save (qrcodes db) (set_analytics q (track (analytics q) r));
              users := users db |},
           Found 302 (url q)).
Proof.
  unfold redirect.
  destruct (findOne_active _ _) as [q|] eqn:Hq;
    [|left; split; [reflexivity|discriminate]].
  right. exists q. split; reflexivity.
Qed.

(** A property of the store kept by every handler is kept by every run. *)
Lemma run_invariant (P : DB -> Prop) :
  (forall db req, P db -> P (fst (handle db req))) ->
  forall reqs db, P db -> P (fst (run db reqs)).
Proof.
  intros Hstep. induction reqs as [|req reqs IH]; intros db Hdb;
    [exact Hdb|].
  simpl. pose proof (Hstep db req Hdb) as H1.
  destruct (handle db req) as [db1 resp]. simpl in H1.
  specialize (IH db1 H1). destruct (run db1 reqs) as [db2 resps]. exact IH.
Qed.

End Effects.

(** ** Invariants of the store under every run *)

Section StoreInvariants.

Import QRCodeModel Server.

Context `{Runtime}.

Lemma Forall_remove_first {A} (P : A -> Prop) (p : A -> bool) (l : list A) :
  Forall P l -> Forall P (remove_first p l).
Proof.
  induction 1 as [|y l Hy Hl IH]; simpl; [constructor|].
  destruct (p y); [exact Hl|now constructor].
Qed.

Lemma In_replace_first {A} (p : A -> bool) (x z : A) (l : list A) :
  In z (replace_first p x l) -> z = x \/ In z l.
Proof.
  induction l as [|y l IH]; simpl; [tauto|].
  destruct (p y); simpl; intuition.
Qed.

Lemma In_remove_first {A} (p : A -> bool) (z : A) (l : list A) :
  In z (remove_first p l) -> In z l.
Proof.
  induction l as [|y l IH]; simpl; [tauto|].
  destruct (p y); simpl; intuition.
Qed.

Lemma map_replace_first {A B} (f : A -> B) (p : A -> bool) (x : A)
  (l : list A) :
  (forall y, In y l -> p y = true -> f y = f x) ->
  map f (replace_first p x l) = map f l.
Proof.
  induction l as [|y l IH]; intros Hp; simpl; [reflexivity|].
  destruct (p y) eqn:E; simpl.
  - f_equal. symmetry. apply Hp; [now left|exact E].
  - f_equal. apply IH. intros z Hz. apply Hp. now right.
Qed.

Lemma NoDup_map_inj {A B} (f : A -> B) (l : list A) (x y : A) :
  NoDup (map f l) -> In x l -> In y l -> f x = f y -> x = y.
Proof.
  induction l as [|z l IH]; simpl; [tauto|].
  intros Hnd Hx Hy E. inversion Hnd as [|? ? Hz Hnd']; subst.
  destruct Hx as [->|Hx], Hy as [->|Hy]; try reflexivity.
  - exfalso. apply Hz. rewrite E. now apply in_map.
  - exfalso. apply Hz. rewrite <- E. now apply in_map.
  - now apply IH.
Qed.

Lemma NoDup_map_remove_first {A B} (f : A -> B) (p : A -> bool)
  (l : list A) :
  NoDup (map f l) -> NoDup (map f (remove_first p l)).
Proof.
  induction l as [|y l IH]; simpl; [auto|].
  intros Hnd. inversion Hnd as [|? ? Hy Hnd']; subst.
  destruct (p y); simpl; [exact Hnd'|].
  constructor; [|now apply IH].
  intros Hin. apply Hy. apply in_map_iff in Hin as (z & <- & Hz).
  apply in_map. now apply In_remove_first in Hz.
Qed.

(** With distinct ids, [save] touches only the document it was read
    from: a field on which the two agree is the same all over the list. *)
Lemma map_save {B} (f : doc -> B) (qs : list doc) (q q' : doc) :
  NoDup (map _id qs) -> In q qs -> _id q' = _id q -> f q' = f q ->
  map f (save qs q') = map f qs.
Proof.
  intros Hnd Hq Hid Hf. unfold save. apply map_replace_first.
  intros y Hy E. apply str_eqb_eq in E. rewrite Hf. f_equal.
  apply (NoDup_map_inj _id qs); congruence.
Qed.

Lemma findOne_owned_holds (qs : list doc) (qrId uid : ObjectId) (q : doc) :
  findOne_owned qs qrId uid = Some q ->
  In q qs /\ _id q = qrId /\ userId q = Some uid.
Proof.
  intros Hf. apply find_some in Hf as [Hin Hp].
  apply andb_true_iff in Hp as [H1 H2].
  apply str_eqb_eq in H1. apply opt_eqb_eq in H2. auto.
Qed.

Lemma findOne_active_In (qs : list doc) (sid : jsstring) (q : doc) :
  findOne_active qs sid = Some q -> In q qs.
Proof. intros Hf. now apply find_some in Hf. Qed.

Lemma track_bounded (a : Analytics) (r : RedirectRequest) :
  (List.length (scanHistory (track a r)) <= 1000)%nat.
Proof. rewrite track_history, slice_last_length. lia. Qed.

Lemma handle_history_bounded (db : DB) (req : Request) :
  history_bounded db -> history_bounded (fst (handle db req)).
Proof.
  unfold history_bounded. intros Hdb. destruct req as [r|r|r|r]; simpl.
  - destruct (generate_effect db r) as [[-> _]|(q & _ & _ & _ & _ & _ & _ & _ & Ha & ->)];
      [exact Hdb|].
    simpl. apply Forall_app. split; [exact Hdb|].
    constructor; [|constructor]. rewrite Ha. simpl. lia.
  - destruct (update_effect db r)
      as [[-> _]|(user & q & q' & _ & Hq & _ & _ & _ & _ & Ha & _ & _ & _ & _ & _ & _ & _ & ->)];
      [exact Hdb|].
    simpl. apply Forall_replace_first; [exact Hdb|].
    rewrite Ha. apply findOne_owned_holds in Hq as [Hin _].
    rewrite Forall_forall in Hdb. now apply Hdb.
  - destruct (delete_effect db r) as [[-> _]|(user & q & _ & _ & ->)];
      [exact Hdb|].
    simpl. now apply Forall_remove_first.
  - destruct (redirect_effect db r) as [[-> _]|(q & _ & ->)]; [exact Hdb|].
    simpl. apply Forall_replace_first; [exact Hdb|].
    simpl. apply track_bounded.
Qed.

Lemma handle_unique_ids (db : DB) (req : Request) :
  unique_ids db -> unique_ids (fst (handle db req)).
Proof.
  unfold unique_ids. intros [Hid Hsid]. destruct req as [r|r|r|r]; simpl.
  - destruct (generate_effect db r)
      as [[-> _]|(q & _ & _ & Hins & _ & _ & _ & _ & _ & ->)]; [now split|].
    apply insert_Some in Hins as (_ & _ & Hfresh). simpl.
    rewrite !map_app. simpl. split.
    + apply NoDup_app; [exact Hid|repeat constructor; intros []|].
      intros x Hx [<-|[]]. apply in_map_iff in Hx as (d & E & Hd).
      now apply (proj1 (Hfresh d Hd)).
    + apply NoDup_app; [exact Hsid|repeat constructor; intros []|].
      intros x Hx [<-|[]]. apply in_map_iff in Hx as (d & E & Hd).
      now apply (proj2 (Hfresh d Hd)).
  - destruct (update_effect db r)
      as [[-> _]|(user & q & q' & _ & Hq & E1 & E2 & _ & _ & _ & _ & _ & _ & _ & _ & _ & _ & ->)];
      [now split|].
    apply findOne_owned_holds in Hq as [Hin _]. simpl.
    now rewrite !(map_save _ _ q q') by assumption.
  - destruct (delete_effect db r) as [[-> _]|(user & q & _ & _ & ->)];
      [now split|].
    simpl. split; now apply NoDup_map_remove_first.
  - destruct (redirect_effect db r) as [[-> _]|(q & Hq & ->)]; [now split|].
    apply findOne_active_In in Hq. simpl.
    now rewrite !(map_save _ _ q _) by (assumption || reflexivity).
Qed.

Lemma handle_schema_valid (db : DB) (req : Request) :
  schema_valid db -> schema_valid (fst (handle db req)).
Proof.
  unfold schema_valid. intros Hdb. destruct req as [r|r|r|r]; simpl.
  - destruct (generate_effect db r)
      as [[-> _]|(q & _ & _ & Hins & _ & _ & _ & _ & _ & ->)]; [exact Hdb|].
    apply insert_Some in Hins as (_ & Hv & _). simpl.
    apply Forall_app. split; [exact Hdb|now repeat constructor].
  - destruct (update_effect db r)
      as [[-> _]|(user & q & q' & _ & Hq & _ & E2 & E3 & _ & _ & E4 & E5 & _ & _ & _ & Hv1 & Hv2 & ->)];
      [exact Hdb|].
    simpl. apply Forall_replace_first; [exact Hdb|].
    apply findOne_owned_holds in Hq as [Hin _].
    rewrite Forall_forall in Hdb. specialize (Hdb q Hin).
    unfold validate in *. rewrite E2, E3, E4, E5, Hv1, Hv2.
    apply andb_true_iff in Hdb as [Hdb Hc].
    apply andb_true_iff in Hdb as [Hdb _].
    apply andb_true_iff in Hdb as [Hdb _].
    now rewrite Hdb, Hc.
  - destruct (delete_effect db r) as [[-> _]|(user & q & _ & _ & ->)];
      [exact Hdb|].
    simpl. now apply Forall_remove_first.
  - destruct (redirect_effect db r) as [[-> _]|(q & Hq & ->)]; [exact Hdb|].
    simpl. apply Forall_replace_first; [exact Hdb|].
    apply findOne_active_In in Hq.
    rewrite Forall_forall in Hdb. exact (Hdb q Hq).
Qed.

End StoreInvariants.

Section StoreInvariantTheorems.

Import QRCodeModel Server.

Context `{Runtime}.

Lemma re_match_weaken (its1 its2 : list re_item) :
  forall s, re_match false (its1 ++ its2) s = true ->
            re_match false its1 s = true.
Proof.
  induction its1 as [|it its1 IH]; intros s; simpl; [reflexivity|].
  rewrite !orb_true_iff, !andb_true_iff. intros [Hm|[Ho Hm]].
  - left. destruct s as [|c s]; [discriminate|].
    apply andb_true_iff in Hm as [Hc Hm]. rewrite Hc. simpl. now apply IH.
  - right. split; [exact Ho|now apply IH].
Qed.

Lemma re_match_startsWith (items : list re_item) (l : jsstring) :
  Forall2 (fun i x => re_optional i = false
                      /\ forall u, re_class i u = (u =? x)%N) items l ->
  forall s, re_match false items s = startsWith s l.
Proof.
  induction 1 as [|i x items l [Hi Hc] _ IH]; intros s; simpl;
    [reflexivity|].
  rewrite Hi. simpl. rewrite orb_false_r.
  destruct s as [|c s]; [reflexivity|]. now rewrite Hc, IH.
Qed.

(** What the URL validator of the schema accepts starts with the scheme in
    lower case. *)
Lemma re_url_scheme (s : jsstring) :
  re_match false re_url s = true ->
  startsWith s "http://" = true \/ startsWith s "https://" = true.
Proof.
  change re_url
    with (([lit "h"; lit "t"; lit "t"; lit "p"]%char
           ++ opt (lit "s"%char) :: [lit ":"; lit "/"; lit "/"]%char)
          ++ [dot]).
  intros Hm. apply re_match_weaken in Hm.
  rewrite re_match_optional in Hm by (repeat constructor).
  rewrite (re_match_startsWith _ (JS.js "https://")),
          (re_match_startsWith _ (JS.js "http://")) in Hm
    by (repeat constructor).
  apply orb_true_iff in Hm. tauto.
Qed.

(** X1: under every sequence of requests no stored scan history grows
    beyond 1000 entries. *)
Theorem scan_history_stays_bounded (db : DB) (reqs : list Request) :
  history_bounded db -> history_bounded (fst (run db reqs)).
Proof. apply run_invariant. exact handle_history_bounded. Qed.

(** X2: under every sequence of requests the stored links keep pairwise
    distinct ids and pairwise distinct short identifiers: a creation whose
    identifier is taken is refused by the unique index. *)
Theorem identifiers_stay_unique (db : DB) (reqs : list Request) :
  unique_ids db -> unique_ids (fst (run db reqs)).
Proof. apply run_invariant. exact handle_unique_ids. Qed.

(** X3: under every sequence of requests every stored link passes the
    schema validators; so its destination starts with [http://] or
    [https://] in lower case, its title has at most 100 code units, its
    description at most 500, and its size lies between 128 and 1024. *)
Theorem stored_links_stay_valid (db : DB) (reqs : list Request) :
  schema_valid db ->
  forall q, In q (qrcodes (fst (run db reqs))) ->
    validate q = true
    /\ (startsWith (url q) "http://" = true
        \/ startsWith (url q) "https://" = true)
    /\ (List.length (title q) <= 100)%nat
    /\ (List.length (description q) <= 500)%nat
    /\ 128 <= size (customization q) <= 1024.
Proof.
  intros Hdb q Hq.
  pose proof (run_invariant schema_valid handle_schema_valid reqs db Hdb)
    as Hrun.
  unfold schema_valid in Hrun. rewrite Forall_forall in Hrun.
  specialize (Hrun q Hq). split; [exact Hrun|].
  unfold validate, valid_customization, valid_title, valid_description
    in Hrun.
  repeat match goal with
         | H : _ && _ = true |- _ => apply andb_true_iff in H as [? ?]
         end.
  split; [now apply re_url_scheme|].
  split; [now apply Nat.leb_le|]. split; [now apply Nat.leb_le|]. lia.
Qed.

End StoreInvariantTheorems.

Lemma scan_history_stays_bounded_witness :
  history_bounded sample_db
  /\ history_bounded (fst (@Server.run sample_runtime sample_db sample_requests)).
Proof.
  assert (Hdb : history_bounded sample_db).
  { constructor; [simpl; lia|constructor]. }
  split; [exact Hdb|].
  exact (@scan_history_stays_bounded sample_runtime _ _ Hdb).
Defined.

Lemma identifiers_stay_unique_witness :
  unique_ids sample_db
  /\ unique_ids (fst (@Server.run sample_runtime sample_db sample_requests)).
Proof.
  assert (Hdb : unique_ids sample_db).
  { split; (constructor; [intros []|constructor]). }
  split; [exact Hdb|].
  exact (@identifiers_stay_unique sample_runtime _ _ Hdb).
Defined.

Lemma stored_links_stay_valid_witness :
  schema_valid sample_db
  /\ map Server.status_of
       (snd (@Server.run sample_runtime sample_db sample_requests))
     = [302; 500; 500; 200]
  /\ forall q,
       In q (Server.qrcodes
               (fst (@Server.run sample_runtime sample_db sample_requests))) ->
       QRCodeModel.validate q = true.
Proof.
  assert (Hdb : schema_valid sample_db).
  { constructor; [reflexivity|constructor]. }
  split; [exact Hdb|]. split; [reflexivity|].
  intros q Hq.
  exact (proj1 (@stored_links_stay_valid sample_runtime _ _ Hdb q Hq)).
Defined.

(** ** How creation, update, delete and resolution compose *)

Section Composition.

Import QRCodeModel Server.

Context `{Runtime}.




Lemma sanitizeUrl_Some (s u : jsstring) :
  sanitizeUrl s = Some u -> u = Utils.sanitizeUrl s.
Proof.
  unfold sanitizeUrl, Utils.sanitizeUrl.
  destruct (negb (truthy s)); [discriminate|].
  destruct (re_match false Utils.re_scheme_i (trim s)); now intros [= <-].
Qed.


Lemma generate_200 (db db' : DB) (r : GenerateRequest) (b : Body) :
  generate db r = (db', Json 200 b) ->
  exists q,
    sanitizeUrl (default (g_url r) []) = Some (url q)
    /\ plan_limit_check db (getUserFromToken db (g_session r)) = None
    /\ insert (qrcodes db) q = Some (qrcodes db ++ [q])
    /\ _id q = g_id r /\ shortId q = g_shortId r
    /\ userId q = option_map User._id (getUserFromToken db (g_session r))
    /\ isActive q = true
    /\ analytics q
       = {| totalScans := 0; lastScanned := None; scanHistory := [] |}
    /\ qrcodes db' = qrcodes db ++ [q]
    /\ users db'
       = match getUserFromToken db (g_session r) with
         | Some u =>
             User_save (users db)
               {| User.this :=
                    User.set_qrCodesCreated u
                      (User.qrCodesCreated (User.usage u) + 1);
                  User.isModified_plan := false |}
         | None => users db
         end
    /\ b = CreatedBody (g_id r) (qrCodeData q)
             (BASE_URL ++ JS.js "/r/" ++ g_shortId r) (g_shortId r)
             (url q) (title q) (description q) (g_now r).
Proof.
  intros Hg. destruct (generate_effect db r)
    as [[_ Hs]|(q & H1 & H2 & H3 & H4 & H5 & H6 & H7 & H8 & H9)].
  - rewrite Hg in Hs. now elim Hs.
  - rewrite Hg in H9. injection H9 as -> ->.
    exists q. repeat split; assumption.
Qed.



Lemma remove_first_perm {A} (f : A -> jsstring) (q : A) (l : list A) :
  NoDup (map f l) -> In q l ->
  Permutation (q :: remove_first (fun d => str_eqb (f d) (f q)) l) l.
Proof.
  induction l as [|y l IH]; simpl; [tauto|].
  intros Hnd Hin. inversion Hnd as [|? ? Hy Hnd']; subst.
  destruct (str_eqb (f y) (f q)) eqn:E.
  - apply str_eqb_eq in E.
    assert (y = q) by (apply (NoDup_map_inj f (y :: l)); simpl; auto).
    now subst.
  - apply str_eqb_neq in E. destruct Hin as [->|Hin]; [congruence|].
    rewrite perm_swap. constructor. now apply IH.
Qed.

Lemma countDocuments_perm (l l' : list doc) (uid : ObjectId) :
  Permutation l l' -> countDocuments l uid = countDocuments l' uid.
Proof.
  intros Hp. unfold countDocuments. f_equal.
  apply Permutation_length.
  induction Hp; simpl;
    repeat match goal with
           | |- context [opt_eqb ?a ?b] => destruct (opt_eqb a b)
           end; auto.
  - apply perm_swap.
  - eapply perm_trans; eassumption.
Qed.

(** What a delete answered 200 has removed. *)
Lemma delete_200 (db db' : DB) (r : DeleteRequest) (b : Body) :
  unique_ids db ->
  delete db r = (db', Json 200 b) ->
  exists user q,
    getUserFromToken db (d_session r) = Some user
    /\ findOne_owned (qrcodes db) (d_qrId r) (User._id user) = Some q
    /\ Permutation (q :: qrcodes db') (qrcodes db)
    /\ users db'
       = (if User.qrCodesCreated (User.usage user) >? 0 then
            User_save (users db)
              {| User.this :=
                   User.set_qrCodesCreated user
                     (User.qrCodesCreated (User.usage user) - 1);
                 User.isModified_plan := false |}
          else users db).
Proof.
  intros [Hid _] Hd.
  destruct (delete_effect db r) as [[_ Hs]|(user & q & Hu & Hq & Heq)].
  { rewrite Hd in Hs. now elim Hs. }
  rewrite Hd in Heq. injection Heq as -> _.
  exists user, q. split; [exact Hu|]. split; [exact Hq|].
  apply findOne_owned_holds in Hq as (Hin & E & _).
  simpl. split; [|reflexivity].
  unfold findByIdAndDelete. rewrite <- E.
  now apply (remove_first_perm _id).
Qed.

(** X6: after a delete answered 200, with distinct identifiers in the
    store, the link is gone: no stored link has its id or its short
    identifier, the caller owns one link less, and a scan of the short
    identifier is answered 404. *)
Theorem deleted_link_is_gone (db db' : DB) (r : DeleteRequest) (b : Body) :
  unique_ids db ->
  delete db r = (db', Json 200 b) ->
  exists user q,
    getUserFromToken db (d_session r) = Some user
    /\ findOne_owned (qrcodes db) (d_qrId r) (User._id user) = Some q
    /\ (forall d, In d (qrcodes db') ->
                  _id d <> _id q /\ shortId d <> shortId q)
    /\ countDocuments (qrcodes db') (User._id user)
       = countDocuments (qrcodes db) (User._id user) - 1
    /\ forall scan, r_shortId scan = shortId q ->
         redirect db' scan = (db', Html 404 not_found_page).
Proof.
  intros Hun Hd. destruct (delete_200 db db' r b Hun Hd)
    as (user & q & Hu & Hq & Hperm & _).
  exists user, q. split; [exact Hu|]. split; [exact Hq|].
  destruct Hun as [Hid Hsid].
  assert (Hnid : NoDup (map _id (q :: qrcodes db')))
    by (apply (Permutation_NoDup (l := map _id (qrcodes db)));
        [symmetry; now apply Permutation_map|exact Hid]).
  assert (Hnsid : NoDup (map shortId (q :: qrcodes db')))
    by (apply (Permutation_NoDup (l := map shortId (qrcodes db)));
        [symmetry; now apply Permutation_map|exact Hsid]).
  assert (Hfresh : forall d, In d (qrcodes db') ->
                     _id d <> _id q /\ shortId d <> shortId q).
  { simpl in Hnid, Hnsid. inversion Hnid; inversion Hnsid; subst.
    intros d Hd'. split; intros E.
    - match goal with Hx : ~ In (_id q) _ |- _ => apply Hx end.
      rewrite <- E. now apply in_map.
    - match goal with Hx : ~ In (shortId q) _ |- _ => apply Hx end.
      rewrite <- E. now apply in_map. }
  split; [exact Hfresh|]. split.
  - rewrite <- (countDocuments_perm _ _ _ Hperm).
    apply findOne_owned_holds in Hq as (_ & _ & Ho).
    unfold countDocuments. simpl. rewrite Ho. simpl.
    rewrite str_eqb_refl. simpl List.length. lia.
  - intros scan Hscan. unfold redirect.
    rewrite findOne_active_none; [reflexivity|].
    intros d Hd' E. rewrite Hscan in E. now destruct (proj2 (Hfresh d Hd')).
Qed.

End Composition.



(** The owner of the sample link deletes it; a scan is then answered
    404. *)
Lemma deleted_link_is_gone_witness :
  let r := {| Server.d_session := Some sample_owner;
              Server.d_qrId := "665f1c2ab7e4d90012a4c001" |} in
  let db' := fst (@Server.delete sample_runtime sample_account_db r) in
  unique_ids sample_account_db
  /\ Server.countDocuments (Server.qrcodes db') sample_owner = 0
  /\ Server.redirect db' (sample_scan 1706702400000 None)
     = (db', Server.Html 404 Server.not_found_page).
Proof.
  intros r db'.
  assert (Hdb : unique_ids sample_account_db).
  { split; (constructor; [intros []|constructor]). }
  split; [exact Hdb|].
  assert (Hd : exists b,
             @Server.delete sample_runtime sample_account_db r
             = (db', Server.Json 200 b)).
  { eexists. cbv. reflexivity. }
  destruct Hd as [b Hd].
  destruct (@deleted_link_is_gone sample_runtime sample_account_db db' r b
              Hdb Hd)
    as (user & q & Hus & Hq & _ & Hc & Hscan).
  change (Some (sample_user sample_owner "free" 1) = Some user) in Hus.
  injection Hus as <-.
  change (Some (sample_owned_link sample_owner) = Some q) in Hq.
  injection Hq as <-.
  split.
  - exact Hc.
  - exact (Hscan (sample_scan 1706702400000 None) eq_refl).
Defined.

(** ** Quota and usage counters under every run *)

Section Accounts.

Import QRCodeModel Server.

Context `{Runtime}.

Lemma filter_map_length {A B} (f : A -> B) (P : B -> bool) (l : list A) :
  List.length (filter (fun x => P (f x)) l)
  = List.length (filter P (map f l)).
Proof.
  induction l as [|x l IH]; simpl; [reflexivity|].
  destruct (P (f x)); simpl; now rewrite IH.
Qed.

Lemma countDocuments_map (qs qs' : list doc) (uid : ObjectId) :
  map userId qs = map userId qs' ->
  countDocuments qs uid = countDocuments qs' uid.
Proof.
  intros E. unfold countDocuments.
  rewrite !(filter_map_length userId (fun o => opt_eqb o (Some uid))).
  now rewrite E.
Qed.

Lemma countDocuments_app (qs : list doc) (q : doc) (uid : ObjectId) :
  countDocuments (qs ++ [q]) uid
  = countDocuments qs uid
    + (if opt_eqb (userId q) (Some uid) then 1 else 0).
Proof.
  unfold countDocuments. rewrite filter_app, length_app. simpl.
  destruct (opt_eqb (userId q) (Some uid)); simpl; lia.
Qed.

Lemma countDocuments_remove_le (p : doc -> bool) (qs : list doc)
  (uid : ObjectId) :
  countDocuments (remove_first p qs) uid <= countDocuments qs uid.
Proof.
  unfold countDocuments. induction qs as [|y qs IH]; simpl; [lia|].
  destruct (p y); simpl; destruct (opt_eqb (userId y) (Some uid));
    simpl List.length; lia.
Qed.

Lemma pre_save_id (d : User.loaded) :
  User._id (User.pre_save_limits d) = User._id (User.this d).
Proof.
  unfold User.pre_save_limits. destruct (User.isModified_plan d);
    [|reflexivity].
  repeat match goal with
         | |- context [if ?c then _ else _] => destruct c
         end; reflexivity.
Qed.

Lemma User_save_ids (us : list User.doc) (d : User.loaded) :
  map User._id (User_save us d) = map User._id us.
Proof.
  unfold User_save. apply map_replace_first.
  intros y _ E. apply str_eqb_eq in E. now rewrite pre_save_id.
Qed.

(** With distinct user ids, [save] of an account whose plan is untouched
    changes that account alone. *)
Lemma Forall_User_save (P : User.doc -> Prop) (us : list User.doc)
  (u' : User.doc) :
  NoDup (map User._id us) -> P u' ->
  (forall y, In y us -> User._id y <> User._id u' -> P y) ->
  Forall P (User_save us {| User.this := u'; User.isModified_plan := false |}).
Proof.
  unfold User_save, User.pre_save_limits. simpl.
  induction us as [|y us IH]; simpl; intros Hnd Hx Hy; [constructor|].
  inversion Hnd as [|? ? Hn Hnd']; subst.
  destruct (str_eqb (User._id y) (User._id u')) eqn:E.
  - apply str_eqb_eq in E. constructor; [exact Hx|].
    apply Forall_forall. intros z Hz. apply Hy; [now right|].
    intros Ez. apply Hn. rewrite E, <- Ez. now apply in_map.
  - apply str_eqb_neq in E. constructor; [apply Hy; auto|].
    apply IH; auto.
Qed.

Lemma handle_unique_users (db : DB) (req : Request) :
  unique_users db -> unique_users (fst (handle db req)).
Proof.
  unfold unique_users. intros Hdb. destruct req as [r|r|r|r]; simpl.
  - destruct (generate_effect db r)
      as [[-> _]|(q & _ & _ & _ & _ & _ & _ & _ & _ & ->)]; [exact Hdb|].
    simpl. destruct (getUserFromToken db (g_session r));
      [now rewrite User_save_ids|exact Hdb].
  - destruct (update_effect db r)
      as [[-> _]|(user & q & q' & _ & _ & _ & _ & _ & _ & _ & _ & _ & _ & _
                  & _ & _ & _ & ->)]; exact Hdb.
  - destruct (delete_effect db r) as [[-> _]|(user & q & _ & _ & ->)];
      [exact Hdb|].
    simpl. destruct (_ >? 0); [now rewrite User_save_ids|exact Hdb].
  - destruct (redirect_effect db r) as [[-> _]|(q & _ & ->)]; exact Hdb.
Qed.

Lemma opt_eqb_Some_neq (a b : jsstring) :
  a <> b -> opt_eqb (Some a) (Some b) = false.
Proof. intros Hn. simpl. now apply str_eqb_neq. Qed.

Lemma handle_within_quota (db : DB) (req : Request) :
  unique_ids db -> unique_users db -> within_quota db ->
  within_quota (fst (handle db req)).
Proof.
  unfold within_quota, unique_users. intros [Hid _] Hus Hdb.
  destruct req as [r|r|r|r]; simpl.
  - destruct (generate_effect db r)
      as [[-> _]|(q & _ & Hlim & _ & _ & _ & Ho & _ & _ & ->)]; [exact Hdb|].
    simpl. destruct (getUserFromToken db (g_session r)) as [u|] eqn:Hu.
    + simpl in Ho. apply plan_limit_check_allows in Hlim.
      apply Forall_User_save; [exact Hus| |].
      * simpl. rewrite countDocuments_app, Ho. simpl.
        rewrite str_eqb_refl. lia.
      * intros y Hy Hne. simpl in Hne.
        rewrite countDocuments_app, Ho, opt_eqb_Some_neq by congruence.
        rewrite Forall_forall in Hdb. specialize (Hdb y Hy). lia.
    + simpl in Ho. apply Forall_forall. intros y Hy.
      rewrite countDocuments_app, Ho. simpl.
      rewrite Forall_forall in Hdb. specialize (Hdb y Hy). lia.
  - destruct (update_effect db r)
      as [[-> _]|(user & q & q' & _ & Hq & E1 & _ & _ & E2 & _ & _ & _ & _
                  & _ & _ & _ & _ & ->)]; [exact Hdb|].
    simpl. apply findOne_owned_holds in Hq as [Hin _].
    apply Forall_forall. intros y Hy.
    rewrite (countDocuments_map _ (qrcodes db))
      by now apply (map_save userId _ q q').
    rewrite Forall_forall in Hdb. now apply Hdb.
  - destruct (delete_effect db r) as [[-> _]|(user & q & Hu & _ & ->)];
      [exact Hdb|].
    simpl.
    assert (Hle : Forall
              (fun u => countDocuments
                          (findByIdAndDelete (qrcodes db) (d_qrId r))
                          (User._id u)
                        <= User.maxQRCodes (User.limits u)) (users db)).
    { apply Forall_forall. intros y Hy.
      rewrite Forall_forall in Hdb. specialize (Hdb y Hy).
      pose proof (countDocuments_remove_le
                    (fun q0 => str_eqb (_id q0) (d_qrId r)) (qrcodes db)
                    (User._id y)). unfold findByIdAndDelete. lia. }
    destruct (_ >? 0); [|exact Hle].
    unfold User_save. apply Forall_replace_first; [exact Hle|].
    apply getUserFromToken_In in Hu.
    rewrite Forall_forall in Hle. exact (Hle user Hu).
  - destruct (redirect_effect db r) as [[-> _]|(q & Hq & ->)]; [exact Hdb|].
    simpl. apply findOne_active_In in Hq.
    apply Forall_forall. intros y Hy.
    rewrite (countDocuments_map _ (qrcodes db))
      by now apply (map_save userId _ q _).
    rewrite Forall_forall in Hdb. now apply Hdb.
Qed.

Lemma handle_usage_consistent (db : DB) (req : Request) :
  unique_ids db -> unique_users db -> usage_consistent db ->
  usage_consistent (fst (handle db req)).
Proof.
  unfold usage_consistent, unique_users. intros [Hid Hsid] Hus Hdb.
  destruct req as [r|r|r|r]; simpl.
  - destruct (generate_effect db r)
      as [[-> _]|(q & _ & _ & _ & _ & _ & Ho & _ & _ & ->)]; [exact Hdb|].
    simpl. destruct (getUserFromToken db (g_session r)) as [u|] eqn:Hu.
    + simpl in Ho. apply getUserFromToken_In in Hu.
      rewrite Forall_forall in Hdb.
      apply Forall_User_save; [exact Hus| |].
      * simpl. rewrite countDocuments_app, Ho. simpl.
        rewrite str_eqb_refl, (Hdb u Hu). reflexivity.
      * intros y Hy Hne. simpl in Hne.
        rewrite countDocuments_app, Ho, opt_eqb_Some_neq by congruence.
        rewrite (Hdb y Hy). lia.
    + simpl in Ho. apply Forall_forall. intros y Hy.
      rewrite countDocuments_app, Ho. simpl.
      rewrite Forall_forall in Hdb. rewrite (Hdb y Hy). lia.
  - destruct (update_effect db r)
      as [[-> _]|(user & q & q' & _ & Hq & E1 & _ & _ & E2 & _ & _ & _ & _
                  & _ & _ & _ & _ & ->)]; [exact Hdb|].
    simpl. apply findOne_owned_holds in Hq as [Hin _].
    apply Forall_forall. intros y Hy.
    rewrite (countDocuments_map _ (qrcodes db))
      by now apply (map_save userId _ q q').
    rewrite Forall_forall in Hdb. now apply Hdb.
  - destruct (delete_effect db r) as [[-> _]|(user & q & Hu & Hq & ->)];
      [exact Hdb|].
    simpl. apply findOne_owned_holds in Hq as (Hin & E & Ho).
    assert (Hperm : Permutation
                      (q :: findByIdAndDelete (qrcodes db) (d_qrId r))
                      (qrcodes db)).
    { unfold findByIdAndDelete. rewrite <- E.
      now apply (remove_first_perm _id). }
    assert (Hcount : forall uid,
               countDocuments (qrcodes db) uid
               = countDocuments (findByIdAndDelete (qrcodes db) (d_qrId r)) uid
                 + (if str_eqb (User._id user) uid then 1 else 0)).
    { intros uid. rewrite <- (countDocuments_perm _ _ uid Hperm).
      unfold countDocuments at 1. simpl. rewrite Ho. simpl.
      destruct (str_eqb (User._id user) uid); simpl List.length;
        unfold countDocuments; lia. }
    apply getUserFromToken_In in Hu.
    rewrite Forall_forall in Hdb.
    pose proof (Hdb user Hu) as Hc.
    rewrite (Hcount (User._id user)), str_eqb_refl in Hc.
    assert (Hpos : 0 <= countDocuments
                          (findByIdAndDelete (qrcodes db) (d_qrId r))
                          (User._id user))
      by (unfold countDocuments; lia).
    destruct (Z.gtb_spec (User.qrCodesCreated (User.usage user)) 0);
      [|lia].
    apply Forall_User_save; [exact Hus| |].
    + simpl. lia.
    + intros y Hy Hne. simpl in Hne.
      pose proof (Hdb y Hy) as Hy'. rewrite (Hcount (User._id y)) in Hy'.
      assert (Hf : str_eqb (User._id user) (User._id y) = false)
        by (apply str_eqb_neq; congruence).
      rewrite Hf in Hy'. lia.
  - destruct (redirect_effect db r) as [[-> _]|(q & Hq & ->)]; [exact Hdb|].
    simpl. apply findOne_active_In in Hq.
    apply Forall_forall. intros y Hy.
    rewrite (countDocuments_map _ (qrcodes db))
      by now apply (map_save userId _ q _).
    rewrite Forall_forall in Hdb. now apply Hdb.
Qed.

Lemma handle_quota_kept (owned : ObjectId -> Z) (db : DB) (req : Request) :
  unique_ids db -> unique_users db -> quota_kept owned db ->
  quota_kept owned (fst (handle db req)).
Proof.
  unfold quota_kept, unique_users. intros [Hid _] Hus Hdb.
  destruct req as [r|r|r|r]; simpl.
  - destruct (generate_effect db r)
      as [[-> _]|(q & _ & Hlim & _ & _ & _ & Ho & _ & _ & ->)]; [exact Hdb|].
    simpl. destruct (getUserFromToken db (g_session r)) as [u|] eqn:Hu.
    + simpl in Ho. apply plan_limit_check_allows in Hlim.
      apply Forall_User_save; [exact Hus| |].
      * simpl. rewrite countDocuments_app, Ho. simpl.
        rewrite str_eqb_refl. lia.
      * intros y Hy Hne. simpl in Hne.
        rewrite countDocuments_app, Ho, opt_eqb_Some_neq by congruence.
        rewrite Forall_forall in Hdb. specialize (Hdb y Hy). lia.
    + simpl in Ho. apply Forall_forall. intros y Hy.
      rewrite countDocuments_app, Ho. simpl.
      rewrite Forall_forall in Hdb. specialize (Hdb y Hy). lia.
  - destruct (update_effect db r)
      as [[-> _]|(user & q & q' & _ & Hq & E1 & _ & _ & E2 & _ & _ & _ & _
                  & _ & _ & _ & _ & ->)]; [exact Hdb|].
    simpl. apply findOne_owned_holds in Hq as [Hin _].
    apply Forall_forall. intros y Hy.
    rewrite (countDocuments_map _ (qrcodes db))
      by now apply (map_save userId _ q q').
    rewrite Forall_forall in Hdb. now apply Hdb.
  - destruct (delete_effect db r) as [[-> _]|(user & q & Hu & _ & ->)];
      [exact Hdb|].
    simpl.
    assert (Hle : Forall
              (fun u => countDocuments
                          (findByIdAndDelete (qrcodes db) (d_qrId r))
                          (User._id u)
                        <= Z.max (owned (User._id u))
                             (User.maxQRCodes (User.limits u))) (users db)).
    { apply Forall_forall. intros y Hy.
      rewrite Forall_forall in Hdb. specialize (Hdb y Hy).
      pose proof (countDocuments_remove_le
                    (fun q0 => str_eqb (_id q0) (d_qrId r)) (qrcodes db)
                    (User._id y)). unfold findByIdAndDelete. lia. }
    destruct (_ >? 0); [|exact Hle].
    unfold User_save. apply Forall_replace_first; [exact Hle|].
    apply getUserFromToken_In in Hu.
    rewrite Forall_forall in Hle. exact (Hle user Hu).
  - destruct (redirect_effect db r) as [[-> _]|(q & Hq & ->)]; [exact Hdb|].
    simpl. apply findOne_active_In in Hq.
    apply Forall_forall. intros y Hy.
    rewrite (countDocuments_map _ (qrcodes db))
      by now apply (map_save userId _ q _).
    rewrite Forall_forall in Hdb. now apply Hdb.
Qed.

(** X7: when requests are handled one after the other, each to its end
    before the next, no account ever owns more links than the larger of
    its [maxQRCodes] and the number it owned at the start: from a store
    with distinct link and account ids every run ends in such a store.
    So an account over its limit, which one with the limit -1 always is,
    never gets another link; and when every account is within its limit
    at the start, every account is within its limit at the end. *)
Theorem quota_is_never_exceeded (db : DB) (reqs : list Request) :
  unique_ids db -> unique_users db ->
  let db' := fst (run db reqs) in
  (forall u, In u (users db') ->
     countDocuments (qrcodes db') (User._id u)
     <= Z.max (countDocuments (qrcodes db) (User._id u))
          (User.maxQRCodes (User.limits u)))
  /\ (within_quota db -> within_quota db').
Proof.
  intros H1 H2 db'. split.
  - assert (Hk : quota_kept (countDocuments (qrcodes db)) db').
    { apply (run_invariant
               (fun d => unique_ids d /\ unique_users d
                         /\ quota_kept (countDocuments (qrcodes db)) d)).
      - intros db0 req (I1 & I2 & I3). split; [|split].
        + now apply handle_unique_ids.
        + now apply handle_unique_users.
        + now apply handle_quota_kept.
      - split; [exact H1|]. split; [exact H2|].
        apply Forall_forall. intros u _. lia. }
    unfold quota_kept in Hk. rewrite Forall_forall in Hk. exact Hk.
  - intros H3.
    apply (run_invariant
             (fun db => unique_ids db /\ unique_users db /\ within_quota db));
      [|auto].
    intros db0 req (I1 & I2 & I3). split; [|split].
    + now apply handle_unique_ids.
    + now apply handle_unique_users.
    + now apply handle_within_quota.
Qed.

(** X8: when requests are handled one after the other, each to its end
    before the next, the usage counter of every account stays equal to
    the number of links it owns: from a store with distinct link and
    account ids in which the two agree, every run ends in such a store. *)
Theorem usage_counter_counts_links (db : DB) (reqs : list Request) :
  unique_ids db -> unique_users db -> usage_consistent db ->
  usage_consistent (fst (run db reqs)).
Proof.
  intros H1 H2 H3.
  apply (run_invariant
           (fun db => unique_ids db /\ unique_users db /\ usage_consistent db));
    [|auto].
  intros db0 req (I1 & I2 & I3). split; [|split].
  - now apply handle_unique_ids.
  - now apply handle_unique_users.
  - now apply handle_usage_consistent.
Qed.

End Accounts.

Lemma quota_is_never_exceeded_witness :
  unique_ids sample_account_db /\ unique_users sample_account_db
  /\ within_quota sample_account_db
  /\ map Server.status_of
       (snd (@Server.run sample_runtime sample_account_db
               sample_account_requests))
     = [200; 404; 200; 404; 200]
  /\ within_quota
       (fst (@Server.run sample_runtime sample_account_db
               sample_account_requests)).
Proof.
  assert (H1 : unique_ids sample_account_db).
  { split; (constructor; [intros []|constructor]). }
  assert (H2 : unique_users sample_account_db).
  { constructor; [intros []|constructor]. }
  assert (H3 : within_quota sample_account_db).
  { constructor; [vm_compute; discriminate|constructor]. }
  repeat (split; [assumption|]). split; [reflexivity|].
  exact (proj2 (@quota_is_never_exceeded sample_runtime _ _ H1 H2) H3).
Defined.

Lemma usage_counter_counts_links_witness :
  unique_ids sample_account_db /\ unique_users sample_account_db
  /\ usage_consistent sample_account_db
  /\ usage_consistent
       (fst (@Server.run sample_runtime sample_account_db
               sample_account_requests)).
Proof.
  assert (H1 : unique_ids sample_account_db).
  { split; (constructor; [intros []|constructor]). }
  assert (H2 : unique_users sample_account_db).
  { constructor; [intros []|constructor]. }
  assert (H3 : usage_consistent sample_account_db).
  { constructor; [reflexivity|constructor]. }
  repeat (split; [assumption|]).
  exact (@usage_counter_counts_links sample_runtime _ _ H1 H2 H3).
Defined.

(** ** More on sanitising *)

Section SanitisingMore.

Import QRCodeModel Server.

Context `{Runtime}.

Lemma trimStart_fixed (s : jsstring) :
  match s with c :: _ => is_white_space c = false | [] => True end ->
  trimStart s = s.
Proof. destruct s as [|c s]; simpl; [reflexivity|]. now intros ->. Qed.

Lemma trim_fixed (s : jsstring) :
  match s with c :: _ => is_white_space c = false | [] => True end ->
  match rev s with c :: _ => is_white_space c = false | [] => True end ->
  trim s = s.
Proof.
  intros Hh Hl. unfold trim, trimEnd.
  rewrite (trimStart_fixed s Hh), (trimStart_fixed (rev s) Hl).
  apply rev_involutive.
Qed.

Lemma trim_ends (s : jsstring) :
  match trim s with c :: _ => is_white_space c = false | [] => True end
  /\ match rev (trim s) with
     | c :: _ => is_white_space c = false
     | [] => True
     end.
Proof.
  destruct (trim_spec s) as (l & r & _ & _ & _ & Hh & Hl). split.
  - destruct (trim s) as [|c t] eqn:E; [exact I|]. now apply (Hh c t).
  - destruct (rev (trim s)) as [|c t] eqn:E; [exact I|].
    apply (Hl c (rev t)). apply (f_equal (@rev _)) in E.
    now rewrite rev_involutive in E.
Qed.

Lemma trim_idempotent (s : jsstring) : trim (trim s) = trim s.
Proof. destruct (trim_ends s). now apply trim_fixed. Qed.

(** X9: sanitising is idempotent, and what it returns always starts with
    [http://] or [https://], letters compared without case. *)
Theorem sanitize_is_idempotent (s : jsstring) :
  Utils.sanitizeUrl (Utils.sanitizeUrl s) = Utils.sanitizeUrl s
  /\ has_http_scheme (Utils.sanitizeUrl s).
Proof.
  unfold Utils.sanitizeUrl at 2 3 4.
  destruct (re_match false Utils.re_scheme_i (trim s)) eqn:E; cbn [negb].
  - split; [|now apply re_scheme_i_spec].
    unfold Utils.sanitizeUrl. rewrite trim_idempotent, E. reflexivity.
  - assert (Ht : trim (JS.js "https://" ++ trim s)
                 = JS.js "https://" ++ trim s).
    { apply trim_fixed; [reflexivity|].
      rewrite rev_app_distr. destruct (trim_ends s) as [_ Hl].
      destruct (rev (trim s)); [reflexivity|exact Hl]. }
    split.
    + unfold Utils.sanitizeUrl. rewrite Ht. reflexivity.
    + right. exists (JS.js "https://"), (trim s). now split.
Qed.

(** X10: a destination whose scheme is written with a capital letter is
    never stored: the sanitizer keeps it as it is and the URL validator of
    the schema wants the scheme in lower case, so the creation is answered
    with an error and the store is left alone. *)
Theorem capital_scheme_is_refused (db : DB) (r : GenerateRequest) :
  let t := trim (default (g_url r) []) in
  has_http_scheme t ->
  startsWith t "http://" = false ->
  startsWith t "https://" = false ->
  fst (generate db r) = db /\ status_of (snd (generate db r)) <> 200.
Proof.
  intros t Hs H1 H2.
  destruct (generate_effect db r)
    as [Hleft|(q & Hu & _ & Hins & _)]; [exact Hleft|].
  exfalso. apply sanitizeUrl_Some in Hu.
  apply insert_Some in Hins as (_ & Hv & _).
  unfold validate in Hv.
  repeat match goal with
         | H : _ && _ = true |- _ => apply andb_true_iff in H as [H ?]
         end.
  assert (Hq : url q = t).
  { rewrite Hu. unfold Utils.sanitizeUrl. fold t.
    apply re_scheme_i_spec in Hs. now rewrite Hs. }
  rewrite Hq in *.
  match goal with
  | Hr : re_match false re_url t = true |- _ =>
      destruct (re_url_scheme t Hr); congruence
  end.
Qed.

End SanitisingMore.

(** A creation with the destination [HTTP://example.net]. *)
Lemma capital_scheme_is_refused_witness :
  let r := sample_create None " HTTP://example.net" "Qw8rT2pL"
             "665f1c2ab7e4d90012a4c003" in
  has_http_scheme (JS.js "HTTP://example.net")
  /\ fst (@Server.generate sample_runtime sample_db r) = sample_db
  /\ Server.status_of (snd (@Server.generate sample_runtime sample_db r))
     <> 200.
Proof.
  intros r.
  assert (Hs : has_http_scheme (JS.js "HTTP://example.net")).
  { left. exists (JS.js "HTTP://"), (JS.js "example.net").
    split; reflexivity. }
  split; [exact Hs|].
  exact (@capital_scheme_is_refused sample_runtime sample_db r Hs
           eq_refl eq_refl).
Defined.

(** ** The countries of the scans *)

Section LocationStats.

Import QRCodeModel AnalyticsRoutes.

Lemma StronglySorted_app_inv {A} (R : A -> A -> Prop) (l1 l2 : list A) :
  StronglySorted R (l1 ++ l2) ->
  StronglySorted R l1 /\ StronglySorted R l2
  /\ forall x y, In x l1 -> In y l2 -> R x y.
Proof.
  induction l1 as [|a l1 IH]; simpl; intros Hs.
  - repeat split; [constructor|exact Hs|intros x y []].
  - inversion Hs as [|a' l' Hs' Ha]; subst.
    destruct (IH Hs') as (H1 & H2 & H3).
    rewrite Forall_app in Ha. destruct Ha as [Ha1 Ha2].
    repeat split; [now constructor|exact H2|].
    intros x y [<-|Hx] Hy; [|now apply H3].
    rewrite Forall_forall in Ha2. now apply Ha2.
Qed.

Lemma skipn_nonempty_length {A} (n : nat) (l : list A) (x : A) :
  In x (skipn n l) -> List.length (firstn n l) = n.
Proof.
  intros Hx. apply firstn_length_le.
  destruct (Nat.le_gt_cases n (List.length l)) as [Hle|Hgt]; [exact Hle|].
  rewrite skipn_all2 in Hx by lia. destruct Hx.
Qed.

Lemma fold_countries (h : list ScanEvent) :
  forall m : Map Z,
  fold_left (fun m scan => match country_of scan with
                           | Some country => Analytics.bump m country
                           | None => m
                           end) h m
  = fold_left Analytics.bump (countries h) m.
Proof.
  induction h as [|scan h IH]; intros m; simpl; [reflexivity|].
  rewrite IH. now destruct (country_of scan).
Qed.

(** X11: [getLocationStats] returns at most ten entries, for distinct
    countries, each with the number of scans of that country (at least
    one), in descending order of count; and a country with a scan is left
    out only when ten entries are returned, none of them with fewer scans
    than it has. *)
Theorem location_stats_top_ten (h : list ScanEvent) :
  let stats := getLocationStats h in
  (List.length stats <= 10)%nat
  /\ NoDup (map country stats)
  /\ (forall e, In e stats ->
        AnalyticsRoutes.count e = occurrences (country e) (countries h)
        /\ 0 < AnalyticsRoutes.count e)
  /\ StronglySorted
       (fun a b => AnalyticsRoutes.count b <= AnalyticsRoutes.count a) stats
  /\ (forall c, In c (countries h) -> ~ In c (map country stats) ->
        List.length stats = 10%nat
        /\ forall e, In e stats ->
             occurrences c (countries h) <= AnalyticsRoutes.count e).
Proof.
  intros stats. subst stats. unfold getLocationStats.
  rewrite fold_countries.
  set (m := fold_left Analytics.bump (countries h) []).
  set (mk := fun e : jsstring * Z =>
               {| country := fst e; AnalyticsRoutes.count := snd e |}).
  set (cmp := fun a b : LocationStat =>
                AnalyticsRoutes.count b - AnalyticsRoutes.count a).
  set (R := fun a b : LocationStat =>
              AnalyticsRoutes.count b <= AnalyticsRoutes.count a).
  set (full := sort cmp (map mk m)).
  destruct (count_into (countries h) [] (NoDup_nil _))
    as (Hnd & Hget & Hkeys & _).
  fold m in Hnd, Hget, Hkeys.
  assert (Hperm : Permutation full (map mk m)) by apply sort_perm.
  assert (Hsorted : StronglySorted R full).
  { apply sort_sorted; unfold cmp, R; intros; lia. }
  assert (Hsplit : full = firstn 10 full ++ skipn 10 full)
    by (symmetry; apply firstn_skipn).
  assert (Hentry : forall e, In e full ->
            In (country e) (countries h)
            /\ AnalyticsRoutes.count e = occurrences (country e) (countries h)).
  { intros e He. apply (Permutation_in _ Hperm) in He.
    apply in_map_iff in He as ([k v] & <- & Hkv). simpl. split.
    - apply (in_map fst) in Hkv. apply Hkeys in Hkv as [[]|Hk]. exact Hk.
    - apply Map_get_In in Hkv; [|exact Hnd].
      specialize (Hget k). rewrite Hkv, or_0_Some in Hget. simpl in Hget.
      exact Hget. }
  assert (Hfirst : forall e, In e (firstn 10 full) -> In e full).
  { intros e He. rewrite Hsplit. apply in_or_app. now left. }
  rewrite Hsplit in Hsorted.
  apply StronglySorted_app_inv in Hsorted as (Hs1 & _ & Hs12).
  split; [apply firstn_le_length|]. split; [|split; [|split]].
  - assert (Hn : NoDup (map country full)).
    { apply (Permutation_NoDup (l := keys m)); [|exact Hnd].
      replace (keys m) with (map country (map mk m))
        by (rewrite map_map; reflexivity).
      symmetry. now apply Permutation_map. }
    rewrite Hsplit, map_app in Hn. now apply NoDup_app_remove_r in Hn.
  - intros e He. destruct (Hentry e (Hfirst e He)) as [Hin Hc].
    split; [exact Hc|]. rewrite Hc. now apply occurrences_pos.
  - exact Hs1.
  - intros c Hc Hout.
    assert (Hk : In c (keys m)) by (apply Hkeys; now right).
    destruct (Map_get m c) as [v|] eqn:Hv;
      [|apply Map_get_None in Hv; contradiction].
    assert (He : In (mk (c, v)) full).
    { apply (Permutation_in _ (Permutation_sym Hperm)).
      apply in_map. apply Map_get_In; assumption. }
    rewrite Hsplit in He. apply in_app_or in He as [He|He].
    { exfalso. apply Hout. apply in_map_iff. now exists (mk (c, v)). }
    split; [now apply skipn_nonempty_length with (x := mk (c, v))|].
    intros e Hin. specialize (Hs12 e (mk (c, v)) Hin He).
    unfold R in Hs12. simpl in Hs12.
    specialize (Hget c). rewrite Hv, or_0_Some in Hget. simpl in Hget.
    lia.
Qed.

End LocationStats.

(** ** The buckets of the daily series *)

Section DailyBuckets.

Import QRCodeModel Analytics.

Lemma zero_bucket_keys {X} (key : X -> jsstring) (l : list X) :
  forall (m : Map Z) (k : jsstring),
  In k (keys (fold_left (fun m x => Map_set m (key x) 0) l m))
  <-> In k (keys m) \/ In k (map key l).
Proof.
  induction l as [|x l IH]; intros m k; simpl; [tauto|].
  rewrite IH, In_keys_set. intuition congruence.
Qed.

Lemma zero_bucket_get (m : Map Z) (k : jsstring) :
  Forall (fun e => snd e = 0) m -> or_0 (Map_get m k) = 0.
Proof.
  induction 1 as [|[k' v] m Hv _ IH]; simpl; [reflexivity|].
  destruct (str_eqb k' k); [simpl in Hv; subst v; reflexivity|exact IH].
Qed.

(** The series is the map of the counts, sorted: its keys are the dates
    of the 30 days and of the scans of the last 30 days, its values the
    numbers of these scans. *)
Lemma daily_series_map (now : Date) (h : list ScanEvent) :
  let window := filter (fun scan => minus_days now 30 <=? timestamp scan) h in
  exists m : Map Z,
    Permutation (getDailyScans now h)
      (map (fun e => {| date := fst e; scans := snd e |}) m)
    /\ NoDup (keys m)
    /\ (forall d, In d (keys m) <->
          (exists i, 0 <= i < 30 /\ d = toISODate (minus_days now i))
          \/ exists scan, In scan window /\ d = toISODate (timestamp scan))
    /\ forall k v, In (k, v) m ->
         v = occurrences k
               (map (fun scan => toISODate (timestamp scan)) window).
Proof.
  intros window. unfold getDailyScans. fold window.
  set (days := map Z.of_nat (seq 0 30)).
  destruct (zero_buckets (fun i => toISODate (minus_days now i)) days []
              (NoDup_nil _) (Forall_nil _)) as [Hnd0 Hz].
  pose proof (zero_bucket_keys (fun i => toISODate (minus_days now i)) days [])
    as Hk0.
  set (m0 := fold_left
               (fun (m : Map Z) (i : Z) =>
                  Map_set m (toISODate (minus_days now i)) 0) days []) in *.
  rewrite fold_left_keys.
  set (ks := map (fun scan => toISODate (timestamp scan)) window).
  destruct (count_into ks m0 Hnd0) as (Hnd & Hget & Hkeys & _).
  set (m := fold_left bump ks m0) in *.
  assert (Hdays : forall d, In d (map (fun i => toISODate (minus_days now i)) days)
                            <-> exists i, 0 <= i < 30
                                          /\ d = toISODate (minus_days now i)).
  { intros d. rewrite in_map_iff. unfold days. split.
    - intros (i & <- & Hi). exists i. split; [|reflexivity].
      apply in_map_iff in Hi as (n & <- & Hn). apply in_seq in Hn. lia.
    - intros (i & Hi & ->). exists i. split; [reflexivity|].
      apply in_map_iff. exists (Z.to_nat i). split; [lia|].
      apply in_seq. lia. }
  exists m. split; [apply sort_perm|]. split; [exact Hnd|]. split.
  - intros d. rewrite Hkeys, Hk0, Hdays. unfold ks. rewrite in_map_iff.
    split.
    + intros [[[]|H1]|(scan & <- & Hs)]; [left; exact H1|right].
      exists scan. split; [exact Hs|reflexivity].
    + intros [H1|(scan & Hs & ->)]; [left; right; exact H1|right].
      exists scan. split; [reflexivity|exact Hs].
  - intros k v Hkv. apply Map_get_In in Hkv; [|exact Hnd].
    specialize (Hget k). rewrite Hkv, or_0_Some in Hget.
    rewrite (zero_bucket_get m0 k Hz) in Hget. exact Hget.
Qed.

Lemma daily_series_dates (now : Date) (h : list ScanEvent) :
  NoDup (map date (getDailyScans now h))
  /\ (forall d, In d (map date (getDailyScans now h)) <->
        (exists i, 0 <= i < 30 /\ d = toISODate (minus_days now i))
        \/ exists scan,
             In scan (filter (fun scan => minus_days now 30 <=? timestamp scan)
                        h)
             /\ d = toISODate (timestamp scan)).
Proof.
  destruct (daily_series_map now h) as (m & Hperm & Hnd & Hkeys & _).
  assert (Hdate : Permutation (map date (getDailyScans now h)) (keys m)).
  { rewrite (Permutation_map date Hperm), map_map. reflexivity. }
  split.
  - apply (Permutation_NoDup (Permutation_sym Hdate) Hnd).
  - intros d. rewrite <- Hkeys. split; apply Permutation_in;
      [exact Hdate|symmetry; exact Hdate].
Qed.

(** X12: the daily series has one bucket for each date, the dates being
    those of today and of the 29 days before and those of the scans of
    the last 30 days; and the count of a bucket is the number of scans of
    the last 30 days that have its date. *)
Theorem daily_series_buckets (now : Date) (h : list ScanEvent) :
  let series := getDailyScans now h in
  let window := filter (fun scan => minus_days now 30 <=? timestamp scan) h in
  NoDup (map date series)
  /\ (forall d, In d (map date series) <->
        (exists i, 0 <= i < 30 /\ d = toISODate (minus_days now i))
        \/ exists scan, In scan window /\ d = toISODate (timestamp scan))
  /\ forall e, In e series ->
       scans e
       = occurrences (date e)
           (map (fun scan => toISODate (timestamp scan)) window).
Proof.
  intros series window. subst series.
  destruct (daily_series_dates now h) as [Hnd Hdates].
  split; [exact Hnd|]. split; [exact Hdates|].
  destruct (daily_series_map now h) as (m & Hperm & _ & _ & Hcount).
  intros e He. apply (Permutation_in _ Hperm) in He.
  apply in_map_iff in He as ([k v] & <- & Hkv). simpl.
  exact (Hcount k v Hkv).
Qed.

End DailyBuckets.

(** ** The first entries of a sorted list *)

Section TopOf.

Context {A : Type} (cmp : A -> A -> Z) (R : A -> A -> Prop).

Hypothesis cmp_le : forall x y, cmp x y <= 0 -> R x y.
Hypothesis cmp_gt : forall x y, 0 < cmp x y -> R y x.
Hypothesis R_trans : forall x y z, R x y -> R y z -> R x z.

Lemma firstn_sort_top (n : nat) (l : list A) :
  let top := firstn n (sort cmp l) in
  (List.length top <= n)%nat
  /\ StronglySorted R top
  /\ (forall x, In x top -> In x l)
  /\ (forall x, In x l -> ~ In x top ->
        List.length top = n /\ forall y, In y top -> R y x).
Proof.
  intros top. subst top.
  assert (Hperm : Permutation (sort cmp l) l) by apply sort_perm.
  assert (Hsorted : StronglySorted R (sort cmp l)) by now apply sort_sorted.
  assert (Hsplit : sort cmp l
                   = firstn n (sort cmp l) ++ skipn n (sort cmp l))
    by (symmetry; apply firstn_skipn).
  rewrite Hsplit in Hsorted.
  apply StronglySorted_app_inv in Hsorted as (Hs1 & _ & Hs12).
  split; [apply firstn_le_length|]. split; [exact Hs1|]. split.
  - intros x Hx. apply (Permutation_in _ Hperm).
    rewrite Hsplit. apply in_or_app. now left.
  - intros x Hx Hout. apply (Permutation_in _ (Permutation_sym Hperm)) in Hx.
    rewrite Hsplit in Hx. apply in_app_or in Hx as [Hx|Hx]; [contradiction|].
    split; [now apply skipn_nonempty_length with (x := x)|].
    intros y Hy. now apply Hs12.
Qed.

End TopOf.

(** ** The dashboard *)

Section DashboardProperties.

Context `{Runtime}.

Import QRCodeModel AnalyticsRoutes.

Lemma fold_left_sum {X} (f : X -> Z) (l : list X) :
  forall a, fold_left (fun sum x => sum + f x) l a
            = a + fold_right Z.add 0 (map f l).
Proof.
  induction l as [|x l IH]; intros a; simpl; [lia|]. rewrite IH. lia.
Qed.

Lemma scans_since_flat_map (since : Date) (qs : list doc) :
  Z.of_nat
    (List.length
       (filter (fun scan => since <=? timestamp scan) (flat_map history qs)))
  = scans_since since qs.
Proof.
  unfold scans_since. induction qs as [|q qs IH]; simpl; [reflexivity|].
  rewrite filter_app, length_app, Nat2Z.inj_add, IH. reflexivity.
Qed.

Lemma scans_since_perm (since : Date) (qs qs' : list doc) :
  Permutation qs qs' -> scans_since since qs = scans_since since qs'.
Proof.
  intros Hp. unfold scans_since. apply sum_permutation.
  now apply Permutation_map.
Qed.

Lemma scans_since_mono (since since' : Date) (qs : list doc) :
  since <= since' -> scans_since since' qs <= scans_since since qs.
Proof.
  intros Hle. unfold scans_since.
  induction qs as [|q qs IH]; simpl; [lia|].
  assert (Hq : (List.length
                  (filter (fun scan => (since' <=? timestamp scan)%Z)
                     (history q))
                <= List.length
                     (filter (fun scan => (since <=? timestamp scan)%Z)
                        (history q)))%nat).
  { induction (history q) as [|scan h IHh]; simpl; [lia|].
    destruct (Z.leb_spec since' (timestamp scan));
      destruct (Z.leb_spec since (timestamp scan)); simpl; lia. }
  lia.
Qed.

Lemma filter_length_le {X} (f : X -> bool) (l : list X) :
  (List.length (filter f l) <= List.length l)%nat.
Proof.
  induction l as [|x l IH]; simpl; [lia|]. destruct (f x); simpl; lia.
Qed.

(** X13: for an account with the analytics feature the dashboard answers
    with an overview in which [totalQRCodes] is the number of links the
    account owns, [activeQRCodes] lies between 0 and that number,
    [totalScans] is the sum of the scan counters of these links and
    [scansThisMonth] is the number of their scans of the last 30 days;
    the counts of the chart add up to the number of their scans of the 30
    days before the instant the chart is computed at, which is at most
    [scansThisMonth] when that instant is not earlier. *)
Theorem dashboard_overview (qs : list doc) (user : User.doc)
  (now now' : Date) :
  User.canTrackAnalytics (User.limits user) = true ->
  exists d,
    dashboard qs user now now' = DashboardOk d
    /\ let own := find_owned qs (User._id user) in
       let chart :=
         fold_right Z.add 0 (map Analytics.scans (chartData_dailyScans d)) in
       totalQRCodes (overview d) = Server.countDocuments qs (User._id user)
       /\ 0 <= activeQRCodes (overview d) <= totalQRCodes (overview d)
       /\ totalScans (overview d) = fold_right Z.add 0 (map scans_of own)
       /\ scansThisMonth (overview d) = scans_since (minus_days now 30) own
       /\ chart = scans_since (minus_days now' 30) own
       /\ (now <= now' -> chart <= scansThisMonth (overview d)).
Proof.
  intros Hcan. unfold dashboard. rewrite Hcan. cbn [negb].
  eexists. split; [reflexivity|].
  cbn [overview totalQRCodes activeQRCodes totalScans scansThisMonth
       chartData_dailyScans].
  set (own := find_owned qs (User._id user)).
  set (ranked := sort (fun a b => scans_of b - scans_of a) own).
  assert (Hperm : Permutation ranked own) by apply sort_perm.
  assert (Hmonth : forall t,
            Z.of_nat
              (List.length
                 (filter (fun scan => minus_days t 30 <=? timestamp scan)
                    (flat_map history ranked)))
            = scans_since (minus_days t 30) own).
  { intros t. rewrite scans_since_flat_map. now apply scans_since_perm. }
  split; [reflexivity|]. split.
  { pose proof (filter_length_le isActive own). lia. }
  split; [rewrite fold_left_sum; lia|].
  split; [apply Hmonth|].
  rewrite daily_series_sum.
  split; [apply Hmonth|].
  intros Hle. rewrite !Hmonth. apply scans_since_mono.
  unfold minus_days. lia.
Qed.

Lemma StronglySorted_map {X Y} (f : X -> Y) (R : Y -> Y -> Prop)
  (l : list X) :
  StronglySorted (fun a b => R (f a) (f b)) l -> StronglySorted R (map f l).
Proof.
  induction 1 as [|x l Hs IH Hx]; simpl; constructor; [exact IH|].
  rewrite Forall_map. exact Hx.
Qed.

(** X14: the two rankings of the dashboard.  The recent activity has at
    most 20 entries, newest first, each a scan of the last 30 days of a
    link of the account, and a scan of the last 30 days that is left out
    is not newer than any entry, which are then 20.  The top performing
    links are at most 10 links of the account, in descending order of
    their scan counters, and a link that is left out has no more scans
    than any of the 10 listed. *)
Theorem dashboard_rankings (qs : list doc) (user : User.doc)
  (now now' : Date) (d : Dashboard) :
  dashboard qs user now now' = DashboardOk d ->
  let own := find_owned qs (User._id user) in
  let recent := recentActivity d in
  let top := topPerforming d in
  ((List.length recent <= 20)%nat
   /\ StronglySorted (fun a b => act_timestamp b <= act_timestamp a) recent
   /\ (forall a, In a recent ->
         exists q scan,
           In q own /\ In scan (history q)
           /\ minus_days now 30 <= timestamp scan
           /\ a = activity_of q scan)
   /\ (forall q scan,
         In q own -> In scan (history q) ->
         minus_days now 30 <= timestamp scan ->
         ~ In (activity_of q scan) recent ->
         List.length recent = 20%nat
         /\ forall a, In a recent -> timestamp scan <= act_timestamp a))
  /\ ((List.length top <= 10)%nat
      /\ StronglySorted (fun a b => top_totalScans b <= top_totalScans a) top
      /\ (forall t, In t top -> exists q, In q own /\ t = top_of q)
      /\ (forall q, In q own -> ~ In (top_of q) top ->
            List.length top = 10%nat
            /\ forall t, In t top -> scans_of q <= top_totalScans t)).
Proof.
  intros Hd own recent top. subst recent top. unfold dashboard in Hd.
  destruct (User.canTrackAnalytics (User.limits user)); cbn [negb] in Hd;
    [|discriminate].
  injection Hd as <-. cbn [recentActivity topPerforming]. fold own. split.
  - set (cmp := fun a b : Activity => act_timestamp b - act_timestamp a).
    set (R := fun a b : Activity => act_timestamp b <= act_timestamp a).
    set (all := flat_map
                  (fun qr =>
                     map (activity_of qr)
                       (filter (fun scan =>
                                  minus_days now 30 <=? timestamp scan)
                          (history qr)))
                  own).
    assert (Hall : forall a, In a all <->
              exists q scan,
                In q own /\ In scan (history q)
                /\ minus_days now 30 <= timestamp scan
                /\ a = activity_of q scan).
    { intros a. unfold all. rewrite in_flat_map. split.
      - intros (q & Hq & Ha). apply in_map_iff in Ha as (scan & <- & Hs).
        apply filter_In in Hs as [Hs Hw]. apply Z.leb_le in Hw.
        now exists q, scan.
      - intros (q & scan & Hq & Hs & Hw & ->). exists q. split; [exact Hq|].
        apply in_map. apply filter_In. split; [exact Hs|].
        now apply Z.leb_le. }
    destruct (firstn_sort_top cmp R) with (n := 20%nat) (l := all)
      as (H1 & H2 & H3 & H4);
      try (unfold cmp, R; intros; lia).
    split; [exact H1|]. split; [exact H2|]. split.
    + intros a Ha. apply Hall. apply H3. exact Ha.
    + intros q scan Hq Hs Hw Hout.
      destruct (H4 (activity_of q scan)) as [Hl Hr]; [|exact Hout|].
      { apply Hall. now exists q, scan. }
      split; [exact Hl|]. intros a Ha. exact (Hr a Ha).
  - set (cmp := fun a b : doc => scans_of b - scans_of a).
    set (R := fun a b : doc => scans_of b <= scans_of a).
    destruct (firstn_sort_top cmp R) with (n := 10%nat) (l := own)
      as (H1 & H2 & H3 & H4);
      try (unfold cmp, R; intros; lia).
    change (map _ (firstn 10 (sort _ own)))
      with (map top_of (firstn 10 (sort cmp own))).
    split; [now rewrite length_map|]. split.
    + apply StronglySorted_map. exact H2.
    + split.
      * intros t Ht. apply in_map_iff in Ht as (q & <- & Hq).
        exists q. split; [now apply H3|reflexivity].
      * intros q Hq Hout.
        destruct (H4 q Hq) as [Hl Hr].
        { intros Hin. apply Hout. now apply in_map. }
        rewrite length_map. split; [exact Hl|].
        intros t Ht. apply in_map_iff in Ht as (q' & <- & Hq').
        exact (Hr q' Hq').
Qed.




End DashboardProperties.

(** ** The listing of the caller's links *)

Section ListingProperties.

Context `{Runtime}.

Import QRCodeModel Server.

Lemma User_findById_save (us : list User.doc) (uid : ObjectId)
  (user u' : User.doc) :
  User_findById us uid = Some user ->
  User._id u' = User._id user ->
  User_findById
    (User_save us {| User.this := u'; User.isModified_plan := false |}) uid
  = Some u'.
Proof.
  intros Hf Hid. unfold User_findById, User_save.
  assert (Hu : User._id user = uid).
  { apply find_some in Hf as [_ E]. now apply str_eqb_eq in E. }
  apply find_replace_first with (x := user); [exact Hf| |]; simpl.
  - rewrite Hid. apply str_eqb_refl.
  - rewrite Hid, Hu. apply str_eqb_refl.
Qed.

Lemma list_answer (db : DB) (session : option ObjectId) (user : User.doc) :
  getUserFromToken db session = Some user ->
  exists items,
    Listing.list db session
    = Listing.Listed items
        {| Listing.current := 1; Listing.total := 1;
           Listing.count := countDocuments (qrcodes db) (User._id user);
           Listing.totalItems := countDocuments (qrcodes db) (User._id user) |}
    /\ Permutation items
         (map Listing.format
            (filter (fun q => opt_eqb (userId q) (Some (User._id user)))
               (qrcodes db)))
    /\ StronglySorted
         (fun a b => Listing.createdAt b <= Listing.createdAt a) items.
Proof.
  intros Hu. unfold Listing.list. rewrite Hu.
  set (own := filter _ (qrcodes db)).
  set (cmp := fun a b : doc => createdAt b - createdAt a).
  eexists. split; [|split].
  - f_equal. unfold countDocuments. fold own.
    rewrite length_map. f_equal; f_equal;
      apply Permutation_length, sort_perm.
  - apply Permutation_map. apply sort_perm.
  - apply StronglySorted_map.
    apply (sort_sorted cmp (fun a b : doc => createdAt b <= createdAt a));
      unfold cmp; intros; lia.
Qed.

(** X16: the listing answers an authenticated caller with its own links
    and no others, each link once, newest first, and with their number,
    which is the count the plan limit is checked against; without a live
    session it answers 401. *)
Theorem listing_shows_own_links (db : DB) (session : option ObjectId) :
  match getUserFromToken db session with
  | None =>
      Listing.list db session = Listing.Error 401 "Authentication required"
  | Some user =>
      exists items pg,
        Listing.list db session = Listing.Listed items pg
        /\ Permutation items
             (map Listing.format
                (filter (fun q => opt_eqb (userId q) (Some (User._id user)))
                   (qrcodes db)))
        /\ (forall it, In it items ->
              exists q, In q (qrcodes db)
                        /\ userId q = Some (User._id user)
                        /\ it = Listing.format q)
        /\ StronglySorted
             (fun a b => Listing.createdAt b <= Listing.createdAt a) items
        /\ Listing.count pg = countDocuments (qrcodes db) (User._id user)
        /\ Listing.totalItems pg = Listing.count pg
  end.
Proof.
  destruct (getUserFromToken db session) as [user|] eqn:Hu.
  - destruct (list_answer db session user Hu) as (items & Hl & Hp & Hs).
    exists items. eexists. split; [exact Hl|]. split; [exact Hp|].
    split; [|split; [exact Hs|split; reflexivity]].
    intros it Hit. apply (Permutation_in _ Hp) in Hit.
    apply in_map_iff in Hit as (q & <- & Hq).
    apply filter_In in Hq as [Hq Ho]. apply opt_eqb_eq in Ho.
    now exists q.
  - unfold Listing.list. now rewrite Hu.
Qed.

(** X17: a link created by an authenticated caller is in the caller's
    listing afterwards, with the identifiers of the creation, the short
    URL, the sanitized destination, no scans and the activity flag set;
    and the listing counts one link more than the caller owned. *)
Theorem created_link_is_listed (db db' : DB) (r : GenerateRequest) (b : Body)
  (user : User.doc) :
  generate db r = (db', Json 200 b) ->
  getUserFromToken db (g_session r) = Some user ->
  exists items pg it,
    Listing.list db' (g_session r) = Listing.Listed items pg
    /\ In it items
    /\ Listing.id it = g_id r
    /\ Listing.shortId it = g_shortId r
    /\ Listing.shortUrl it = BASE_URL ++ JS.js "/r/" ++ g_shortId r
    /\ Some (Listing.originalUrl it) = sanitizeUrl (default (g_url r) [])
    /\ Listing.totalScans it = 0
    /\ Listing.isActive it = true
    /\ Listing.count pg = countDocuments (qrcodes db) (User._id user) + 1.
Proof.
  intros Hg Hu.
  destruct (generate_200 db db' r b Hg)
    as (q & Hurl & _ & _ & Hid & Hsid & Hown & Hact & Han & Hqs & Hus & _).
  rewrite Hu in Hown, Hus. simpl in Hown.
  set (user' := User.set_qrCodesCreated user
                  (User.qrCodesCreated (User.usage user) + 1)) in *.
  assert (Hu' : getUserFromToken db' (g_session r) = Some user').
  { destruct (g_session r) as [uid|]; [|discriminate]. simpl in Hu |- *.
    rewrite Hus. now apply User_findById_save with (user := user). }
  destruct (list_answer db' (g_session r) user' Hu')
    as (items & Hl & Hp & _).
  change (User._id user') with (User._id user) in Hl, Hp.
  exists items. eexists. exists (Listing.format q).
  split; [exact Hl|]. split.
  { apply (Permutation_in _ (Permutation_sym Hp)). apply in_map.
    apply filter_In. split.
    - rewrite Hqs. apply in_or_app. right. now left.
    - rewrite Hown. apply opt_eqb_eq. reflexivity. }
  cbn [Listing.id Listing.shortId Listing.shortUrl Listing.originalUrl
       Listing.totalScans Listing.isActive Listing.count Listing.format].
  rewrite Hid, Hsid, Han, Hact, Hurl, Hqs, countDocuments_app, Hown.
  assert (E : opt_eqb (Some (User._id user)) (Some (User._id user)) = true)
    by (apply opt_eqb_eq; reflexivity).
  rewrite E. repeat split; reflexivity.
Qed.

(** X18: after a delete answered 200, with distinct link ids in the
    store, the link is no longer in the caller's listing, which counts
    one link less than the caller owned. *)
Theorem deleted_link_is_not_listed (db db' : DB) (r : DeleteRequest)
  (b : Body) :
  unique_ids db ->
  delete db r = (db', Json 200 b) ->
  exists user items pg,
    getUserFromToken db (d_session r) = Some user
    /\ Listing.list db' (d_session r) = Listing.Listed items pg
    /\ (forall it, In it items -> Listing.id it <> d_qrId r)
    /\ Listing.count pg = countDocuments (qrcodes db) (User._id user) - 1.
Proof.
  intros Hids Hd.
  destruct (delete_200 db db' r b Hids Hd) as (user & q & Hu & Hq & Hp & Hus).
  apply findOne_owned_holds in Hq as (_ & Hid & Hown).
  assert (Hu' : exists user',
             getUserFromToken db' (d_session r) = Some user'
             /\ User._id user' = User._id user).
  { destruct (d_session r) as [uid|]; [|discriminate]. simpl in Hu |- *.
    rewrite Hus. destruct (User.qrCodesCreated (User.usage user) >? 0).
    - eexists. split; [|shelve].
      now apply User_findById_save with (user := user).
      Unshelve. reflexivity.
    - now exists user. }
  destruct Hu' as (user' & Hu' & Hid').
  destruct (list_answer db' (d_session r) user' Hu') as (items & Hl & Hpi & _).
  rewrite Hid' in Hl, Hpi.
  exists user, items. eexists. split; [exact Hu|]. split; [exact Hl|].
  split.
  - intros it Hit. apply (Permutation_in _ Hpi) in Hit.
    apply in_map_iff in Hit as (d & <- & Hd').
    apply filter_In in Hd' as [Hd' _]. simpl. rewrite <- Hid.
    destruct Hids as [Hnd _].
    apply (Permutation_NoDup (Permutation_sym (Permutation_map _id Hp)))
      in Hnd.
    simpl in Hnd. inversion Hnd as [|? ? Hn _]; subst.
    intros E. apply Hn. rewrite <- E. now apply in_map.
  - cbn [Listing.count].
    rewrite <- (countDocuments_perm _ _ (User._id user) Hp).
    unfold countDocuments. simpl. rewrite Hown.
    assert (E : opt_eqb (Some (User._id user)) (Some (User._id user)) = true)
      by (apply opt_eqb_eq; reflexivity).
    rewrite E. simpl List.length. lia.
Qed.

End ListingProperties.

(** ** Sessions *)

Section SessionProperties.

Import Sessions.

Lemma Map_get_set_eq {V} (m : Map V) (k : jsstring) (v : V) :
  Map_get (Map_set m k v) k = Some v.
Proof.
  induction m as [|[k' v'] m IH]; simpl.
  - now rewrite str_eqb_refl.
  - destruct (str_eqb k' k) eqn:E; simpl; rewrite E; [reflexivity|exact IH].
Qed.

Lemma Map_get_set_neq {V} (m : Map V) (k k' : jsstring) (v : V) :
  k <> k' -> Map_get (Map_set m k v) k' = Map_get m k'.
Proof.
  intros Hk. induction m as [|[k0 v0] m IH]; simpl.
  - apply str_eqb_neq in Hk. now rewrite Hk.
  - destruct (str_eqb k0 k) eqn:E; simpl.
    + apply str_eqb_eq in E. subst k0.
      apply str_eqb_neq in Hk. now rewrite Hk.
    + now rewrite IH.
Qed.

Lemma Map_get_delete_eq {V} (m : Map V) (k : jsstring) :
  Map_get (Map_delete m k) k = None.
Proof.
  unfold Map_delete. induction m as [|[k' v'] m IH]; simpl; [reflexivity|].
  destruct (str_eqb k' k) eqn:E; simpl; [exact IH|]. now rewrite E.
Qed.

Lemma Map_get_delete_neq {V} (m : Map V) (k k' : jsstring) :
  k <> k' -> Map_get (Map_delete m k) k' = Map_get m k'.
Proof.
  intros Hk. unfold Map_delete.
  induction m as [|[k0 v0] m IH]; simpl; [reflexivity|].
  destruct (str_eqb k0 k) eqn:E; simpl.
  - apply str_eqb_eq in E. subst k0.
    apply str_eqb_neq in Hk. now rewrite Hk.
  - now rewrite IH.
Qed.

Lemma Map_delete_idempotent {V} (m : Map V) (k : jsstring) :
  Map_delete (Map_delete m k) k = Map_delete m k.
Proof.
  unfold Map_delete. induction m as [|[k' v'] m IH]; simpl; [reflexivity|].
  destruct (str_eqb k' k) eqn:E; simpl; [exact IH|].
  rewrite E. simpl. now rewrite IH.
Qed.

Lemma split_no_sep (sep : code_unit) (s : jsstring) :
  ~ In sep s -> split sep s = [s].
Proof.
  induction s as [|c s IH]; simpl; intros Hn; [reflexivity|].
  destruct (N.eqb_spec c sep) as [E|_]; [exfalso; apply Hn; now left|].
  rewrite IH; [reflexivity|]. intros Hin. apply Hn. now right.
Qed.

Lemma bearer_token (token : jsstring) :
  ~ In 32%N token ->
  nth 1 (split 32%N (JS.js "Bearer " ++ token)) [] = token.
Proof. intros Hn. simpl. now rewrite split_no_sep. Qed.

(** X19: a session opened for a token without a space authenticates the
    header [Bearer token] until seven days (604800000 ms) have passed,
    the last instant included, and the sessions are left as they are;
    later the header is refused and the session is deleted, so the token
    is refused at every instant from then on, while the sessions of the
    other tokens are kept. *)
Theorem session_lives_seven_days (sessions : Map Session) (db : Server.DB)
  (token : jsstring) (uid : ObjectId) (opened now : Date) :
  ~ In 32%N token ->
  let sessions' := open_session sessions token uid opened in
  let header := Some (JS.js "Bearer " ++ token) in
  (now <= opened + 604800000 ->
   getUserFromToken sessions' db header now
   = (sessions', Server.User_findById (Server.users db) uid))
  /\ (opened + 604800000 < now ->
      let expired := Map_delete sessions' token in
      getUserFromToken sessions' db header now = (expired, None)
      /\ (forall t, getUserFromToken expired db header t = (expired, None))
      /\ (forall token', token' <> token ->
            Map_get expired token' = Map_get sessions token')).
Proof.
  intros Hn sessions' header.
  assert (Hlive : forall s t,
            live_session s header t
            = match Map_get s token with
              | None => (Map_delete s token, None)
              | Some session =>
                  if expiresAt session <? t then (Map_delete s token, None)
                  else (s, Some (userId session))
              end).
  { intros s t. unfold live_session, header.
    rewrite bearer_token by exact Hn. reflexivity. }
  assert (Hget : Map_get sessions' token
                 = Some {| userId := uid;
                           expiresAt := opened + 604800000 |})
    by apply Map_get_set_eq.
  split.
  - intros Hle. unfold getUserFromToken. rewrite Hlive, Hget.
    cbn [expiresAt userId].
    destruct (Z.ltb_spec (opened + 604800000) now); [lia|reflexivity].
  - intros Hlt expired. split; [|split].
    + unfold getUserFromToken. rewrite Hlive, Hget. cbn [expiresAt].
      destruct (Z.ltb_spec (opened + 604800000) now); [reflexivity|lia].
    + intros t. unfold getUserFromToken. rewrite Hlive. unfold expired.
      now rewrite Map_get_delete_eq, Map_delete_idempotent.
    + intros token' Hneq. unfold expired, sessions', open_session.
      rewrite Map_get_delete_neq by congruence.
      apply Map_get_set_neq. congruence.
Qed.

End SessionProperties.

(** A session opened at noon of 2024-01-31 is live seven days later and
    not a millisecond after that. *)
Lemma session_lives_seven_days_witness :
  let db := sample_account_db in
  let sessions := Sessions.open_session [] "5f2a9c" sample_owner
                    1706702400000 in
  Sessions.getUserFromToken sessions db (Some (JS.js "Bearer 5f2a9c"))
    1707307200000
  = (sessions, Some (sample_user sample_owner "free" 1))
  /\ Sessions.getUserFromToken sessions db (Some (JS.js "Bearer 5f2a9c"))
       1707307200001
     = ([], None).
Proof.
  intros db sessions.
  assert (Hn : ~ In 32%N (JS.js "5f2a9c")).
  { simpl. intros H.
    repeat (destruct H as [H|H]; [discriminate H|]). destruct H. }
  destruct (session_lives_seven_days [] db "5f2a9c" sample_owner
              1706702400000 1707307200000 Hn) as [Hlive _].
  destruct (session_lives_seven_days [] db "5f2a9c" sample_owner
              1706702400000 1707307200001 Hn) as [_ Hdead].
  split.
  - exact (Hlive ltac:(lia)).
  - exact (proj1 (Hdead ltac:(lia))).
Defined.

(** ** The in-memory prototype *)

Section PrototypeProperties.

Context `{Runtime}.

Import Prototype.





End PrototypeProperties.

(** ** The calendar *)

Section Calendar.

Lemma civil_from_days_steps (z : Z) :
  civil_from_days z
  = civil_of (year_of_era (day_of_era z) + era_of z * 400)
      (day_of_year (day_of_era z)).
Proof. reflexivity. Qed.

Lemma toISODate_steps (t : Date) :
  toISODate t = iso_of (civil_from_days (utc_day t)).
Proof.
  unfold toISODate, utc_day, iso_of.
  now destruct (civil_from_days (t / msPerDay)) as [[y m] d].
Qed.

Lemma day_of_era_range (z : Z) : 0 <= day_of_era z < 146097.
Proof. unfold day_of_era, era_of. Z.div_mod_to_equations. lia. Qed.

Lemma year_of_era_range (doe : Z) :
  0 <= doe < 146097 ->
  0 <= year_of_era doe <= 399 /\ 0 <= day_of_year doe <= 365.
Proof.
  unfold day_of_year, year_of_era. intros H.
  Z.div_mod_to_equations. lia.
Qed.

Lemma year_of_era_mono (a b : Z) :
  0 <= a -> a <= b -> b < 146097 -> year_of_era a <= year_of_era b.
Proof. unfold year_of_era. intros. Z.div_mod_to_equations. lia. Qed.

(** Later days have a later year, or the same year and a later day of
    the year. *)
Lemma march_order (z z' : Z) :
  z < z' ->
  let Y := year_of_era (day_of_era z) + era_of z * 400 in
  let Y' := year_of_era (day_of_era z') + era_of z' * 400 in
  Y < Y' \/ (Y = Y' /\ day_of_year (day_of_era z) < day_of_year (day_of_era z')).
Proof.
  intros Hz Y Y'. subst Y Y'.
  pose proof (day_of_era_range z) as Hd.
  pose proof (day_of_era_range z') as Hd'.
  destruct (year_of_era_range _ Hd) as [Hy _].
  destruct (year_of_era_range _ Hd') as [Hy' _].
  assert (He : era_of z <= era_of z')
    by (unfold era_of; apply Z.div_le_mono; lia).
  destruct (Z.eq_dec (era_of z) (era_of z')) as [E|E]; [|left; lia].
  assert (Hdoe : day_of_era z < day_of_era z')
    by (unfold day_of_era; rewrite E; lia).
  pose proof (year_of_era_mono (day_of_era z) (day_of_era z')
                ltac:(lia) ltac:(lia) ltac:(lia)) as Hm.
  destruct (Z.eq_dec (year_of_era (day_of_era z))
              (year_of_era (day_of_era z'))) as [Ey|Ey]; [|left; lia].
  right. split; [lia|]. unfold day_of_year. rewrite Ey. lia.
Qed.

Lemma civil_of_range (Y doy : Z) :
  0 <= doy <= 365 ->
  let '(y, m, d) := civil_of Y doy in
  Y <= y <= Y + 1 /\ 1 <= m <= 12 /\ 1 <= d <= 31.
Proof.
  intros H. unfold civil_of. cbv zeta.
  set (mp := (5 * doy + 2) / 153).
  assert (Hmp : 0 <= mp <= 11) by (unfold mp; Z.div_mod_to_equations; lia).
  assert (Hd : 1 <= doy - (153 * mp + 2) / 5 + 1 <= 31)
    by (unfold mp; Z.div_mod_to_equations; lia).
  destruct (Z.ltb_spec mp 10);
    match goal with
    | |- context [?a <=? 2] => destruct (Z.leb_spec a 2)
    end; lia.
Qed.

Lemma civil_of_order (Y Y' doy doy' : Z) :
  0 <= doy <= 365 -> 0 <= doy' <= 365 ->
  Y < Y' \/ (Y = Y' /\ doy < doy') ->
  date_lt (civil_of Y doy) (civil_of Y' doy').
Proof.
  intros H H' Ho. unfold civil_of, date_lt. cbv zeta.
  set (mp := (5 * doy + 2) / 153).
  set (mp' := (5 * doy' + 2) / 153).
  set (d := doy - (153 * mp + 2) / 5 + 1).
  set (d' := doy' - (153 * mp' + 2) / 5 + 1).
  assert (Hmp : 0 <= mp <= 11) by (unfold mp; Z.div_mod_to_equations; lia).
  assert (Hmp' : 0 <= mp' <= 11)
    by (unfold mp'; Z.div_mod_to_equations; lia).
  assert (Hmd : doy < doy' -> mp < mp' \/ (mp = mp' /\ d < d')).
  { intros Hlt. unfold d, d', mp, mp'. Z.div_mod_to_equations. lia. }
  clearbody mp mp' d d'.
  destruct (Z.ltb_spec mp 10); destruct (Z.ltb_spec mp' 10);
    repeat match goal with
           | |- context [?a <=? 2] => destruct (Z.leb_spec a 2)
           end; lia.
Qed.

Lemma civil_order (z z' : Z) :
  z < z' -> date_lt (civil_from_days z) (civil_from_days z').
Proof.
  intros Hz. rewrite !civil_from_days_steps.
  apply civil_of_order.
  - apply year_of_era_range, day_of_era_range.
  - apply year_of_era_range, day_of_era_range.
  - now apply march_order.
Qed.

Lemma civil_range (z : Z) :
  0 <= z < 2932897 ->
  let '(y, m, d) := civil_from_days z in
  1970 <= y <= 9999 /\ 1 <= m <= 12 /\ 1 <= d <= 31.
Proof.
  intros Hz.
  pose proof (civil_of_range (year_of_era (day_of_era z) + era_of z * 400)
                (day_of_year (day_of_era z))
                (proj2 (year_of_era_range _ (day_of_era_range z)))) as Hr.
  rewrite <- civil_from_days_steps in Hr.
  assert (Hlo : z = 0 \/ date_lt (civil_from_days 0) (civil_from_days z)).
  { destruct (Z.eq_dec z 0); [now left|right; apply civil_order; lia]. }
  assert (Hhi : z = 2932896
                \/ date_lt (civil_from_days z) (civil_from_days 2932896)).
  { destruct (Z.eq_dec z 2932896); [now left|right; apply civil_order; lia]. }
  change (civil_from_days 0) with (1970, 1, 1) in Hlo.
  change (civil_from_days 2932896) with (9999, 12, 31) in Hhi.
  destruct Hlo as [->|Hlo]; [vm_compute; intuition discriminate|].
  destruct Hhi as [->|Hhi]; [vm_compute; intuition discriminate|].
  destruct (civil_from_days z) as [[y m] d]. unfold date_lt in Hlo, Hhi.
  lia.
Qed.

End Calendar.

(** ** The texts of the dates *)

Section IsoDates.

Lemma digit_compare (a b : Z) :
  (digit a ?= digit b)%N = (a mod 10 ?= b mod 10).
Proof.
  unfold digit. rewrite <- N2Z.inj_compare, !N2Z.inj_add.
  rewrite !Z2N.id by (apply Z.mod_pos_bound; lia).
  apply Z.add_compare_mono_l.
Qed.

Lemma digits2 (n : Z) :
  0 <= n <= 99 -> n = 10 * ((n / 10) mod 10) + n mod 10.
Proof. intros. Z.div_mod_to_equations. lia. Qed.

Lemma digits4 (n : Z) :
  0 <= n <= 9999 ->
  n = 1000 * ((n / 1000) mod 10) + 100 * ((n / 100) mod 10)
      + 10 * ((n / 10) mod 10) + n mod 10.
Proof. intros. Z.div_mod_to_equations. lia. Qed.

Ltac compare_digit :=
  match goal with
  | |- match (?a ?= ?b) with _ => _ end = _ =>
      destruct (Z.compare_spec a b); [|reflexivity|exfalso; lia]
  end.

(** The texts of two dates compare as the dates do. *)
Lemma iso_order (y m d y' m' d' : Z) :
  0 <= y <= 9999 -> 0 <= m <= 99 -> 0 <= d <= 99 ->
  0 <= y' <= 9999 -> 0 <= m' <= 99 -> 0 <= d' <= 99 ->
  date_lt (y, m, d) (y', m', d') ->
  localeCompare (iso_of (y, m, d)) (iso_of (y', m', d')) = -1.
Proof.
  intros Hy Hm Hd Hy' Hm' Hd' Hlt. unfold date_lt in Hlt.
  pose proof (digits4 y Hy) as Ey. pose proof (digits4 y' Hy') as Ey'.
  pose proof (digits2 m Hm) as Em. pose proof (digits2 m' Hm') as Em'.
  pose proof (digits2 d Hd) as Ed. pose proof (digits2 d' Hd') as Ed'.
  unfold iso_of, pad4, pad2. cbn [app js].
  change (js "-") with [45%N]. cbn [app localeCompare].
  rewrite !digit_compare. rewrite N.compare_refl.
  repeat match goal with
         | |- context [?a mod 10] =>
             let Hb := fresh "Hb" in
             pose proof (Z.mod_pos_bound a 10 ltac:(lia)) as Hb;
             generalize dependent (a mod 10); intros
         end.
  repeat compare_digit. exfalso. lia.
Qed.

Lemma toISODate_order (t t' : Date) :
  0 <= t -> t' < 253402300800000 -> utc_day t < utc_day t' ->
  localeCompare (toISODate t) (toISODate t') = -1.
Proof.
  intros Ht Ht' Hlt. rewrite !toISODate_steps.
  assert (Hr : 0 <= utc_day t /\ utc_day t' < 2932897).
  { unfold utc_day, msPerDay in *. Z.div_mod_to_equations. lia. }
  pose proof (civil_range (utc_day t) ltac:(lia)) as H1.
  pose proof (civil_range (utc_day t') ltac:(lia)) as H2.
  pose proof (civil_order _ _ Hlt) as Ho.
  destruct (civil_from_days (utc_day t)) as [[y m] d].
  destruct (civil_from_days (utc_day t')) as [[y' m'] d'].
  apply iso_order; try lia. exact Ho.
Qed.

End IsoDates.

(** ** The order of the daily series *)

Section Chronology.

Import QRCodeModel Analytics.

Lemma localeCompare_eq (a : jsstring) :
  forall b, localeCompare a b = 0 -> a = b.
Proof.
  induction a as [|x a IH]; intros [|y b]; simpl; try discriminate;
    [reflexivity|].
  destruct (N.compare_spec x y) as [->|_|_]; try discriminate.
  intros Hc. now rewrite (IH b Hc).
Qed.

Lemma localeCompare_refl (a : jsstring) : localeCompare a a = 0.
Proof.
  induction a as [|x a IH]; simpl; [reflexivity|].
  now rewrite N.compare_refl.
Qed.

(** Two lists in strict order with the same elements are the same list. *)
Lemma sorted_unique {A} (lt : A -> A -> Prop) :
  (forall x y, lt x y -> lt y x -> False) ->
  forall l l' : list A,
  StronglySorted lt l -> StronglySorted lt l' ->
  (forall x, In x l <-> In x l') -> l = l'.
Proof.
  intros Hasym. induction l as [|a l IH]; intros [|a' l'] Hs Hs' Hin.
  - reflexivity.
  - exfalso. apply (Hin a'). now left.
  - exfalso. apply (Hin a). now left.
  - inversion Hs as [|? ? Hsl Ha]; subst.
    inversion Hs' as [|? ? Hsl' Ha']; subst.
    rewrite Forall_forall in Ha, Ha'.
    assert (E : a = a').
    { destruct (proj1 (Hin a) (or_introl eq_refl)) as [E|Hl]; [now symmetry|].
      destruct (proj2 (Hin a') (or_introl eq_refl)) as [E|Hr]; [exact E|].
      exfalso. exact (Hasym a a' (Ha a' Hr) (Ha' a Hl)). }
    subst a'. f_equal. apply IH; [assumption..|].
    intros x. split; intros Hx.
    + destruct (proj1 (Hin x) (or_intror Hx)) as [<-|Hx']; [|exact Hx'].
      exfalso. exact (Hasym a a (Ha a Hx) (Ha a Hx)).
    + destruct (proj2 (Hin x) (or_intror Hx)) as [<-|Hx']; [|exact Hx'].
      exfalso. exact (Hasym a a (Ha' a Hx) (Ha' a Hx)).
Qed.

Lemma utc_day_minus_days (now i : Z) :
  utc_day (minus_days now i) = utc_day now - i.
Proof.
  unfold utc_day, minus_days.
  replace (now - i * msPerDay) with (now + (- i) * msPerDay) by lia.
  rewrite Z.div_add by (unfold msPerDay; lia). lia.
Qed.

Lemma toISODate_day (t t' : Date) :
  utc_day t = utc_day t' -> toISODate t = toISODate t'.
Proof. intros E. now rewrite !toISODate_steps, E. Qed.

Lemma StronglySorted_NoDup_strict {A} (R : A -> A -> Prop) (l : list A) :
  StronglySorted R l -> NoDup l ->
  StronglySorted (fun x y => R x y /\ x <> y) l.
Proof.
  induction 1 as [|a l Hs IH Ha]; intros Hn; constructor.
  - apply IH. now inversion Hn.
  - inversion Hn as [|? ? Hna _]; subst.
    rewrite Forall_forall in *. intros x Hx. split; [now apply Ha|].
    intros ->. contradiction.
Qed.

(** X22: the daily series is chronological, one bucket a day.  For a
    clock between 31 January 1970 and the end of the year 9999 and a
    history with no scan in the future, the dates of the series are those
    of the last 30 days, today included, from the oldest to today,
    preceded by the date of the day 30 days ago exactly when a scan of the
    last 30 days fell on that day; and the text of an earlier one of
    these dates always sorts before the text of a later one. *)
Theorem daily_series_is_chronological (now : Date) (h : list ScanEvent) :
  0 <= minus_days now 30 -> now < 253402300800000 ->
  Forall (fun scan => timestamp scan <= now) h ->
  let old :=
    existsb (fun scan => (minus_days now 30 <=? timestamp scan)
                         && (utc_day (timestamp scan) =? utc_day now - 30))
      h in
  map date (getDailyScans now h)
  = map (fun i => toISODate (minus_days now (Z.of_nat i)))
      (rev (seq 0 (if old then 31 else 30)))
  /\ forall i j,
       0 <= j -> j < i -> i <= 30 ->
       localeCompare (toISODate (minus_days now i))
         (toISODate (minus_days now j)) = -1.
Proof.
  intros Hlo Hhi Hpast old.
  assert (Horder : forall i j,
            0 <= j -> j < i -> i <= 30 ->
            localeCompare (toISODate (minus_days now i))
              (toISODate (minus_days now j)) = -1).
  { intros i j Hj Hij Hi. apply toISODate_order.
    - unfold minus_days, msPerDay in *. lia.
    - unfold minus_days, msPerDay in *. lia.
    - rewrite !utc_day_minus_days. lia. }
  split; [|exact Horder].
  set (n := if old then 31%nat else 30%nat).
  assert (Hn : (30 <= n <= 31)%nat) by (unfold n; destruct old; lia).
  set (lt := fun x y : jsstring => localeCompare x y <= 0 /\ x <> y).
  destruct (daily_series_dates now h) as [Hnd Hdates].
  apply (sorted_unique lt).
  - intros x y [H1 N1] [H2 _]. apply N1. apply localeCompare_eq.
    rewrite localeCompare_antisym in H2. lia.
  - apply StronglySorted_NoDup_strict; [|exact Hnd].
    apply StronglySorted_map. apply daily_series_sorted.
  - assert (Hsorted : forall k : nat,
              (k <= 31)%nat ->
              StronglySorted lt
                (map (fun i => toISODate (minus_days now (Z.of_nat i)))
                   (rev (seq 0 k)))).
    { induction k as [|k IH]; intros Hk; [constructor|].
      rewrite seq_S, rev_app_distr. simpl. constructor; [apply IH; lia|].
      apply Forall_forall. intros x Hx.
      apply in_map_iff in Hx as (j & <- & Hj).
      rewrite <- in_rev in Hj. apply in_seq in Hj.
      assert (Hc : localeCompare
                     (toISODate (minus_days now (Z.of_nat k)))
                     (toISODate (minus_days now (Z.of_nat j))) = -1)
        by (apply Horder; lia).
      split; [lia|]. intros E. rewrite E, localeCompare_refl in Hc.
      discriminate. }
    apply Hsorted. lia.
  - intros d. rewrite Hdates. rewrite in_map_iff. split.
    + intros [(i & Hi & ->)|(scan & Hs & ->)].
      * exists (Z.to_nat i). split; [now rewrite Z2Nat.id by lia|].
        rewrite <- in_rev. apply in_seq. lia.
      * apply filter_In in Hs as [Hs Hw]. apply Z.leb_le in Hw.
        rewrite Forall_forall in Hpast. specialize (Hpast scan Hs).
        assert (Hday : utc_day now - 30 <= utc_day (timestamp scan)
                       <= utc_day now).
        { rewrite <- (utc_day_minus_days now 30). unfold utc_day.
          split; apply Z.div_le_mono; unfold msPerDay; lia. }
        exists (Z.to_nat (utc_day now - utc_day (timestamp scan))).
        split.
        -- apply toISODate_day. rewrite utc_day_minus_days. lia.
        -- rewrite <- in_rev. apply in_seq.
           destruct (Z.eq_dec (utc_day (timestamp scan)) (utc_day now - 30))
             as [E|E]; [|lia].
           assert (Ho : old = true).
           { apply existsb_exists. exists scan. split; [exact Hs|].
             apply andb_true_iff. split; [now apply Z.leb_le|].
             now apply Z.eqb_eq. }
           unfold n. rewrite Ho. lia.
    + intros (i & <- & Hi). rewrite <- in_rev in Hi. apply in_seq in Hi.
      destruct (Nat.eq_dec i 30) as [->|Hne].
      * right. assert (Ho : old = true)
          by (unfold n in Hi; destruct old; [reflexivity|lia]).
        apply existsb_exists in Ho as (scan & Hs & Hc).
        apply andb_true_iff in Hc as [Hw Hd]. apply Z.eqb_eq in Hd.
        exists scan. split; [apply filter_In; now split|].
        apply toISODate_day. rewrite utc_day_minus_days. lia.
      * left. exists (Z.of_nat i). split; [lia|reflexivity].
Qed.

End Chronology.

(** The sample history on the day after its scans: 30 buckets. *)
Lemma daily_series_is_chronological_witness :
  map Analytics.date (Analytics.getDailyScans 1706788800000 sample_history)
  = map (fun i => toISODate (minus_days 1706788800000 (Z.of_nat i)))
      (rev (seq 0 30)).
Proof.
  assert (Hpast : Forall (fun scan => QRCodeModel.timestamp scan
                                      <= 1706788800000) sample_history).
  { repeat constructor; simpl; lia. }
  exact (proj1 (daily_series_is_chronological 1706788800000 sample_history
                  ltac:(unfold minus_days, msPerDay; lia) ltac:(lia) Hpast)).
Defined.

(** ** The Express application *)

Section ExpressProperties.

Context `{Runtime} `{Jwt}.

Import QRCodeModel.






End ExpressProperties.


(** ** The totals of the device breakdown *)

Section DeviceTotals.

Import QRCodeModel Analytics.

Lemma classify_names (ua : jsstring) :
  In (classify ua)
    [JS.js "Mobile"; JS.js "Tablet"; JS.js "Bot"; JS.js "Desktop"].
Proof.
  unfold classify.
  repeat match goal with
         | |- context [if ?c then _ else _] => destruct c
         end; simpl; auto.
Qed.

Lemma device_keys_length (h : list ScanEvent) :
  Z.of_nat (List.length (device_keys h)) = total_classified h.
Proof.
  unfold device_keys, total_classified.
  induction h as [|scan h IH]; simpl; [reflexivity|].
  destruct (agent_of scan); simpl List.length; lia.
Qed.

Lemma device_keys_names (h : list ScanEvent) (d : jsstring) :
  In d (device_keys h) ->
  In d [JS.js "Mobile"; JS.js "Tablet"; JS.js "Bot"; JS.js "Desktop"].
Proof.
  unfold device_keys. rewrite in_flat_map. intros (scan & _ & Hd).
  destruct (agent_of scan) as [ua|]; [|destruct Hd].
  destruct Hd as [<-|[]]. apply classify_names.
Qed.

(** X24: the counts of the device breakdown add up to the number of scans
    that carry a user agent; there are at most four entries, each for
    one of the classes Mobile, Tablet, Bot and Desktop, and each with at
    least one scan. *)
Theorem device_counts_add_up (h : list ScanEvent) :
  let stats := getDeviceStats h in
  fold_right Z.add 0 (map Analytics.count stats) = total_classified h
  /\ (List.length stats <= 4)%nat
  /\ forall e, In e stats ->
       In (device e)
         [JS.js "Mobile"; JS.js "Tablet"; JS.js "Bot"; JS.js "Desktop"]
       /\ 1 <= Analytics.count e <= total_classified h.
Proof.
  intros stats. subst stats. unfold getDeviceStats.
  rewrite fold_device_keys.
  destruct (count_into (device_keys h) [] (NoDup_nil _))
    as (Hnd & Hget & Hkeys & Hsum).
  set (m := fold_left bump (device_keys h) []) in *.
  set (mk := fun e : jsstring * Z => _).
  set (cmp := fun a b : DeviceStat => Analytics.count b - Analytics.count a).
  assert (Hperm : Permutation (sort cmp (map mk m)) (map mk m))
    by apply sort_perm.
  assert (Hnames : forall k, In k (keys m) ->
            In k [JS.js "Mobile"; JS.js "Tablet"; JS.js "Bot";
                  JS.js "Desktop"]).
  { intros k Hk. apply Hkeys in Hk as [[]|Hk]. now apply device_keys_names in Hk. }
  assert (Htotal : fold_right Z.add 0 (map Analytics.count (sort cmp (map mk m)))
                   = total_classified h).
  { rewrite (sum_permutation _ _ (Permutation_map Analytics.count Hperm)).
    rewrite map_map.
    rewrite (map_ext (fun e => Analytics.count (mk e)) snd) by reflexivity.
    unfold sum_values in Hsum. rewrite Hsum. simpl.
    apply device_keys_length. }
  split; [exact Htotal|]. split.
  - rewrite (Permutation_length Hperm), length_map.
    rewrite <- (length_map fst m). fold (keys m).
    change 4%nat
      with (List.length [JS.js "Mobile"; JS.js "Tablet"; JS.js "Bot";
                         JS.js "Desktop"]).
    apply (NoDup_incl_length Hnd). intros k Hk. now apply Hnames.
  - intros e He. apply (Permutation_in _ Hperm) in He.
    apply in_map_iff in He as ([k v] & <- & Hkv). simpl.
    assert (Hk : In k (keys m)) by (apply (in_map fst) in Hkv; exact Hkv).
    split; [now apply Hnames|].
    apply Map_get_In in Hkv; [|exact Hnd].
    specialize (Hget k). rewrite Hkv, or_0_Some in Hget. simpl in Hget.
    apply Hkeys in Hk as [[]|Hk].
    pose proof (proj2 (occurrences_pos k (device_keys h)) Hk) as Hpos.
    assert (Hle : occurrences k (device_keys h)
                  <= Z.of_nat (List.length (device_keys h))).
    { unfold occurrences. apply Nat2Z.inj_le.
      clear. induction (device_keys h) as [|x l IH]; simpl; [lia|].
      destruct (str_eqb k x); simpl; lia. }
    rewrite device_keys_length in Hle. lia.
Qed.

End DeviceTotals.

(** ** Features of the plans *)

Section PlanFeatures.

Context `{Runtime}.

Import QRCodeModel AnalyticsRoutes.

Lemma casts_found (qs : list doc) (id uid : ObjectId) (q : doc) :
  Server.findOne_owned qs id uid = Some q -> Server.casts qs id = true.
Proof.
  intros Hq. apply findOne_owned_holds in Hq as (Hin & <- & _).
  now apply casts_stored.
Qed.

Lemma pre_save_plan (d : User.loaded) :
  User.plan (User.pre_save_limits d) = User.plan (User.this d).
Proof.
  unfold User.pre_save_limits. destruct (User.isModified_plan d);
    [|reflexivity].
  repeat match goal with
         | |- context [if ?c then _ else _] => destruct c
         end; reflexivity.
Qed.

Lemma export_history (h : list ScanEvent) :
  map (fun scan => {| timestamp := timestamp scan;
                      userAgent := userAgent scan;
                      ipAddress := ipAddress scan;
                      location := location scan |}) h
  = h.
Proof.
  induction h as [|[t u i l] h IH]; simpl; [reflexivity|]. now rewrite IH.
Qed.

(** X21: the analytics and the export follow the plan.  When an account
    is given another plan and saved, the limits the hook sets decide the
    answers: on the free plan the dashboard, the export and the analytics
    of an own link are answered 403; on the pro and the enterprise plan
    the dashboard is answered, and for an own link so are the analytics
    and the export, which holds the whole stored history and the scan
    counter of the link. *)
Theorem premium_features_follow_the_plan (d : User.loaded) (p : jsstring)
  (qs : list doc) (id : ObjectId) (now now' : Date) :
  User.plan (User.this d) <> p ->
  let user := User.pre_save_limits (User.assign_plan d p) in
  User._id user = User._id (User.this d)
  /\ User.plan user = p
  /\ (p = JS.js "free" ->
      dashboard qs user now now'
      = Error 403 "Analytics access requires premium plan"
      /\ export qs user id = Error 403 "Data export requires premium plan"
      /\ forall q, Server.findOne_owned qs id (User._id user) = Some q ->
           qr_analytics qs user id now now'
           = Error 403 "Analytics access requires premium plan")
  /\ (p = JS.js "pro" \/ p = JS.js "enterprise" ->
      (exists dash, dashboard qs user now now' = DashboardOk dash)
      /\ forall q, Server.findOne_owned qs id (User._id user) = Some q ->
           (exists a, qr_analytics qs user id now now' = QRAnalyticsOk a)
           /\ exists data,
                export qs user id
                = ExportOk (JS.js "qr-analytics-" ++ shortId q
                            ++ JS.js ".json") data
                /\ ex_scanHistory data = history q
                /\ ex_totalScans data = scans_of q).
Proof.
  intros Hp user. apply str_eqb_neq in Hp.
  assert (Hsave : user
                  = User.pre_save_limits
                      {| User.this := User.set_plan (User.this d) p;
                         User.isModified_plan := true |}).
  { unfold user, User.assign_plan. now rewrite Hp. }
  split; [rewrite Hsave, pre_save_id; reflexivity|].
  split; [rewrite Hsave, pre_save_plan; reflexivity|].
  split.
  - intros ->.
    assert (Hl : User.limits user
                 = {| User.maxQRCodes := 5; User.maxScansPerMonth := 100;
                      User.canCustomize := false;
                      User.canTrackAnalytics := false;
                      User.canExportData := false |})
      by (rewrite Hsave; reflexivity).
    unfold dashboard, export, qr_analytics. rewrite Hl. cbn [negb
      User.canTrackAnalytics User.canExportData].
    repeat split. intros q Hq.
    now rewrite (casts_found _ _ _ _ Hq), Hq.
  - intros Hplan.
    assert (Hl : User.canTrackAnalytics (User.limits user) = true
                 /\ User.canExportData (User.limits user) = true)
      by (rewrite Hsave; destruct Hplan as [-> | ->]; split; reflexivity).
    destruct Hl as [Ha He].
    unfold dashboard, export, qr_analytics. rewrite Ha, He. cbn [negb].
    split; [eexists; reflexivity|].
    intros q Hq. rewrite (casts_found _ _ _ _ Hq), Hq. cbn [negb].
    split; [eexists; reflexivity|].
    eexists. split; [reflexivity|].
    cbn [ex_scanHistory ex_totalScans]. split; [apply export_history|].
    reflexivity.
Qed.

End PlanFeatures.

(** The sample account is moved to the pro plan and exports its link. *)
Lemma premium_features_follow_the_plan_witness :
  exists data,
    @AnalyticsRoutes.export sample_runtime [sample_scanned_link]
      sample_pro_user "665f1c2ab7e4d90012a4c001"
    = AnalyticsRoutes.ExportOk "qr-analytics-Ab3dE9xZ.json" data
    /\ AnalyticsRoutes.ex_scanHistory data = sample_history.
Proof.
  assert (Hp : User.plan (sample_user sample_owner "free" 1) <> JS.js "pro")
    by discriminate.
  destruct (@premium_features_follow_the_plan sample_runtime
              {| User.this := sample_user sample_owner "free" 1;
                 User.isModified_plan := false |}
              "pro" [sample_scanned_link] "665f1c2ab7e4d90012a4c001"
              1706788800000 1706788800005 Hp)
    as (_ & _ & _ & Hpro).
  destruct (Hpro (or_introl eq_refl)) as [_ Hq].
  destruct (Hq sample_scanned_link eq_refl) as (_ & data & He & Hh & _).
  exists data. split; [exact He|exact Hh].
Defined.

(** ** Closed examples *)

(** The dashboard of the pro account on the day after the two scans. *)
Lemma dashboard_overview_witness :
  exists d,
    AnalyticsRoutes.dashboard [sample_scanned_link; sample_foreign_link]
      sample_pro_user 1706788800000 1706788800005
    = AnalyticsRoutes.DashboardOk d
    /\ AnalyticsRoutes.totalQRCodes (AnalyticsRoutes.overview d) = 1
    /\ AnalyticsRoutes.totalScans (AnalyticsRoutes.overview d) = 2
    /\ AnalyticsRoutes.scansThisMonth (AnalyticsRoutes.overview d) = 2.
Proof.
  destruct (dashboard_overview [sample_scanned_link; sample_foreign_link]
              sample_pro_user 1706788800000 1706788800005 eq_refl)
    as (d & Hd & Hrest).
  cbv zeta in Hrest. destruct Hrest as (H1 & _ & H3 & H4 & _).
  exists d. split; [exact Hd|]. rewrite H1, H3, H4.
  repeat split; reflexivity.
Defined.

Lemma dashboard_rankings_witness :
  exists d,
    AnalyticsRoutes.dashboard [sample_scanned_link; sample_foreign_link]
      sample_pro_user 1706788800000 1706788800005
    = AnalyticsRoutes.DashboardOk d
    /\ (List.length (AnalyticsRoutes.recentActivity d) <= 20)%nat
    /\ forall t, In t (AnalyticsRoutes.topPerforming d) ->
         t = top_of sample_scanned_link.
Proof.
  assert (Hd : exists d,
             AnalyticsRoutes.dashboard
               [sample_scanned_link; sample_foreign_link]
               sample_pro_user 1706788800000 1706788800005
             = AnalyticsRoutes.DashboardOk d).
  { unfold AnalyticsRoutes.dashboard.
    change (User.canTrackAnalytics (User.limits sample_pro_user)) with true.
    cbn [negb]. eexists. reflexivity. }
  destruct Hd as [d Hd]. exists d. split; [exact Hd|].
  destruct (dashboard_rankings _ _ _ _ d Hd)
    as ((Hlen & _) & (_ & _ & Hown & _)).
  split; [exact Hlen|].
  intros t Ht. destruct (Hown t Ht) as (q & [<-|[]] & ->). reflexivity.
Defined.


(** The owner of the sample link creates a second one and lists. *)
Lemma created_link_is_listed_witness :
  let r := sample_create (Some sample_owner) "example.com" "Zz9yX8wV"
             "665f1c2ab7e4d90012a4c002" in
  let db' := fst (@Server.generate sample_runtime sample_account_db r) in
  exists items pg it,
    Listing.list db' (Some sample_owner) = Listing.Listed items pg
    /\ In it items
    /\ Listing.id it = JS.js "665f1c2ab7e4d90012a4c002"
    /\ Listing.count pg = 2.
Proof.
  intros r db'.
  assert (Hg : exists b,
             @Server.generate sample_runtime sample_account_db r
             = (db', Server.Json 200 b)).
  { eexists. cbv. reflexivity. }
  destruct Hg as [b Hg].
  destruct (@created_link_is_listed sample_runtime sample_account_db db' r b
              (sample_user sample_owner "free" 1) Hg eq_refl)
    as (items & pg & it & Hl & Hin & Hid & _ & _ & _ & _ & _ & Hc).
  exists items, pg, it. repeat split; assumption.
Defined.

(** The owner of the sample link deletes it and lists. *)
Lemma deleted_link_is_not_listed_witness :
  let r := {| Server.d_session := Some sample_owner;
              Server.d_qrId := "665f1c2ab7e4d90012a4c001" |} in
  let db' := fst (@Server.delete sample_runtime sample_account_db r) in
  unique_ids sample_account_db
  /\ exists items pg,
       Listing.list db' (Some sample_owner) = Listing.Listed items pg
       /\ Listing.count pg = 0.
Proof.
  intros r db'.
  assert (Hdb : unique_ids sample_account_db).
  { split; (constructor; [intros []|constructor]). }
  split; [exact Hdb|].
  assert (Hd : exists b,
             @Server.delete sample_runtime sample_account_db r
             = (db', Server.Json 200 b)).
  { eexists. cbv. reflexivity. }
  destruct Hd as [b Hd].
  destruct (@deleted_link_is_not_listed sample_runtime sample_account_db db' r
              b Hdb Hd)
    as (user & items & pg & Hu & Hl & _ & Hc).
  change (Some (sample_user sample_owner "free" 1) = Some user) in Hu.
  injection Hu as <-.
  exists items, pg. split; [exact Hl|exact Hc].
Defined.

